(** * Book Review Management System: the request handlers of server/app.js

    The Express server keeps five MySQL tables (users, books, reviews,
    comments, images) and answers each request with a status code and a JSON
    body.  Every handler is embedded as a function from the store (and the
    request's parameters) to the response and the store after the request.

    Conventions of the embedding:
    - a table is the list of its rows in insertion order together with its
      AUTO_INCREMENT counter; the constraints of the schema created by
      [GET /init] (NOT NULL, UNIQUE, FOREIGN KEY ... ON DELETE CASCADE, the
      CHECK on [rating]) are part of the insert, update and delete operations,
      and a statement the storage engine rejects makes [executeQuery] reject,
      which every handler turns into its 500 answer;
    - identifiers are integers; SQL string comparison is string equality;
      column lengths, the [updated_at] column and the AUTO_INCREMENT values
      that a rejected INSERT uses up are not modelled;
    - a string is the UTF-8 text of the JavaScript string, and a number is
      the rational that its decimal text denotes, the text in which JSON and
      the driver's statements carry it;
    - the [rating] of a request body is any JSON value, or none; the other
      fields of a body are strings, or absent;
    - SQL's AVG over the INT column [rating] is a DECIMAL with four decimals;
    - bcrypt, jsonwebtoken, the numeric value of a string and what the
      storage engine makes of a string or of the members of an object in
      place of a rating are parameters of the development: the handlers are
      defined and verified for every implementation of them;
    - [serve] is the application: it sends a request to the handler of its
      route, behind [verifyToken] where the route is registered with it.

    The statements C1 to C10 are about single requests.  [serve_consistent]
    shows that every request keeps the constraints of the schema, which is
    where their assumptions about the store (a UNIQUE email, the review of an
    image, the book of a review) come from. *)

From Stdlib Require Import ZArith QArith Qround Qabs List String Bool Lia Lqa.
From Stdlib Require Import Permutation Sorted.
Import ListNotations.

Local Open Scope string_scope.
Local Open Scope list_scope.
Local Open Scope Z_scope.

(** ** JavaScript values and the operators the handlers apply to them *)

(** A field of a request body is what [express.json()] made of it: any JSON
    value, or nothing at all. *)
#[warnings="-register-all"]
Inductive JsValue : Type :=
| JUndefined
| JNull
| JBool (b : bool)
| JNum (q : Q)
| JStr (s : string)
| JArr (elements : list JsValue)
| JObj (members : list (string * JsValue)).

(** A Number: NaN, an infinity, or a finite value. *)
Inductive JsNumber : Type :=
| NaN
| Infinity (negative : bool)
| Finite (q : Q).

(** [!v] is [negb (js_truthy v)]: arrays and objects are truthy, the empty
    string is not. *)
Definition js_truthy (v : JsValue) : bool :=
  match v with
  | JUndefined => false
  | JNull => false
  | JBool b => b
  | JNum q => negb (Qeq_bool q 0)
  | JStr s => negb (String.eqb s "")
  | JArr _ => true
  | JObj _ => true
  end.

Definition Qlt_bool (x y : Q) : bool := negb (Qle_bool y x).

(** [n < k] and [n > k] for a numeric literal [k]: false when [n] is NaN. *)
Definition number_lt (n : JsNumber) (k : Q) : bool :=
  match n with
  | Finite q => Qlt_bool q k
  | Infinity negative => negative
  | NaN => false
  end.

Definition number_gt (n : JsNumber) (k : Q) : bool :=
  match n with
  | Finite q => Qlt_bool k q
  | Infinity negative => negb negative
  | NaN => false
  end.

(** A body field that the handlers use as a string: [None] when absent. *)
Definition falsy (field : option string) : bool :=
  match field with
  | None => true
  | Some s => String.eqb s ""
  end.

Definition str (field : option string) : string :=
  match field with
  | None => ""
  | Some s => s
  end.

(** [String.prototype.trim] removes leading and trailing white space; the
    handler only asks whether anything is left.  White space is the tab, the
    line feed, the vertical tab, the form feed, the carriage return and the
    space, which are one byte each, and the no-break space, the Unicode space
    separators, the line and paragraph separators and the byte order mark,
    which are two or three bytes of UTF-8. *)
Definition code (c : Ascii.ascii) : Z := Z.of_nat (Ascii.nat_of_ascii c).

Definition is_space (c : Ascii.ascii) : bool :=
  let n := Z.of_nat (Ascii.nat_of_ascii c) in
  ((9 <=? n) && (n <=? 13)) || (n =? 32).

(** U+00A0 *)
Definition is_space2 (a b : Z) : bool := (a =? 194) && (b =? 160).

(** U+1680; U+2000 to U+200A; U+2028, U+2029 and U+202F; U+205F; U+3000;
    U+FEFF *)
Definition is_space3 (a b c : Z) : bool :=
  ((a =? 225) && (b =? 154) && (c =? 128))
  || ((a =? 226) && (b =? 128) && (128 <=? c) && (c <=? 138))
  || ((a =? 226) && (b =? 128) && ((c =? 168) || (c =? 169) || (c =? 175)))
  || ((a =? 226) && (b =? 129) && (c =? 159))
  || ((a =? 227) && (b =? 128) && (c =? 128))
  || ((a =? 239) && (b =? 187) && (c =? 191)).

Fixpoint trim_is_empty (s : string) : bool :=
  match s with
  | EmptyString => true
  | String c rest =>
      if is_space c then trim_is_empty rest
      else
        match rest with
        | EmptyString => false
        | String c1 rest1 =>
            if is_space2 (code c) (code c1) then trim_is_empty rest1
            else
              match rest1 with
              | EmptyString => false
              | String c2 rest2 =>
                  if is_space3 (code c) (code c1) (code c2) then trim_is_empty rest2
                  else false
              end
        end
  end.

(** ** Rows *)

Inductive Role : Type := RoleUser | RoleAdmin.

Definition Role_eqb (a b : Role) : bool :=
  match a, b with
  | RoleUser, RoleUser => true
  | RoleAdmin, RoleAdmin => true
  | _, _ => false
  end.

Record User : Type := mkUser {
  u_id : Z;
  u_name : string;
  u_email : string;
  u_password : string;
  u_role : Role;
  u_created_at : Z
}.

Record Book : Type := mkBook {
  bk_id : Z;
  bk_title : string;
  bk_author : string;
  bk_isbn : option string;
  bk_description : option string;
  bk_cover_image : option string;
  bk_published_year : option Z;
  bk_genre : option string;
  bk_created_at : Z
}.

Record Review : Type := mkReview {
  r_id : Z;
  r_book_id : Z;
  r_user_id : Z;
  r_rating : Z;
  r_review_text : option string;
  r_created_at : Z
}.

Record Comment : Type := mkComment {
  cm_id : Z;
  cm_review_id : Z;
  cm_user_id : Z;
  cm_comment_text : string;
  cm_created_at : Z
}.

Record Image : Type := mkImage {
  im_id : Z;
  im_review_id : Z;
  im_image_url : string;
  im_image_name : option string;
  im_created_at : Z
}.

(** ** Tables and the store *)

Record Table (R : Type) : Type := mkTable {
  rows : list R;
  auto_increment : Z
}.

Arguments mkTable {R} _ _.
Arguments rows {R} _.
Arguments auto_increment {R} _.

Record Store : Type := mkStore {
  users : Table User;
  books : Table Book;
  reviews : Table Review;
  comments : Table Comment;
  images : Table Image
}.

Definition table_insert {R : Type} (t : Table R) (mk : Z -> R) : Table R :=
  mkTable (rows t ++ [mk (auto_increment t)])%list (auto_increment t + 1).

Definition table_update {R : Type} (t : Table R) (hit : R -> bool) (f : R -> R) : Table R :=
  mkTable (map (fun r => if hit r then f r else r) (rows t)) (auto_increment t).

Definition table_delete {R : Type} (t : Table R) (hit : R -> bool) : Table R :=
  mkTable (filter (fun r => negb (hit r)) (rows t)) (auto_increment t).

Definition set_users (s : Store) (t : Table User) : Store :=
  mkStore t (books s) (reviews s) (comments s) (images s).

Definition set_books (s : Store) (t : Table Book) : Store :=
  mkStore (users s) t (reviews s) (comments s) (images s).

Definition set_reviews (s : Store) (t : Table Review) : Store :=
  mkStore (users s) (books s) t (comments s) (images s).

Definition set_comments (s : Store) (t : Table Comment) : Store :=
  mkStore (users s) (books s) (reviews s) t (images s).

Definition set_images (s : Store) (t : Table Image) : Store :=
  mkStore (users s) (books s) (reviews s) (comments s) t.

(** ** Queries: SELECT *)

Definition is_empty {A : Type} (l : list A) : bool :=
  match l with
  | [] => true
  | _ :: _ => false
  end.

Definition opt_string_eqb (a : option string) (b : option string) : bool :=
  match a, b with
  | Some x, Some y => String.eqb x y
  | _, _ => false
  end.

(** SELECT * FROM users WHERE email = ? *)
Definition select_users_by_email (s : Store) (email : string) : list User :=
  filter (fun u => String.eqb (u_email u) email) (rows (users s)).

(** SELECT * FROM users WHERE email = ? AND id != ? *)
Definition select_users_by_email_except (s : Store) (email : string) (id : Z) : list User :=
  filter (fun u => String.eqb (u_email u) email && negb (u_id u =? id)) (rows (users s)).

(** SELECT ... FROM users WHERE id = ? *)
Definition select_user (s : Store) (id : Z) : list User :=
  filter (fun u => u_id u =? id) (rows (users s)).

(** SELECT * FROM books WHERE id = ? *)
Definition select_book (s : Store) (id : Z) : list Book :=
  filter (fun b => bk_id b =? id) (rows (books s)).

(** SELECT * FROM reviews WHERE id = ? *)
Definition select_review (s : Store) (id : Z) : list Review :=
  filter (fun r => r_id r =? id) (rows (reviews s)).

(** SELECT * FROM reviews WHERE book_id = ? AND user_id = ? *)
Definition select_reviews_by_book_user (s : Store) (book_id user_id : Z) : list Review :=
  filter (fun r => (r_book_id r =? book_id) && (r_user_id r =? user_id)) (rows (reviews s)).

(** ... FROM reviews WHERE book_id = ? *)
Definition select_reviews_by_book (s : Store) (book_id : Z) : list Review :=
  filter (fun r => r_book_id r =? book_id) (rows (reviews s)).

(** SELECT * FROM comments WHERE id = ? *)
Definition select_comment (s : Store) (id : Z) : list Comment :=
  filter (fun c => cm_id c =? id) (rows (comments s)).

(** ... FROM comments WHERE review_id = ? *)
Definition select_comments_by_review (s : Store) (review_id : Z) : list Comment :=
  filter (fun c => cm_review_id c =? review_id) (rows (comments s)).

(** SELECT * FROM images WHERE id = ? *)
Definition select_image (s : Store) (id : Z) : list Image :=
  filter (fun i => im_id i =? id) (rows (images s)).

(** ... FROM images WHERE review_id = ? *)
Definition select_images_by_review (s : Store) (review_id : Z) : list Image :=
  filter (fun i => im_review_id i =? review_id) (rows (images s)).

(** ORDER BY: a stable insertion sort; [before a b] says that [a] may stand
    in front of [b]. *)
Fixpoint insert_by {A : Type} (before : A -> A -> bool) (x : A) (l : list A) : list A :=
  match l with
  | [] => [x]
  | y :: rest => if before x y then x :: l else y :: insert_by before x rest
  end.

Definition order_by {A : Type} (before : A -> A -> bool) (l : list A) : list A :=
  fold_right (insert_by before) [] l.

Definition asc {A : Type} (key : A -> Z) (a b : A) : bool := key a <=? key b.
Definition desc {A : Type} (key : A -> Z) (a b : A) : bool := key b <=? key a.

(** The integer an INT column takes from a number: rounded to the nearest
    integer, halves away from zero. *)
Definition sql_int (q : Q) : Z :=
  if Qle_bool 0 q then Qfloor (q + (1 # 2)) else Qceiling (q - (1 # 2)).

(** A DECIMAL with four decimals: rounded likewise. *)
Definition decimal4 (q : Q) : Q := (inject_Z (sql_int (q * 10000)) / 10000)%Q.

(** Aggregates.  AVG over no row is NULL; over an INT column it is a DECIMAL
    with four decimals, which the driver hands over as a number. *)
Definition sum_Z (l : list Z) : Z := fold_right Z.add 0 l.

Definition sql_count {A : Type} (l : list A) : Z := Z.of_nat (List.length l).

Definition sql_avg (l : list Z) : option Q :=
  match l with
  | [] => None
  | _ :: _ => Some (decimal4 (inject_Z (sum_Z l) / inject_Z (sql_count l)))%Q
  end.

(** [x || 0] on a nullable number and on a number. *)
Definition or_zero_Q (x : option Q) : Q :=
  match x with
  | None => 0%Q
  | Some q => if Qeq_bool q 0 then 0%Q else q
  end.

Definition or_zero_Z (x : Z) : Z := if x =? 0 then 0 else x.

(** ** Tokens and what the handlers put in their answers *)

(** The payload of a token, which [verifyToken] stores in [req.user]. *)
Record Claims : Type := mkClaims {
  claim_id : Z;
  claim_email : string;
  claim_name : string;
  claim_role : Role
}.

(** [user] in the answers of /register and /login. *)
Record AuthUser : Type := mkAuthUser {
  au_id : Z;
  au_name : string;
  au_email : string;
  au_role : Role
}.

(** SELECT id, name, email, role, created_at FROM users *)
Record ProfileRow : Type := mkProfileRow {
  p_id : Z;
  p_name : string;
  p_email : string;
  p_role : Role;
  p_created_at : Z
}.

Definition profile_of (u : User) : ProfileRow :=
  mkProfileRow (u_id u) (u_name u) (u_email u) (u_role u) (u_created_at u).

(** A review of the book page: r.*, the author's name and email, the number
    of its comments, and its images. *)
Record ReviewView : Type := mkReviewView {
  rv_review : Review;
  rv_user_name : string;
  rv_user_email : string;
  rv_comment_count : Z;
  rv_images : list Image
}.

(** A comment of GET /reviews/:id/comments: c.* with the author's name and
    email. *)
Record CommentView : Type := mkCommentView {
  cv_comment : Comment;
  cv_user_name : string;
  cv_user_email : string
}.

(** ** A symbolic credential service and a small store

    The handlers are run on these in the examples below: a token is its
    payload with its expiry time, or a string nobody signed; a digest is the
    password behind a fixed prefix. *)

Inductive ExampleToken : Type :=
| Signed (payload : Claims) (expires : Z)
| Unsigned (raw : string).

Definition example_sign (payload : Claims) (now : Z) : ExampleToken :=
  Signed payload (now + 86400).

Definition example_verify (token : ExampleToken) (now : Z) : option Claims :=
  match token with
  | Signed payload expires => if now <? expires then Some payload else None
  | Unsigned _ => None
  end.

Definition example_hash (salt password : string) : string :=
  String.append "$2a$10$" password.

Definition example_compare (password digest : string) : bool :=
  String.eqb (String.append "$2a$10$" password) digest.

(** The numeric value of a string of decimal digits; the examples take every
    other string for one that is not a number. *)
Fixpoint digits_value (s : string) (acc : Z) : option Z :=
  match s with
  | EmptyString => Some acc
  | String c rest =>
      if (48 <=? code c) && (code c <=? 57)
      then digits_value rest (10 * acc + (code c - 48))
      else None
  end.

Definition example_number (s : string) : JsNumber :=
  match s with
  | EmptyString => Finite 0
  | String _ _ =>
      match digits_value s 0 with
      | Some z => Finite (inject_Z z)
      | None => NaN
      end
  end.

(** A storage engine that takes a string of digits for its value in an INT
    column, and refuses every other string and every list of members. *)
Definition example_column (s : string) : option Z :=
  match s with
  | EmptyString => None
  | String _ _ => digits_value s 0
  end.

Definition example_object_column (book_id user_id : Z) (members : list (string * JsValue))
  : option Z := None.

Definition example_object_row (r : Review) (members : list (string * JsValue))
  (review_text : option string) : option Review := None.

Definition admin_claims : Claims := mkClaims 1 "admin@example.com" "Admin User" RoleAdmin.
Definition alice_claims : Claims := mkClaims 2 "alice@example.com" "Alice" RoleUser.
Definition bob_claims : Claims := mkClaims 3 "bob@example.com" "Bob" RoleUser.

(** Tokens signed at time 0, and one that nobody signed. *)
Definition admin_token : ExampleToken := example_sign admin_claims 0.
Definition alice_token : ExampleToken := example_sign alice_claims 0.
Definition bob_token : ExampleToken := example_sign bob_claims 0.
Definition stray_token : ExampleToken := Unsigned "not.a.token".

Definition admin_row : User :=
  mkUser 1 "Admin User" "admin@example.com" "$2a$10$admin123" RoleAdmin 0.
Definition alice_row : User :=
  mkUser 2 "Alice" "alice@example.com" "$2a$10$wonderland" RoleUser 10.
Definition bob_row : User :=
  mkUser 3 "Bob" "bob@example.com" "$2a$10$builder" RoleUser 20.

Definition gatsby : Book :=
  mkBook 1 "The Great Gatsby" "F. Scott Fitzgerald" (Some "978-0743273565")
         None None (Some 1925) (Some "Classic Fiction") 0.
Definition orwell : Book :=
  mkBook 2 "1984" "George Orwell" (Some "978-0451524935")
         None None (Some 1949) (Some "Science Fiction") 0.

Definition alice_review : Review := mkReview 1 1 2 5 (Some "Loved it") 30.
Definition bob_review : Review := mkReview 2 1 3 3 None 40.
Definition admin_review : Review := mkReview 3 1 1 4 (Some "Solid") 50.

Definition bob_comment : Comment := mkComment 1 1 3 "Agreed" 60.

Definition alice_image : Image :=
  mkImage 1 1 "https://example.com/cover.png" (Some "cover") 70.

(** Three users, two books, three reviews of the first book (rated 5, 3 and
    4), one comment and one image on Alice's review. *)
Definition library : Store :=
  mkStore
    (mkTable [admin_row; alice_row; bob_row] 4)
    (mkTable [gatsby; orwell] 3)
    (mkTable [alice_review; bob_review; admin_review] 4)
    (mkTable [bob_comment] 2)
    (mkTable [alice_image] 2).

(** The example store with 5, 3 and 3 for the ratings of the first book. *)
Definition library_5_3_3 : Store :=
  set_reviews library
    (mkTable [alice_review; bob_review; mkReview 3 1 1 3 (Some "Solid") 50] 4).

(** A no-break space between two blanks. *)
Definition blank_text : string :=
  String (Ascii.ascii_of_nat 32)
    (String (Ascii.ascii_of_nat 194)
       (String (Ascii.ascii_of_nat 160) (String (Ascii.ascii_of_nat 32) EmptyString))).

(** ** The server *)

Section Server.

(** jsonwebtoken, with JWT_SECRET and [expiresIn: '24h'] fixed: [jwt_sign
    payload now] signs at time [now] (in seconds), [jwt_verify token now] is
    the payload, or [None] where [jwt.verify] throws. *)
Variable Token : Type.
Variable jwt_sign : Claims -> Z -> Token.
Variable jwt_verify : Token -> Z -> option Claims.

(** bcryptjs: [bcrypt_hash salt password] with the salt that [bcrypt.hash]
    draws, and [bcrypt_compare password digest]. *)
Variable bcrypt_hash : string -> string -> string.
Variable bcrypt_compare : string -> string -> bool.

(** ToNumber applied to a string (StringToNumber of ECMAScript): the value
    of the numeral the string holds, and NaN when it holds none. *)
Variable StringToNumber : string -> JsNumber.

(** The storage engine.  [text_column text] is the integer an INT column
    takes from a quoted string, or [None] when the engine refuses the string
    (which depends on its SQL mode).  An object among the parameters reaches
    the engine as a list of [`key` = value]: [object_column book_id user_id
    members] is the integer the VALUES list of the INSERT INTO reviews then
    gives the rating, with [book_id] and [user_id] the values before it, and
    [object_row r members review_text] is what the SET list of the UPDATE of
    a review, [rating = `key` = value, ..., review_text = ?], makes of the row
    [r]; [None] is a statement the engine rejects. *)
Variable text_column : string -> option Z.
Variable object_column : Z -> Z -> list (string * JsValue) -> option Z.
Variable object_row : Review -> list (string * JsValue) -> option string -> option Review.

(** ToNumber.  An array is first made a string, its elements joined by
    commas: none gives the empty string, which is 0; one element gives the
    string of that element (empty for null, and a number's string reads back
    as the number); more give a string with a comma, which is no numeral.
    An object is made "[object Object]". *)
Fixpoint ToNumber (v : JsValue) : JsNumber :=
  match v with
  | JUndefined => NaN
  | JNull => Finite 0
  | JBool b => Finite (if b then 1 else 0)
  | JNum q => Finite q
  | JStr s => StringToNumber s
  | JArr [] => Finite 0
  | JArr [x] =>
      match x with
      | JUndefined | JNull => Finite 0
      | JBool _ | JObj _ => NaN
      | JNum _ | JStr _ | JArr _ => ToNumber x
      end
  | JArr _ => NaN
  | JObj _ => NaN
  end.

(** [v < k] and [v > k] for a numeric literal [k]. *)
Definition js_lt (v : JsValue) (k : Q) : bool := number_lt (ToNumber v) k.

Definition js_gt (v : JsValue) (k : Q) : bool := number_gt (ToNumber v) k.

(** ** Statements that write: INSERT, UPDATE, DELETE

    [None] is a statement the storage engine rejects. *)

(** CHECK (rating >= 1 AND rating <= 5) *)
Definition check_rating (z : Z) : option Z :=
  if (1 <=? z) && (z <=? 5) then Some z else None.

(** The driver writes the parameters into the statement: a number as it is,
    [true] and [false] as such (1 and 0), a string quoted, nothing and null as
    NULL, which the NOT NULL column refuses.  An array becomes the list of
    its elements: no element is a syntax error, several are too many values,
    one stands for itself; an object inside an array is written as the string
    "[object Object]". *)
Fixpoint rating_literal (v : JsValue) : option Z :=
  match v with
  | JUndefined | JNull => None
  | JBool b => Some (if b then 1 else 0)
  | JNum q => Some (sql_int q)
  | JStr s => text_column s
  | JArr [x] => rating_literal x
  | JArr _ => None
  | JObj _ => text_column "[object Object]"
  end.

(** rating INT NOT NULL CHECK (rating >= 1 AND rating <= 5), for a rating
    that is not an object. *)
Definition rating_column (v : JsValue) : option Z :=
  match rating_literal v with
  | Some z => check_rating z
  | None => None
  end.

(** An object is written as the list of its members, [`key` = value]: none is
    a syntax error. *)
Definition insert_rating (book_id user_id : Z) (rating : JsValue) : option Z :=
  match rating with
  | JObj [] => None
  | JObj members =>
      match object_column book_id user_id members with
      | Some z => check_rating z
      | None => None
      end
  | _ => rating_column rating
  end.

(** INSERT INTO users (name, email, password): [email] is UNIQUE, [role]
    takes its DEFAULT 'user'. *)
Definition insert_user (s : Store) (now : Z) (name email password : string)
  : option (Z * Store) :=
  if is_empty (select_users_by_email s email) then
    Some (auto_increment (users s),
          set_users s (table_insert (users s)
            (fun id => mkUser id name email password RoleUser now)))
  else None.

(** UPDATE users SET name = ?, email = ? WHERE id = ? *)
Definition update_user (s : Store) (id : Z) (name email : string) : option Store :=
  if is_empty (select_user s id) || is_empty (select_users_by_email_except s email id) then
    Some (set_users s (table_update (users s) (fun u => u_id u =? id)
            (fun u => mkUser (u_id u) name email (u_password u) (u_role u) (u_created_at u))))
  else None.

(** The columns of a book that come from a request body. *)
Record BookFields : Type := mkBookFields {
  title : option string;
  author : option string;
  isbn : option string;
  description : option string;
  published_year : option Z;
  genre : option string;
  cover_image : option string
}.

(** [isbn] is UNIQUE and nullable: only two equal non-NULL values collide. *)
Definition isbn_taken (s : Store) (i : option string) (except : Book -> bool) : bool :=
  negb (is_empty (filter (fun b => opt_string_eqb (bk_isbn b) i && negb (except b))
                         (rows (books s)))).

(** INSERT INTO books (title, author, isbn, description, published_year, genre, cover_image) *)
Definition insert_book (s : Store) (now : Z) (f : BookFields) : option (Z * Store) :=
  if isbn_taken s (isbn f) (fun _ => false) then None
  else
    Some (auto_increment (books s),
          set_books s (table_insert (books s)
            (fun id => mkBook id (str (title f)) (str (author f)) (isbn f) (description f)
                              (cover_image f) (published_year f) (genre f) now))).

(** UPDATE books SET title = ?, ..., cover_image = ? WHERE id = ? *)
Definition update_book (s : Store) (id : Z) (f : BookFields) : option Store :=
  if negb (is_empty (select_book s id)) && isbn_taken s (isbn f) (fun b => bk_id b =? id)
  then None
  else
    Some (set_books s (table_update (books s) (fun b => bk_id b =? id)
            (fun b => mkBook (bk_id b) (str (title f)) (str (author f)) (isbn f)
                             (description f) (cover_image f) (published_year f) (genre f)
                             (bk_created_at b)))).

Definition review_in (doomed : list Review) (review_id : Z) : bool :=
  existsb (fun r => r_id r =? review_id) doomed.

(** DELETE FROM books WHERE id = ?: the reviews of the book go with it, and
    with them their comments and images (ON DELETE CASCADE). *)
Definition delete_book (s : Store) (id : Z) : Store :=
  let doomed := select_reviews_by_book s id in
  mkStore (users s)
          (table_delete (books s) (fun b => bk_id b =? id))
          (table_delete (reviews s) (fun r => r_book_id r =? id))
          (table_delete (comments s) (fun c => review_in doomed (cm_review_id c)))
          (table_delete (images s) (fun i => review_in doomed (im_review_id i))).

(** INSERT INTO reviews (book_id, user_id, rating, review_text): both foreign
    keys must exist and (user_id, book_id) is UNIQUE. *)
Definition insert_review (s : Store) (now : Z) (book_id user_id : Z) (rating : JsValue)
  (review_text : option string) : option (Z * Store) :=
  match insert_rating book_id user_id rating with
  | None => None
  | Some z =>
      if is_empty (select_book s book_id) || is_empty (select_user s user_id)
         || negb (is_empty (select_reviews_by_book_user s book_id user_id))
      then None
      else
        Some (auto_increment (reviews s),
              set_reviews s (table_insert (reviews s)
                (fun id => mkReview id book_id user_id z review_text now)))
  end.

(** No two elements of a list are equal. *)
Fixpoint distinct {A : Type} (eqb : A -> A -> bool) (l : list A) : bool :=
  match l with
  | [] => true
  | x :: rest => negb (existsb (eqb x) rest) && distinct eqb rest
  end.

Definition pair_eqb (a b : Z * Z) : bool := (fst a =? fst b) && (snd a =? snd b).

(** What the schema asks of the reviews when a statement has written columns
    other than the rating and the text: PRIMARY KEY (id), UNIQUE KEY
    unique_user_book, the two FOREIGN KEYs of a review, and those of the
    comments and images, which have no ON UPDATE action: the id of a review
    they refer to stays.  The engine checks the rows it writes; the other
    rows of a database passed when they were written. *)
Definition reviews_allowed (s : Store) (rows' : list Review) : bool :=
  distinct Z.eqb (map r_id rows')
  && distinct pair_eqb (map (fun r => (r_book_id r, r_user_id r)) rows')
  && forallb (fun r => negb (is_empty (select_book s (r_book_id r)))
                       && negb (is_empty (select_user s (r_user_id r)))) rows'
  && forallb (fun c => existsb (fun r => r_id r =? cm_review_id c) rows') (rows (comments s))
  && forallb (fun i => existsb (fun r => r_id r =? im_review_id i) rows') (rows (images s)).

(** AUTO_INCREMENT moves past an id that an UPDATE wrote. *)
Definition counter_after (counter : Z) (rows' : list Review) : Z :=
  fold_right (fun r c => Z.max c (r_id r + 1)) counter rows'.

(** UPDATE reviews SET ... WHERE id = ?, where [change r] is what the SET
    list makes of a row [r]. *)
Fixpoint update_rows (id : Z) (change : Review -> option Review) (l : list Review)
  : option (list Review) :=
  match l with
  | [] => Some []
  | r :: rest =>
      match (if r_id r =? id then change r else Some r), update_rows id change rest with
      | Some r', Some rest' => Some (r' :: rest')
      | _, _ => None
      end
  end.

(** The SET list written from the members of an object, and the CHECK of the
    rating it gives. *)
Definition object_change (members : list (string * JsValue)) (review_text : option string)
  (r : Review) : option Review :=
  match object_row r members review_text with
  | Some r' =>
      match check_rating (r_rating r') with
      | Some _ => Some r'
      | None => None
      end
  | None => None
  end.

(** UPDATE reviews SET rating = ?, review_text = ? WHERE id = ?.  With an
    object for the rating the SET list is the one the driver writes from its
    members; with no member it is a syntax error. *)
Definition update_review (s : Store) (id : Z) (rating : JsValue)
  (review_text : option string) : option Store :=
  match rating with
  | JObj [] => None
  | JObj members =>
      match update_rows id (object_change members review_text) (rows (reviews s)) with
      | Some rows' =>
          if reviews_allowed s rows'
          then Some (set_reviews s
                       (mkTable rows' (counter_after (auto_increment (reviews s)) rows')))
          else None
      | None => None
      end
  | _ =>
      match rating_column rating with
      | None => None
      | Some z =>
          Some (set_reviews s (table_update (reviews s) (fun r => r_id r =? id)
                  (fun r => mkReview (r_id r) (r_book_id r) (r_user_id r) z review_text
                                     (r_created_at r))))
      end
  end.

(** DELETE FROM reviews WHERE id = ?, with its comments and images. *)
Definition delete_review (s : Store) (id : Z) : Store :=
  mkStore (users s) (books s)
          (table_delete (reviews s) (fun r => r_id r =? id))
          (table_delete (comments s) (fun c => cm_review_id c =? id))
          (table_delete (images s) (fun i => im_review_id i =? id)).

(** INSERT INTO comments (review_id, user_id, comment_text) *)
Definition insert_comment (s : Store) (now : Z) (review_id user_id : Z) (text : string)
  : option (Z * Store) :=
  if is_empty (select_review s review_id) || is_empty (select_user s user_id) then None
  else
    Some (auto_increment (comments s),
          set_comments s (table_insert (comments s)
            (fun id => mkComment id review_id user_id text now))).

(** DELETE FROM comments WHERE id = ? *)
Definition delete_comment (s : Store) (id : Z) : Store :=
  set_comments s (table_delete (comments s) (fun c => cm_id c =? id)).

(** INSERT INTO images (review_id, image_url, image_name) *)
Definition insert_image (s : Store) (now : Z) (review_id : Z) (image_url : string)
  (image_name : option string) : option (Z * Store) :=
  if is_empty (select_review s review_id) then None
  else
    Some (auto_increment (images s),
          set_images s (table_insert (images s)
            (fun id => mkImage id review_id image_url image_name now))).

(** DELETE FROM images WHERE id = ? *)
Definition delete_image (s : Store) (id : Z) : Store :=
  set_images s (table_delete (images s) (fun i => im_id i =? id)).

(** The JSON bodies of the answers. *)
Inductive Payload : Type :=
| Error (error : string)
| Message (message : string)
| Created (message : string) (insertId : Z)
| Session (message : string) (token : Token) (user : AuthUser)
| Profile (user : ProfileRow)
| UserList (all_users : list ProfileRow)
| ReviewCount (total_reviews : Z)
| BookList (all_books : list Book)
| BookPage (book : Book) (book_reviews : list ReviewView) (average_rating : Q)
           (total_reviews : Z)
| CommentList (review_comments : list CommentView)
| ImageList (review_images : list Image).

Record Response : Type := mkResponse {
  status : Z;
  body : Payload
}.

(** [res.status(code).json(body)]; [res.json(body)] answers 200. *)
Definition json (code : Z) (b : Payload) : Response := mkResponse code b.

Definition Handler : Type := Store -> Response * Store.

(** JWT Token verification middleware.  [authHeader] is
    [req.headers.authorization]: [None] when the test [!authHeader] holds. *)
Definition verifyToken (now : Z) (authHeader : option Token) : Response + Claims :=
  match authHeader with
  | None => inl (json 401 (Error "Access token required"))
  | Some token =>
      match jwt_verify token now with
      | Some decoded => inr decoded
      | None => inl (json 401 (Error "Invalid token"))
      end
  end.

(** [app.METHOD(path, verifyToken, handler)] *)
Definition protected (now : Z) (authHeader : option Token) (handler : Claims -> Handler)
  : Handler :=
  fun s =>
    match verifyToken now authHeader with
    | inl answer => (answer, s)
    | inr user => handler user s
    end.

(** POST /register *)
Definition register (now : Z) (salt : string) (name email password : option string)
  : Handler :=
  fun s =>
    if falsy name || falsy email || falsy password then
      (json 400 (Error "All fields are required"), s)
    else if negb (is_empty (select_users_by_email s (str email))) then
      (json 400 (Error "User already exists"), s)
    else
      let hashedPassword := bcrypt_hash salt (str password) in
      match insert_user s now (str name) (str email) hashedPassword with
      | None => (json 500 (Error "Failed to register user"), s)
      | Some (insertId, s') =>
          let token := jwt_sign (mkClaims insertId (str email) (str name) RoleUser) now in
          (json 201 (Session "User registered successfully" token
                       (mkAuthUser insertId (str name) (str email) RoleUser)), s')
      end.

(** POST /login *)
Definition login (now : Z) (email password : option string) : Handler :=
  fun s =>
    if falsy email || falsy password then
      (json 400 (Error "Email and password are required"), s)
    else
      match select_users_by_email s (str email) with
      | [] => (json 401 (Error "Invalid credentials"), s)
      | user :: _ =>
          if negb (bcrypt_compare (str password) (u_password user)) then
            (json 401 (Error "Invalid credentials"), s)
          else
            let token :=
              jwt_sign (mkClaims (u_id user) (u_email user) (u_name user) (u_role user)) now in
            (json 200 (Session "Login successful" token
                         (mkAuthUser (u_id user) (u_name user) (u_email user) (u_role user))), s)
      end.

(** GET /profile (and GET /dashboard, which has the same body) *)
Definition getProfile (user : Claims) : Handler :=
  fun s =>
    match select_user s (claim_id user) with
    | [] => (json 404 (Error "User not found"), s)
    | row :: _ => (json 200 (Profile (profile_of row)), s)
    end.

(** PUT /profile *)
Definition updateProfile (name email : option string) (user : Claims) : Handler :=
  fun s =>
    if falsy name || falsy email then
      (json 400 (Error "Name and email are required"), s)
    else if negb (is_empty (select_users_by_email_except s (str email) (claim_id user))) then
      (json 400 (Error "Email already taken"), s)
    else
      match update_user s (claim_id user) (str name) (str email) with
      | None => (json 500 (Error "Failed to update profile"), s)
      | Some s' => (json 200 (Message "Profile updated successfully"), s')
      end.

(** GET /books *)
Definition getBooks : Handler :=
  fun s => (json 200 (BookList (order_by (desc bk_created_at) (rows (books s)))), s).

(** [req.user.role !== 'admin'] *)
Definition not_admin (user : Claims) : bool := negb (Role_eqb (claim_role user) RoleAdmin).

Definition access_denied : Response :=
  json 403 (Error "Access denied. Admin privileges required.").

(** GET /users *)
Definition getUsers (user : Claims) : Handler :=
  fun s =>
    if not_admin user then (access_denied, s)
    else
      (json 200 (UserList (map profile_of (order_by (desc u_created_at) (rows (users s))))), s).

(** GET /reviews/count *)
Definition getReviewsCount (user : Claims) : Handler :=
  fun s =>
    if not_admin user then (access_denied, s)
    else (json 200 (ReviewCount (sql_count (rows (reviews s)))), s).

(** The reviews of GET /books/:id: reviews JOIN users, newest first, each
    with its images, oldest first. *)
Definition review_views (s : Store) (book_id : Z) : list ReviewView :=
  flat_map
    (fun r =>
       map (fun u =>
              mkReviewView r (u_name u) (u_email u)
                (sql_count (select_comments_by_review s (r_id r)))
                (order_by (asc im_created_at) (select_images_by_review s (r_id r))))
           (select_user s (r_user_id r)))
    (order_by (desc r_created_at) (select_reviews_by_book s book_id)).

(** GET /books/:id *)
Definition getBookDetail (id : Z) : Handler :=
  fun s =>
    match select_book s id with
    | [] => (json 404 (Error "Book not found"), s)
    | book :: _ =>
        let ratings := map r_rating (select_reviews_by_book s id) in
        (json 200 (BookPage book (review_views s id)
                     (or_zero_Q (sql_avg ratings))
                     (or_zero_Z (sql_count ratings))), s)
    end.

(** POST /books *)
Definition createBook (now : Z) (f : BookFields) (user : Claims) : Handler :=
  fun s =>
    if not_admin user then (access_denied, s)
    else if falsy (title f) || falsy (author f) then
      (json 400 (Error "Title and author are required"), s)
    else
      match insert_book s now f with
      | None => (json 500 (Error "Failed to create book"), s)
      | Some (insertId, s') => (json 201 (Created "Book created successfully" insertId), s')
      end.

(** PUT /books/:id *)
Definition updateBook (id : Z) (f : BookFields) (user : Claims) : Handler :=
  fun s =>
    if not_admin user then (access_denied, s)
    else if falsy (title f) || falsy (author f) then
      (json 400 (Error "Title and author are required"), s)
    else if is_empty (select_book s id) then
      (json 404 (Error "Book not found"), s)
    else
      match update_book s id f with
      | None => (json 500 (Error "Failed to update book"), s)
      | Some s' => (json 200 (Message "Book updated successfully"), s')
      end.

(** DELETE /books/:id *)
Definition deleteBook (id : Z) (user : Claims) : Handler :=
  fun s =>
    if not_admin user then (access_denied, s)
    else if is_empty (select_book s id) then
      (json 404 (Error "Book not found"), s)
    else (json 200 (Message "Book deleted successfully"), delete_book s id).

(** [!rating || rating < 1 || rating > 5] *)
Definition rating_rejected (rating : JsValue) : bool :=
  negb (js_truthy rating) || js_lt rating 1 || js_gt rating 5.

(** [row.user_id !== req.user.id && req.user.role !== 'admin'] *)
Definition not_owner_nor_admin (owner_id : Z) (user : Claims) : bool :=
  negb (owner_id =? claim_id user) && not_admin user.

(** POST /books/:id/reviews *)
Definition createReview (now : Z) (id : Z) (rating : JsValue) (review_text : option string)
  (user : Claims) : Handler :=
  fun s =>
    if rating_rejected rating then
      (json 400 (Error "Rating must be between 1 and 5"), s)
    else if is_empty (select_book s id) then
      (json 404 (Error "Book not found"), s)
    else if negb (is_empty (select_reviews_by_book_user s id (claim_id user))) then
      (json 400 (Error "You have already reviewed this book"), s)
    else
      match insert_review s now id (claim_id user) rating review_text with
      | None => (json 500 (Error "Failed to create review"), s)
      | Some (insertId, s') => (json 201 (Created "Review created successfully" insertId), s')
      end.

(** PUT /reviews/:id *)
Definition updateReview (id : Z) (rating : JsValue) (review_text : option string)
  (user : Claims) : Handler :=
  fun s =>
    if rating_rejected rating then
      (json 400 (Error "Rating must be between 1 and 5"), s)
    else
      match select_review s id with
      | [] => (json 404 (Error "Review not found"), s)
      | review :: _ =>
          if not_owner_nor_admin (r_user_id review) user then
            (json 403 (Error "You can only edit your own reviews"), s)
          else
            match update_review s id rating review_text with
            | None => (json 500 (Error "Failed to update review"), s)
            | Some s' => (json 200 (Message "Review updated successfully"), s')
            end
      end.

(** DELETE /reviews/:id *)
Definition deleteReview (id : Z) (user : Claims) : Handler :=
  fun s =>
    match select_review s id with
    | [] => (json 404 (Error "Review not found"), s)
    | review :: _ =>
        if not_owner_nor_admin (r_user_id review) user then
          (json 403 (Error "You can only delete your own reviews"), s)
        else (json 200 (Message "Review deleted successfully"), delete_review s id)
    end.

(** POST /reviews/:id/comments *)
Definition addComment (now : Z) (id : Z) (comment_text : option string) (user : Claims)
  : Handler :=
  fun s =>
    if falsy comment_text || trim_is_empty (str comment_text) then
      (json 400 (Error "Comment text is required"), s)
    else if is_empty (select_review s id) then
      (json 404 (Error "Review not found"), s)
    else
      match insert_comment s now id (claim_id user) (str comment_text) with
      | None => (json 500 (Error "Failed to add comment"), s)
      | Some (insertId, s') => (json 201 (Created "Comment added successfully" insertId), s')
      end.

(** GET /reviews/:id/comments *)
Definition getComments (id : Z) : Handler :=
  fun s =>
    (json 200 (CommentList
       (flat_map
          (fun c => map (fun u => mkCommentView c (u_name u) (u_email u))
                        (select_user s (cm_user_id c)))
          (order_by (asc cm_created_at) (select_comments_by_review s id)))), s).

(** DELETE /comments/:id *)
Definition deleteComment (id : Z) (user : Claims) : Handler :=
  fun s =>
    match select_comment s id with
    | [] => (json 404 (Error "Comment not found"), s)
    | comment :: _ =>
        if not_owner_nor_admin (cm_user_id comment) user then
          (json 403 (Error "You can only delete your own comments"), s)
        else (json 200 (Message "Comment deleted successfully"), delete_comment s id)
    end.

(** POST /reviews/:id/images *)
Definition addImage (now : Z) (id : Z) (image_url image_name : option string)
  (user : Claims) : Handler :=
  fun s =>
    if falsy image_url then
      (json 400 (Error "Image URL is required"), s)
    else
      match select_review s id with
      | [] => (json 404 (Error "Review not found"), s)
      | review :: _ =>
          if not_owner_nor_admin (r_user_id review) user then
            (json 403 (Error "You can only add images to your own reviews"), s)
          else
            match insert_image s now id (str image_url) image_name with
            | None => (json 500 (Error "Failed to add image"), s)
            | Some (insertId, s') => (json 201 (Created "Image added successfully" insertId), s')
            end
      end.

(** GET /reviews/:id/images *)
Definition getImages (id : Z) : Handler :=
  fun s =>
    (json 200 (ImageList (order_by (asc im_created_at) (select_images_by_review s id))), s).

(** DELETE /images/:id.  The image row has no owner: the handler reads the
    review the image belongs to; [review[0]] of no row throws, and the catch
    answers 500. *)
Definition deleteImage (id : Z) (user : Claims) : Handler :=
  fun s =>
    match select_image s id with
    | [] => (json 404 (Error "Image not found"), s)
    | image :: _ =>
        match select_review s (im_review_id image) with
        | [] => (json 500 (Error "Failed to delete image"), s)
        | review :: _ =>
            if not_owner_nor_admin (r_user_id review) user then
              (json 403 (Error "You can only delete images from your own reviews"), s)
            else (json 200 (Message "Image deleted successfully"), delete_image s id)
        end
    end.

(** ** The routes behind [verifyToken] *)

Definition route_getProfile (now : Z) (authHeader : option Token) : Handler :=
  protected now authHeader getProfile.

Definition route_updateProfile (now : Z) (authHeader : option Token)
  (name email : option string) : Handler :=
  protected now authHeader (updateProfile name email).

Definition route_getUsers (now : Z) (authHeader : option Token) : Handler :=
  protected now authHeader getUsers.

Definition route_getReviewsCount (now : Z) (authHeader : option Token) : Handler :=
  protected now authHeader getReviewsCount.

Definition route_createBook (now : Z) (authHeader : option Token) (f : BookFields)
  : Handler :=
  protected now authHeader (createBook now f).

Definition route_updateBook (now : Z) (authHeader : option Token) (id : Z) (f : BookFields)
  : Handler :=
  protected now authHeader (updateBook id f).

Definition route_deleteBook (now : Z) (authHeader : option Token) (id : Z) : Handler :=
  protected now authHeader (deleteBook id).

Definition route_createReview (now : Z) (authHeader : option Token) (id : Z)
  (rating : JsValue) (review_text : option string) : Handler :=
  protected now authHeader (createReview now id rating review_text).

Definition route_updateReview (now : Z) (authHeader : option Token) (id : Z)
  (rating : JsValue) (review_text : option string) : Handler :=
  protected now authHeader (updateReview id rating review_text).

Definition route_deleteReview (now : Z) (authHeader : option Token) (id : Z) : Handler :=
  protected now authHeader (deleteReview id).

Definition route_addComment (now : Z) (authHeader : option Token) (id : Z)
  (comment_text : option string) : Handler :=
  protected now authHeader (addComment now id comment_text).

Definition route_deleteComment (now : Z) (authHeader : option Token) (id : Z) : Handler :=
  protected now authHeader (deleteComment id).

Definition route_addImage (now : Z) (authHeader : option Token) (id : Z)
  (image_url image_name : option string) : Handler :=
  protected now authHeader (addImage now id image_url image_name).

Definition route_deleteImage (now : Z) (authHeader : option Token) (id : Z) : Handler :=
  protected now authHeader (deleteImage id).

(** ** GET /init

    CREATE TABLE IF NOT EXISTS leaves the tables of a store alone; the handler
    then adds the admin account if nobody has its email and the sample books
    if there is no book at all.  The statements are not in a transaction: what
    was inserted before a statement fails stays. *)

(** INSERT INTO users (name, email, password, role) *)
Definition insert_user_with_role (s : Store) (now : Z) (name email password : string)
  (role : Role) : option (Z * Store) :=
  if is_empty (select_users_by_email s email) then
    Some (auto_increment (users s),
          set_users s (table_insert (users s)
            (fun id => mkUser id name email password role now)))
  else None.

Definition sampleBooks : list BookFields :=
  [ mkBookFields (Some "The Great Gatsby") (Some "F. Scott Fitzgerald")
      (Some "978-0743273565")
      (Some "A story of the fabulously wealthy Jay Gatsby and his love for the beautiful Daisy Buchanan.")
      (Some 1925) (Some "Classic Fiction")
      (Some "https://images.unsplash.com/photo-1544947950-fa07a98d237f?w=300&h=400&fit=crop");
    mkBookFields (Some "To Kill a Mockingbird") (Some "Harper Lee")
      (Some "978-0446310789")
      (Some "The story of young Scout Finch and her father Atticus in a racially divided Alabama town.")
      (Some 1960) (Some "Classic Fiction")
      (Some "https://images.unsplash.com/photo-1512820790803-83ca734da794?w=300&h=400&fit=crop");
    mkBookFields (Some "1984") (Some "George Orwell")
      (Some "978-0451524935")
      (Some "A dystopian novel about totalitarianism and surveillance society.")
      (Some 1949) (Some "Science Fiction")
      (Some "https://images.unsplash.com/photo-1541963463532-d68292c34b19?w=300&h=400&fit=crop") ].

(** [for (const book of sampleBooks) await executeQuery(INSERT ...)]: the
    store so far, and whether every insert went through. *)
Fixpoint insert_each (s : Store) (now : Z) (new_books : list BookFields) : bool * Store :=
  match new_books with
  | [] => (true, s)
  | book :: rest =>
      match insert_book s now book with
      | None => (false, s)
      | Some (_, s') => insert_each s' now rest
      end
  end.

Definition init (now : Z) (salt : string) : Handler :=
  fun s =>
    let failed := json 500 (Error "Failed to initialize database") in
    let adminCheck := select_users_by_email s "admin@example.com" in
    let with_admin :=
      if is_empty adminCheck then
        let hashedPassword := bcrypt_hash salt "admin123" in
        match insert_user_with_role s now "Admin User" "admin@example.com" hashedPassword
                RoleAdmin with
        | None => (false, s)
        | Some (_, s') => (true, s')
        end
      else (true, s) in
    if negb (fst with_admin) then (failed, snd with_admin)
    else
      let s1 := snd with_admin in
      let booksCheck := rows (books s1) in
      let with_books :=
        if is_empty booksCheck then insert_each s1 now sampleBooks else (true, s1) in
      if fst with_books then
        (json 200 (Message "Database initialized successfully with book review system"),
         snd with_books)
      else (failed, snd with_books).

(** ** The application: every route of the server

    [GET /health] is left out: it reports the state of the connection. *)

Inductive Request : Type :=
| GetInit
| PostRegister (name email password : option string)
| PostLogin (email password : option string)
| GetProfile (authHeader : option Token)
| PutProfile (authHeader : option Token) (name email : option string)
| GetDashboard (authHeader : option Token)
| GetBooks
| GetUsers (authHeader : option Token)
| GetReviewsCount (authHeader : option Token)
| GetBook (id : Z)
| PostBook (authHeader : option Token) (f : BookFields)
| PutBook (authHeader : option Token) (id : Z) (f : BookFields)
| DeleteBook (authHeader : option Token) (id : Z)
| PostReview (authHeader : option Token) (id : Z) (rating : JsValue)
             (review_text : option string)
| PutReview (authHeader : option Token) (id : Z) (rating : JsValue)
            (review_text : option string)
| DeleteReview (authHeader : option Token) (id : Z)
| PostComment (authHeader : option Token) (id : Z) (comment_text : option string)
| GetComments (id : Z)
| DeleteComment (authHeader : option Token) (id : Z)
| PostImage (authHeader : option Token) (id : Z) (image_url image_name : option string)
| GetImages (id : Z)
| DeleteImage (authHeader : option Token) (id : Z).

(** The server answers a request at time [now]; [salt] is the salt bcrypt
    draws should the request store a password. *)
Definition serve (now : Z) (salt : string) (request : Request) : Handler :=
  match request with
  | GetInit => init now salt
  | PostRegister name email password => register now salt name email password
  | PostLogin email password => login now email password
  | GetProfile authHeader => route_getProfile now authHeader
  | PutProfile authHeader name email => route_updateProfile now authHeader name email
  | GetDashboard authHeader => route_getProfile now authHeader
  | GetBooks => getBooks
  | GetUsers authHeader => route_getUsers now authHeader
  | GetReviewsCount authHeader => route_getReviewsCount now authHeader
  | GetBook id => getBookDetail id
  | PostBook authHeader f => route_createBook now authHeader f
  | PutBook authHeader id f => route_updateBook now authHeader id f
  | DeleteBook authHeader id => route_deleteBook now authHeader id
  | PostReview authHeader id rating review_text =>
      route_createReview now authHeader id rating review_text
  | PutReview authHeader id rating review_text =>
      route_updateReview now authHeader id rating review_text
  | DeleteReview authHeader id => route_deleteReview now authHeader id
  | PostComment authHeader id comment_text => route_addComment now authHeader id comment_text
  | GetComments id => getComments id
  | DeleteComment authHeader id => route_deleteComment now authHeader id
  | PostImage authHeader id image_url image_name =>
      route_addImage now authHeader id image_url image_name
  | GetImages id => getImages id
  | DeleteImage authHeader id => route_deleteImage now authHeader id
  end.

(** The routes registered with [verifyToken], and the header of a request
    to one of them. *)
Definition token_header (request : Request) : option (option Token) :=
  match request with
  | GetInit | PostRegister _ _ _ | PostLogin _ _ | GetBooks | GetBook _ | GetComments _
  | GetImages _ => None
  | GetProfile authHeader | PutProfile authHeader _ _ | GetDashboard authHeader
  | GetUsers authHeader | GetReviewsCount authHeader | PostBook authHeader _
  | PutBook authHeader _ _ | DeleteBook authHeader _ | PostReview authHeader _ _ _
  | PutReview authHeader _ _ _ | DeleteReview authHeader _ | PostComment authHeader _ _
  | DeleteComment authHeader _ | PostImage authHeader _ _ _
  | DeleteImage authHeader _ => Some authHeader
  end.

(** The operations kept for admins: the user list, the number of reviews
    and the management of the catalogue. *)
Definition admin_only (request : Request) : bool :=
  match request with
  | GetUsers _ | GetReviewsCount _ | PostBook _ _ | PutBook _ _ _ | DeleteBook _ _ => true
  | _ => false
  end.

(** ** What the statements below speak of *)

(** The ratings of the reviews of a book, and the mean of a list of
    ratings. *)
Definition ratings_of_book (s : Store) (book_id : Z) : list Z :=
  flat_map (fun r => if r_book_id r =? book_id then [r_rating r] else []) (rows (reviews s)).

Definition mean (ratings : list Z) : Q :=
  (fold_right (fun r total => inject_Z r + total) 0 ratings
   / inject_Z (Z.of_nat (List.length ratings)))%Q.

(** A number with at most four decimals. *)
Definition four_decimals (q : Q) : Prop := exists n : Z, (q == inject_Z n / 10000)%Q.

(** The white space that [trim] removes, each character as its bytes in
    UTF-8: the tab, the line feed, the vertical tab, the form feed, the
    carriage return and the space; U+00A0; U+1680; U+2000 to U+200A; U+2028,
    U+2029 and U+202F; U+205F; U+3000; U+FEFF. *)
Definition white_space : list (list Z) :=
  [ [9]; [10]; [11]; [12]; [13]; [32];
    [194; 160];
    [225; 154; 128];
    [226; 128; 128]; [226; 128; 129]; [226; 128; 130]; [226; 128; 131]; [226; 128; 132];
    [226; 128; 133]; [226; 128; 134]; [226; 128; 135]; [226; 128; 136]; [226; 128; 137];
    [226; 128; 138];
    [226; 128; 168]; [226; 128; 169]; [226; 128; 175];
    [226; 129; 159];
    [227; 128; 128];
    [239; 187; 191] ].

Definition bytes (text : string) : list Z := map code (list_ascii_of_string text).

(** A text that is white space from end to end, the empty text included. *)
Definition white_space_only (text : string) : Prop :=
  exists characters : list (list Z),
    Forall (fun character => In character white_space) characters /\
    bytes text = List.concat characters.

(** A numeric value below 1 or above 5. *)
Definition below_1_or_above_5 (n : JsNumber) : Prop :=
  match n with
  | NaN => False
  | Infinity _ => True
  | Finite q => (q < 1)%Q \/ (5 < q)%Q
  end.

(** A rating outside [1,5]: none at all, or a number below 1 (zero is one)
    or above 5; and, of what is not a number, [false], the empty string, and
    the strings and arrays whose numeric value is below 1 or above 5. *)
Definition outside_1_5 (rating : JsValue) : Prop :=
  match rating with
  | JUndefined | JNull => True
  | JNum q => (q < 1)%Q \/ (5 < q)%Q
  | JBool b => b = false
  | JStr s => s = "" \/ below_1_or_above_5 (StringToNumber s)
  | JArr _ => below_1_or_above_5 (ToNumber rating)
  | JObj _ => False
  end.


(** A rating that is an integer between 1 and 5. *)
Definition integer_1_to_5 (rating : JsValue) : Prop :=
  match rating with
  | JNum q => exists z : Z, 1 <= z <= 5 /\ (q == inject_Z z)%Q
  | _ => False
  end.

(** The constraints of the schema.  PRIMARY KEY ... AUTO_INCREMENT: no two
    rows with one id, and every id below the counter. *)
Definition primary_key {R : Type} (key : R -> Z) (t : Table R) : Prop :=
  NoDup (map key (rows t)) /\ forall r : R, In r (rows t) -> key r < auto_increment t.

(** email VARCHAR(100) UNIQUE *)
Definition email_unique (s : Store) : Prop :=
  forall e : string, (List.length (select_users_by_email s e) <= 1)%nat.

(** isbn VARCHAR(20) UNIQUE *)
Definition isbn_unique (s : Store) : Prop :=
  forall i : string,
    (List.length (filter (fun b => opt_string_eqb (bk_isbn b) (Some i)) (rows (books s)))
     <= 1)%nat.

(** UNIQUE KEY unique_user_book (user_id, book_id) *)
Definition one_review_per_user_and_book (s : Store) : Prop :=
  forall book_id user_id : Z,
    (List.length (select_reviews_by_book_user s book_id user_id) <= 1)%nat.

(** FOREIGN KEY ... REFERENCES ... *)
Definition foreign_keys (s : Store) : Prop :=
  (forall r : Review, In r (rows (reviews s)) ->
     select_book s (r_book_id r) <> [] /\ select_user s (r_user_id r) <> []) /\
  (forall c : Comment, In c (rows (comments s)) ->
     select_review s (cm_review_id c) <> [] /\ select_user s (cm_user_id c) <> []) /\
  (forall i : Image, In i (rows (images s)) -> select_review s (im_review_id i) <> []).

Record consistent (s : Store) : Prop := mkConsistent {
  users_key : primary_key u_id (users s);
  books_key : primary_key bk_id (books s);
  reviews_key : primary_key r_id (reviews s);
  comments_key : primary_key cm_id (comments s);
  images_key : primary_key im_id (images s);
  unique_email : email_unique s;
  unique_isbn : isbn_unique s;
  unique_user_book : one_review_per_user_and_book s;
  references : foreign_keys s
}.

(** The stores the server can be in, starting from [s0]. *)
Inductive reachable (s0 : Store) : Store -> Prop :=
| reachable_start : reachable s0 s0
| reachable_step (s : Store) (now : Z) (salt : string) (request : Request) :
    reachable s0 s -> reachable s0 (snd (serve now salt request s)).

(** The database right after its creation. *)
Definition empty_store : Store :=
  mkStore (mkTable [] 1) (mkTable [] 1) (mkTable [] 1) (mkTable [] 1) (mkTable [] 1).

(** ** More of what the statements speak of *)

(** The routes whose handlers hold an INSERT, UPDATE or DELETE. *)
Definition writes (request : Request) : bool :=
  match request with
  | GetInit | PostRegister _ _ _ | PutProfile _ _ _ | PostBook _ _ | PutBook _ _ _
  | DeleteBook _ _ | PostReview _ _ _ _ | PutReview _ _ _ _ | DeleteReview _ _ | PostComment _ _ _
  | DeleteComment _ _ | PostImage _ _ _ _ | DeleteImage _ _ => true
  | _ => false
  end.

(** What makes an account: its id, its role and its password digest. *)
Definition account (u : User) : Z * Role * string := (u_id u, u_role u, u_password u).

(** ** The client: utils.generateStars of public/script.js *)

Definition double_quote : string := String (Ascii.ascii_of_nat 34) EmptyString.

(** [<i class="fas fa-star active"></i>], or the same without [active] *)
Definition star_tag (active : bool) : string :=
  String.append "<i class="
    (String.append double_quote
       (String.append "fas fa-star "
          (String.append (if active then "active" else "")
             (String.append double_quote "></i>")))).

(** [for (let i = 1; i <= 5; i++) stars += ...] *)
Fixpoint stars_loop (fuel : nat) (i rating : Z) (stars : string) : string :=
  match fuel with
  | O => stars
  | S fuel' =>
      if i <=? 5 then stars_loop fuel' (i + 1) rating (String.append stars (star_tag (i <=? rating)))
      else stars
  end.

Definition generateStars (rating : Z) : string := stars_loop 6 1 rating "".

(** ** Numbers *)

Lemma Qlt_bool_iff (x y : Q) : Qlt_bool x y = true <-> (x < y)%Q.
Proof.
  unfold Qlt_bool. rewrite negb_true_iff. split.
  - intros H. apply Qnot_le_lt. intros Hle.
    apply Qle_bool_iff in Hle. congruence.
  - intros H. destruct (Qle_bool y x) eqn:E; [|reflexivity].
    apply Qle_bool_iff in E. exfalso. exact (Qlt_not_le _ _ H E).
Qed.

Lemma Qlt_bool_false (x y : Q) : Qlt_bool x y = false <-> (y <= x)%Q.
Proof.
  unfold Qlt_bool. rewrite negb_false_iff. apply Qle_bool_iff.
Qed.

Lemma below_1_or_above_5_iff (n : JsNumber) :
  number_lt n 1 || number_gt n 5 = true <-> below_1_or_above_5 n.
Proof.
  destruct n as [|negative|q]; simpl.
  - split; [discriminate | intros []].
  - destruct negative; split; intros _; [exact I | reflexivity | exact I | reflexivity].
  - rewrite orb_true_iff, !Qlt_bool_iff. reflexivity.
Qed.

(** The test of the two review handlers rejects exactly the ratings outside
    [1,5]. *)
Lemma rating_rejected_iff (rating : JsValue) :
  rating_rejected rating = true <-> outside_1_5 rating.
Proof.
  unfold rating_rejected, js_lt, js_gt.
  destruct rating as [| |b|q|text|elements|members].
  - simpl. split; [intros _; exact I | reflexivity].
  - simpl. split; [intros _; exact I | reflexivity].
  - destruct b; split; intros H;
      first [ reflexivity | discriminate H | vm_compute in H; discriminate H ].
  - simpl. rewrite negb_involutive, !orb_true_iff, !Qlt_bool_iff, Qeq_bool_iff.
    split.
    + intros [[H0|H1]|H5]; [left|left|right]; try assumption.
      rewrite H0. reflexivity.
    + intros [H1|H5]; [left; right|right]; assumption.
  - cbn [js_truthy ToNumber outside_1_5].
    rewrite negb_involutive, <- orb_assoc, orb_true_iff, below_1_or_above_5_iff,
      String.eqb_eq.
    reflexivity.
  - cbn [js_truthy negb orb outside_1_5]. apply below_1_or_above_5_iff.
  - simpl. split; [discriminate | intros []].
Qed.

Lemma rating_accepted_iff (rating : JsValue) :
  rating_rejected rating = false <-> ~ outside_1_5 rating.
Proof.
  rewrite <- rating_rejected_iff. destruct (rating_rejected rating); split; congruence.
Qed.

(** A number that is not outside lies between 1 and 5. *)
Lemma number_not_outside (q : Q) : ~ outside_1_5 (JNum q) -> (1 <= q)%Q /\ (q <= 5)%Q.
Proof.
  intros H. split; apply Qnot_lt_le; intros C; apply H; [left|right]; exact C.
Qed.

(** What passes the CHECK is what came in, and lies between 1 and 5. *)
Lemma check_rating_range (z0 z : Z) : check_rating z0 = Some z -> z = z0 /\ 1 <= z <= 5.
Proof.
  unfold check_rating. destruct ((1 <=? z0) && (z0 <=? 5)) eqn:E; [|discriminate].
  intros [= <-]. apply andb_true_iff in E. destruct E as [E1 E2]. lia.
Qed.

Lemma rating_column_range (rating : JsValue) (z : Z) :
  rating_column rating = Some z ->
  1 <= z <= 5 /\
  (forall q : Q, rating = JNum q -> z = sql_int q) /\
  (rating = JBool true -> z = 1).
Proof.
  unfold rating_column.
  destruct (rating_literal rating) as [z0|] eqn:E; [|discriminate].
  intros H. apply check_rating_range in H. destruct H as [-> Hrange].
  split; [exact Hrange|]. split.
  - intros q ->. simpl in E. congruence.
  - intros ->. simpl in E. congruence.
Qed.

Lemma insert_rating_range (book_id user_id : Z) (rating : JsValue) (z : Z) :
  insert_rating book_id user_id rating = Some z ->
  1 <= z <= 5 /\
  (forall q : Q, rating = JNum q -> z = sql_int q) /\
  (rating = JBool true -> z = 1).
Proof.
  destruct rating as [| |b|q|text|elements|members];
    try (apply rating_column_range).
  destruct members as [|member members]; simpl; [discriminate|].
  destruct (object_column book_id user_id (member :: members)) as [z0|]; [|discriminate].
  intros H. apply check_rating_range in H.
  split; [apply H|]. split; [intros q Hq | intros Hb]; discriminate.
Qed.

(** A number between 1 and 5 passes the CHECK once rounded. *)
Lemma rating_column_accepts (q : Q) :
  (1 <= q)%Q -> (q <= 5)%Q -> rating_column (JNum q) = Some (sql_int q).
Proof.
  intros H1 H5. unfold rating_column, rating_literal, check_rating, sql_int.
  assert (H0 : Qle_bool 0 q = true).
  { apply Qle_bool_iff. apply Qle_trans with (y := 1%Q); [discriminate | exact H1]. }
  rewrite H0.
  assert (Hlo : 1 <= Qfloor (q + (1 # 2))).
  { change 1 with (Qfloor (inject_Z 1)). apply Qfloor_resp_le.
    apply Qle_trans with (y := q); [exact H1|].
    rewrite <- (Qplus_0_r q) at 1. apply Qplus_le_r. discriminate. }
  assert (Hhi : Qfloor (q + (1 # 2)) <= 5).
  { change 5 with (Qfloor (11 # 2)). apply Qfloor_resp_le.
    setoid_replace (11 # 2)%Q with (5 + (1 # 2))%Q by reflexivity.
    apply Qplus_le_l. exact H5. }
  replace (1 <=? Qfloor (q + (1 # 2))) with true by (symmetry; apply Z.leb_le; exact Hlo).
  replace (Qfloor (q + (1 # 2)) <=? 5) with true by (symmetry; apply Z.leb_le; exact Hhi).
  reflexivity.
Qed.

Lemma or_zero_Z_id (x : Z) : or_zero_Z x = x.
Proof.
  unfold or_zero_Z. destruct (x =? 0) eqn:E; [|reflexivity].
  apply Z.eqb_eq in E. congruence.
Qed.

Lemma or_zero_Q_some (q : Q) : (or_zero_Q (Some q) == q)%Q.
Proof.
  unfold or_zero_Q. destruct (Qeq_bool q 0) eqn:E; [|reflexivity].
  apply Qeq_bool_iff in E. symmetry. exact E.
Qed.

(** The sum of the mean is the sum AVG divides. *)
Lemma mean_sum (ratings : list Z) :
  (fold_right (fun r total => inject_Z r + total) 0 ratings == inject_Z (sum_Z ratings))%Q.
Proof.
  induction ratings as [|r rest IH]; simpl; [reflexivity|].
  rewrite IH, inject_Z_plus. reflexivity.
Qed.

(** Rounding moves a number by half a unit at most, and leaves an integer
    alone. *)
Lemma sql_int_near (q : Q) : (Qabs (inject_Z (sql_int q) - q) <= 1 # 2)%Q.
Proof.
  apply Qabs_Qle_condition. unfold sql_int.
  destruct (Qle_bool 0 q).
  - pose proof (Qfloor_le (q + (1 # 2))) as Hle.
    pose proof (Qlt_floor (q + (1 # 2))) as Hlt.
    rewrite inject_Z_plus in Hlt.
    change (inject_Z 1) with 1%Q in Hlt.
    split; lra.
  - pose proof (Qle_ceiling (q - (1 # 2))) as Hle.
    pose proof (Qceiling_lt (q - (1 # 2))) as Hlt.
    unfold Z.sub in Hlt. rewrite inject_Z_plus in Hlt.
    change (inject_Z (- (1))) with (-1 # 1)%Q in Hlt.
    split; lra.
Qed.

(** The INT column keeps an integer as it is. *)
Lemma sql_int_integer (q : Q) (z : Z) : (q == inject_Z z)%Q -> sql_int q = z.
Proof.
  intros Hq. unfold sql_int.
  assert (Hup : (q + (1 # 2) == inject_Z z + (1 # 2))%Q) by (rewrite Hq; reflexivity).
  assert (Hdown : (q - (1 # 2) == inject_Z z - (1 # 2))%Q) by (rewrite Hq; reflexivity).
  destruct (Qle_bool 0 q).
  - rewrite (Qfloor_comp _ _ Hup). unfold Qfloor, Qplus, inject_Z. simpl.
    symmetry. apply Z.div_unique with (r := 1); lia.
  - rewrite (Qceiling_comp _ _ Hdown). unfold Qceiling, Qfloor, Qopp, Qminus, Qplus, Qopp,
      inject_Z. simpl.
    assert (E : (- (z * 2 + -1)) / 2 = - z) by (symmetry; apply Z.div_unique with (r := 1); lia).
    rewrite E. lia.
Qed.

(** A DECIMAL with four decimals is within half of its last place of the
    number it rounds, and is that number if it has four decimals. *)
Lemma decimal4_near (q : Q) : (Qabs (decimal4 q - q) <= 1 # 20000)%Q.
Proof.
  pose proof (sql_int_near (q * 10000)) as H.
  apply Qabs_Qle_condition in H. apply Qabs_Qle_condition.
  unfold decimal4.
  set (z := inject_Z (sql_int (q * 10000))) in *.
  destruct H as [H1 H2].
  split.
  - apply (Qmult_le_r _ _ 10000); [reflexivity|].
    field_simplify. field_simplify in H1. lra.
  - apply (Qmult_le_r _ _ 10000); [reflexivity|].
    field_simplify. lra.
Qed.

Lemma decimal4_exact (q : Q) (n : Z) :
  (q == inject_Z n / 10000)%Q -> (decimal4 q == q)%Q.
Proof.
  intros Hq. unfold decimal4.
  assert (Hn : (q * 10000 == inject_Z n)%Q) by (rewrite Hq; field).
  rewrite (sql_int_integer _ _ Hn), Hq. reflexivity.
Qed.

(** ** Lists of rows *)

Lemma filter_not_nil {A : Type} (f : A -> bool) (l : list A) :
  filter f l <> [] <-> exists x : A, In x l /\ f x = true.
Proof.
  split.
  - destruct (filter f l) as [|x rest] eqn:E; [congruence|].
    intros _. exists x. apply filter_In. rewrite E. left. reflexivity.
  - intros [x Hx] E. apply filter_In in Hx. rewrite E in Hx. exact Hx.
Qed.

Lemma filter_none {A : Type} (f : A -> bool) (l : list A) :
  (forall x : A, In x l -> f x = false) -> filter f l = [].
Proof.
  induction l as [|a rest IH]; intros H; simpl; [reflexivity|].
  rewrite (H a (or_introl eq_refl)). apply IH.
  intros x Hx. apply H. right. exact Hx.
Qed.

Lemma filter_nil_none {A : Type} (f : A -> bool) (l : list A) (x : A) :
  filter f l = [] -> In x l -> f x = false.
Proof.
  intros E Hx. destruct (f x) eqn:Efx; [|reflexivity].
  assert (H : In x (filter f l)) by (apply filter_In; split; assumption).
  rewrite E in H. destruct H.
Qed.

Lemma at_most_one_eq {A : Type} (l : list A) (x y : A) :
  (List.length l <= 1)%nat -> In x l -> In y l -> x = y.
Proof.
  destruct l as [|a [|b rest]]; simpl; intros Hlen Hx Hy.
  - destruct Hx.
  - destruct Hx as [<-|[]]. destruct Hy as [<-|[]]. reflexivity.
  - lia.
Qed.

Lemma length_filter_filter {A : Type} (p q : A -> bool) (l : list A) :
  (List.length (filter p (filter q l)) <= List.length (filter p l))%nat.
Proof.
  induction l as [|a rest IH]; simpl; [lia|].
  destruct (q a); simpl; destruct (p a); simpl; lia.
Qed.

(** An update that leaves what a query looks at alone, commutes with it. *)
Lemma filter_update {A : Type} (p hit : A -> bool) (f : A -> A) (l : list A) :
  (forall x : A, p (f x) = p x) ->
  filter p (map (fun x => if hit x then f x else x) l)
  = map (fun x => if hit x then f x else x) (filter p l).
Proof.
  intros H. induction l as [|a rest IH]; simpl; [reflexivity|].
  assert (E : p (if hit a then f a else a) = p a) by (destruct (hit a); [apply H|reflexivity]).
  rewrite E. destruct (p a); simpl; rewrite IH; reflexivity.
Qed.

Lemma update_nothing {A : Type} (hit : A -> bool) (f : A -> A) (l : list A) :
  filter hit l = [] -> map (fun x => if hit x then f x else x) l = l.
Proof.
  intros H. rewrite <- (map_id l) at 2. apply map_ext_in.
  intros x Hx. rewrite (filter_nil_none _ _ _ H Hx). reflexivity.
Qed.

(** After giving a value to the rows hit, the rows that have the value are
    the rows hit, if no other row had it. *)
Lemma filter_update_new {A : Type} (p hit : A -> bool) (f : A -> A) (l : list A) :
  (forall x : A, p (f x) = true) ->
  filter (fun x => p x && negb (hit x)) l = [] ->
  List.length (filter p (map (fun x => if hit x then f x else x) l))
  = List.length (filter hit l).
Proof.
  intros Hp. induction l as [|a rest IH]; simpl; [reflexivity|].
  destruct (hit a) eqn:Eh; simpl.
  - rewrite Hp, andb_false_r. simpl. intros H. rewrite (IH H). reflexivity.
  - rewrite andb_true_r. destruct (p a); [discriminate|]. exact IH.
Qed.

(** ... and no row gains another value. *)
Lemma filter_update_other {A : Type} (p hit : A -> bool) (f : A -> A) (l : list A) :
  (forall x : A, p (f x) = false) ->
  (List.length (filter p (map (fun x => if hit x then f x else x) l))
   <= List.length (filter p l))%nat.
Proof.
  intros Hp. induction l as [|a rest IH]; simpl; [lia|].
  destruct (hit a); [rewrite Hp|]; destruct (p a); simpl; lia.
Qed.

Lemma NoDup_map_filter {A : Type} (key : A -> Z) (p : A -> bool) (l : list A) :
  NoDup (map key l) -> NoDup (map key (filter p l)).
Proof.
  induction l as [|a rest IH]; simpl; intros H; [constructor|].
  apply NoDup_cons_iff in H. destruct H as [Hnotin Hrest].
  destruct (p a); simpl; [|apply IH; exact Hrest].
  constructor; [|apply IH; exact Hrest].
  intros Hin. apply Hnotin. apply in_map_iff in Hin. destruct Hin as [x [Hkey Hx]].
  apply in_map_iff. exists x. split; [exact Hkey|].
  apply filter_In in Hx. apply Hx.
Qed.

Lemma selects_at_most_one {A B : Type} (attr : A -> B) (test : A -> bool) (v : B)
  (l : list A) :
  (forall x : A, test x = true -> attr x = v) ->
  NoDup (map attr l) -> (List.length (filter test l) <= 1)%nat.
Proof.
  intros Htest. induction l as [|a rest IH]; simpl; intros H; [lia|].
  apply NoDup_cons_iff in H. destruct H as [Hnotin Hrest].
  destruct (test a) eqn:E; [|apply IH; exact Hrest].
  simpl. rewrite filter_none; [simpl; lia|].
  intros x Hx. destruct (test x) eqn:Ex; [|reflexivity].
  exfalso. apply Hnotin. apply in_map_iff. exists x. split; [|exact Hx].
  rewrite (Htest x Ex), (Htest a E). reflexivity.
Qed.

Lemma key_selects_at_most_one {A : Type} (key : A -> Z) (k : Z) (l : list A) :
  NoDup (map key l) -> (List.length (filter (fun x => (key x =? k)%Z) l) <= 1)%nat.
Proof.
  apply (selects_at_most_one key _ k). intros x Hx. apply Z.eqb_eq. exact Hx.
Qed.

Lemma email_unique_of_NoDup (s : Store) :
  NoDup (map u_email (rows (users s))) -> email_unique s.
Proof.
  intros H e. apply (selects_at_most_one u_email _ e); [|exact H].
  intros x Hx. apply String.eqb_eq. exact Hx.
Qed.

Lemma isbn_unique_of_NoDup (s : Store) :
  NoDup (map bk_isbn (rows (books s))) -> isbn_unique s.
Proof.
  intros H i. apply (selects_at_most_one bk_isbn _ (Some i)); [|exact H].
  intros x Hx. destruct (bk_isbn x) as [j|]; [|discriminate].
  simpl in Hx. apply String.eqb_eq in Hx. congruence.
Qed.

Lemma one_review_of_NoDup (s : Store) :
  NoDup (map (fun r => (r_book_id r, r_user_id r)) (rows (reviews s))) ->
  one_review_per_user_and_book s.
Proof.
  intros H b u.
  apply (selects_at_most_one (fun r => (r_book_id r, r_user_id r)) _ (b, u)); [|exact H].
  intros x Hx. apply andb_true_iff in Hx. destruct Hx as [Hb Hu].
  apply Z.eqb_eq in Hb. apply Z.eqb_eq in Hu. congruence.
Qed.

(** ** The primary keys *)

Lemma primary_key_insert {R : Type} (key : R -> Z) (t : Table R) (mk : Z -> R) :
  (forall n : Z, key (mk n) = n) ->
  primary_key key t -> primary_key key (table_insert t mk).
Proof.
  intros Hmk [Hnodup Hbelow]. unfold primary_key, table_insert. simpl. split.
  - rewrite map_app. apply NoDup_app; [exact Hnodup | |].
    + simpl. constructor; [intros [] | constructor].
    + intros k Hk [Heq|[]]. apply in_map_iff in Hk. destruct Hk as [r [Hr Hin]].
      specialize (Hbelow r Hin). rewrite Hmk in Heq. lia.
  - intros r Hin. apply in_app_iff in Hin. destruct Hin as [Hin|[<-|[]]].
    + specialize (Hbelow r Hin). lia.
    + rewrite Hmk. lia.
Qed.

Lemma primary_key_update {R : Type} (key : R -> Z) (t : Table R) (hit : R -> bool)
  (f : R -> R) :
  (forall r : R, key (f r) = key r) ->
  primary_key key t -> primary_key key (table_update t hit f).
Proof.
  intros Hf [Hnodup Hbelow]. unfold primary_key, table_update. simpl.
  assert (Hkey : forall r : R, key (if hit r then f r else r) = key r)
    by (intros r; destruct (hit r); [apply Hf|reflexivity]).
  split.
  - rewrite map_map. rewrite (map_ext _ key Hkey). exact Hnodup.
  - intros r Hin. apply in_map_iff in Hin. destruct Hin as [r0 [<- Hin]].
    rewrite Hkey. apply Hbelow. exact Hin.
Qed.

Lemma primary_key_delete {R : Type} (key : R -> Z) (t : Table R) (hit : R -> bool) :
  primary_key key t -> primary_key key (table_delete t hit).
Proof.
  intros [Hnodup Hbelow]. unfold primary_key, table_delete. simpl. split.
  - apply NoDup_map_filter. exact Hnodup.
  - intros r Hin. apply filter_In in Hin. apply Hbelow. apply Hin.
Qed.

(** ** The statements that write keep the constraints *)

Lemma filter_grows {A : Type} (f : A -> bool) (l : list A) (x : A) :
  filter f l <> [] -> filter f (l ++ [x]) <> [].
Proof.
  rewrite !filter_not_nil. intros [y [Hy Hf]]. exists y. split; [|exact Hf].
  apply in_app_iff. left. exact Hy.
Qed.

Lemma filter_update_not_nil {A : Type} (p hit : A -> bool) (f : A -> A) (l : list A) :
  (forall x : A, p (f x) = p x) ->
  filter p l <> [] -> filter p (map (fun x => if hit x then f x else x) l) <> [].
Proof.
  intros H Hne. rewrite (filter_update p hit f l H).
  destruct (filter p l); [congruence | discriminate].
Qed.

Lemma foreign_keys_kept (s s' : Store) :
  (forall k : Z, select_user s k <> [] -> select_user s' k <> []) ->
  (forall k : Z, select_book s k <> [] -> select_book s' k <> []) ->
  (forall k : Z, select_review s k <> [] -> select_review s' k <> []) ->
  (forall r' : Review, In r' (rows (reviews s')) ->
     (exists r : Review, In r (rows (reviews s)) /\
        r_book_id r = r_book_id r' /\ r_user_id r = r_user_id r') \/
     (select_book s' (r_book_id r') <> [] /\ select_user s' (r_user_id r') <> [])) ->
  (forall c' : Comment, In c' (rows (comments s')) ->
     In c' (rows (comments s)) \/
     (select_review s' (cm_review_id c') <> [] /\ select_user s' (cm_user_id c') <> [])) ->
  (forall i' : Image, In i' (rows (images s')) ->
     In i' (rows (images s)) \/ select_review s' (im_review_id i') <> []) ->
  foreign_keys s -> foreign_keys s'.
Proof.
  intros Hu Hb Hr Hrev Hcom Himg [Frev [Fcom Fimg]]. split; [|split].
  - intros r' Hin. destruct (Hrev r' Hin) as [[r [Hr0 [Eb Eu]]]|Hnew]; [|exact Hnew].
    destruct (Frev r Hr0) as [Fb Fu]. rewrite <- Eb, <- Eu. split; [apply Hb|apply Hu]; assumption.
  - intros c' Hin. destruct (Hcom c' Hin) as [Hold|Hnew]; [|exact Hnew].
    destruct (Fcom c' Hold) as [Fr Fu]. split; [apply Hr|apply Hu]; assumption.
  - intros i' Hin. destruct (Himg i' Hin) as [Hold|Hnew]; [|exact Hnew].
    apply Hr. apply Fimg. exact Hold.
Qed.

Ltac same_rows :=
  match goal with
  | |- forall k : Z, _ <> [] -> _ <> [] => intros ? Hsame; exact Hsame
  | |- forall r' : Review, In r' _ -> _ =>
      intros r' Hsame; left; exists r'; split; [exact Hsame | split; reflexivity]
  | |- forall c' : Comment, In c' _ -> _ => intros ? Hsame; left; exact Hsame
  | |- forall i' : Image, In i' _ -> _ => intros ? Hsame; left; exact Hsame
  end.

Lemma insert_user_consistent (s s' : Store) (now insertId : Z)
  (name email password : string) :
  consistent s ->
  insert_user s now name email password = Some (insertId, s') ->
  consistent s'.
Proof.
  intros [Ku Kb Kr Kc Ki He Hi Hub Hfk]. unfold insert_user.
  destruct (select_users_by_email s email) as [|u0 us] eqn:Efree; [|discriminate].
  simpl. intros [= _ <-]. constructor; try assumption.
  - apply primary_key_insert; [reflexivity | exact Ku].
  - intros e. unfold select_users_by_email. simpl. rewrite filter_app. simpl.
    destruct (String.eqb email e) eqn:E.
    + apply String.eqb_eq in E. subst e. unfold select_users_by_email in Efree.
      rewrite Efree. simpl. lia.
    + rewrite app_nil_r. apply He.
  - apply (foreign_keys_kept s); try same_rows; try exact Hfk.
    intros k. apply filter_grows.
Qed.

Lemma update_user_consistent (s s' : Store) (id : Z) (name email : string) :
  consistent s ->
  update_user s id name email = Some s' ->
  consistent s'.
Proof.
  intros [Ku Kb Kr Kc Ki He Hi Hub Hfk]. unfold update_user.
  destruct (is_empty (select_user s id) || is_empty (select_users_by_email_except s email id))
    eqn:Eguard; [|discriminate].
  intros [= <-]. constructor; try assumption.
  - apply primary_key_update; [reflexivity | exact Ku].
  - intros e. unfold select_users_by_email. simpl.
    apply orb_true_iff in Eguard. destruct Eguard as [Enone|Efree].
    + unfold select_user in Enone.
      destruct (filter (fun u => u_id u =? id) (rows (users s))) eqn:Ef; [|discriminate].
      rewrite (update_nothing _ _ _ Ef). apply He.
    + unfold select_users_by_email_except in Efree.
      destruct (filter (fun u => String.eqb (u_email u) email && negb (u_id u =? id))
                  (rows (users s))) eqn:Ef; [|discriminate].
      destruct (String.eqb email e) eqn:E.
      * apply String.eqb_eq in E. subst e.
        rewrite (filter_update_new (fun u => String.eqb (u_email u) email)
                   (fun u => u_id u =? id)).
        -- apply key_selects_at_most_one. apply Ku.
        -- intros u. simpl. apply String.eqb_refl.
        -- exact Ef.
      * eapply Nat.le_trans; [|apply (He e)].
        apply (filter_update_other (fun u => String.eqb (u_email u) e)).
        intros u. exact E.
  - apply (foreign_keys_kept s); try same_rows; try exact Hfk.
    intros k. apply filter_update_not_nil. reflexivity.
Qed.

Lemma insert_book_consistent (s s' : Store) (now insertId : Z) (f : BookFields) :
  consistent s ->
  insert_book s now f = Some (insertId, s') ->
  consistent s'.
Proof.
  intros [Ku Kb Kr Kc Ki He Hi Hub Hfk]. unfold insert_book, isbn_taken.
  destruct (filter (fun b => opt_string_eqb (bk_isbn b) (isbn f) && negb false)
              (rows (books s))) eqn:Efree; [|discriminate].
  simpl. intros [= _ <-]. constructor; try assumption.
  - apply primary_key_insert; [reflexivity | exact Kb].
  - intros i. simpl. rewrite filter_app. simpl.
    destruct (opt_string_eqb (isbn f) (Some i)) eqn:E.
    + destruct (isbn f) as [i'|]; [|discriminate]. simpl in E.
      apply String.eqb_eq in E. subst i'.
      rewrite (filter_ext _ (fun b => opt_string_eqb (bk_isbn b) (Some i) && negb false)).
      * rewrite Efree. simpl. lia.
      * intros b. simpl. rewrite andb_true_r. reflexivity.
    + rewrite app_nil_r. apply Hi.
  - apply (foreign_keys_kept s); try same_rows; try exact Hfk.
    intros k. apply filter_grows.
Qed.

Lemma update_book_consistent (s s' : Store) (id : Z) (f : BookFields) :
  consistent s ->
  update_book s id f = Some s' ->
  consistent s'.
Proof.
  intros [Ku Kb Kr Kc Ki He Hi Hub Hfk]. unfold update_book.
  destruct (negb (is_empty (select_book s id)) && isbn_taken s (isbn f) (fun b => bk_id b =? id))
    eqn:Eguard; [discriminate|].
  intros [= <-]. constructor; try assumption.
  - apply primary_key_update; [reflexivity | exact Kb].
  - intros i. simpl.
    apply andb_false_iff in Eguard. destruct Eguard as [Enone|Efree].
    + unfold select_book in Enone.
      destruct (filter (fun b => bk_id b =? id) (rows (books s))) eqn:Ef; [|discriminate].
      rewrite (update_nothing _ _ _ Ef). apply Hi.
    + unfold isbn_taken in Efree.
      destruct (filter (fun b => opt_string_eqb (bk_isbn b) (isbn f) && negb (bk_id b =? id))
                  (rows (books s))) eqn:Ef; [|discriminate].
      destruct (opt_string_eqb (isbn f) (Some i)) eqn:E.
      * destruct (isbn f) as [i'|]; [|discriminate]. simpl in E.
        apply String.eqb_eq in E. subst i'.
        rewrite (filter_update_new (fun b => opt_string_eqb (bk_isbn b) (Some i))
                   (fun b => bk_id b =? id)).
        -- apply key_selects_at_most_one. apply Kb.
        -- intros b. simpl. apply String.eqb_refl.
        -- exact Ef.
      * eapply Nat.le_trans; [|apply (Hi i)].
        apply (filter_update_other (fun b => opt_string_eqb (bk_isbn b) (Some i))).
        intros b. exact E.
  - apply (foreign_keys_kept s); try same_rows; try exact Hfk.
    intros k. apply filter_update_not_nil. reflexivity.
Qed.

Lemma select_after_delete {A : Type} (key : A -> Z) (hit : A -> bool) (k : Z) (l : list A) :
  (forall x : A, In x l -> key x = k -> hit x = false) ->
  filter (fun x => key x =? k) l <> [] ->
  filter (fun x => key x =? k) (filter (fun x => negb (hit x)) l) <> [].
Proof.
  intros Hkept. rewrite !filter_not_nil. intros [x [Hx Hk]].
  exists x. split; [|exact Hk]. apply filter_In. split; [exact Hx|].
  apply Z.eqb_eq in Hk. rewrite (Hkept x Hx Hk). reflexivity.
Qed.

Lemma review_in_doomed (l : list Review) (book_id : Z) (r : Review) :
  In r l -> r_book_id r = book_id ->
  review_in (filter (fun r0 => r_book_id r0 =? book_id) l) (r_id r) = true.
Proof.
  intros Hin Hbook. unfold review_in. apply existsb_exists. exists r. split.
  - apply filter_In. split; [exact Hin|]. apply Z.eqb_eq. exact Hbook.
  - apply Z.eqb_refl.
Qed.

Lemma delete_book_consistent (s : Store) (id : Z) :
  consistent s -> consistent (delete_book s id).
Proof.
  intros [Ku Kb Kr Kc Ki He Hi Hub [Frev [Fcom Fimg]]]. unfold delete_book.
  constructor; try assumption; try (apply primary_key_delete; assumption).
  - intros i. simpl. apply Nat.le_trans with (2 := Hi i). apply length_filter_filter.
  - intros b u. unfold select_reviews_by_book_user. simpl.
    apply Nat.le_trans with (2 := Hub b u). apply length_filter_filter.
  - assert (Hreview : forall k : Z,
              review_in (select_reviews_by_book s id) k = false ->
              select_review s k <> [] ->
              select_review (mkStore (users s)
                               (table_delete (books s) (fun b => bk_id b =? id))
                               (table_delete (reviews s) (fun r => r_book_id r =? id))
                               (table_delete (comments s)
                                  (fun c => review_in (select_reviews_by_book s id)
                                              (cm_review_id c)))
                               (table_delete (images s)
                                  (fun i => review_in (select_reviews_by_book s id)
                                              (im_review_id i)))) k <> []).
    { intros k Hout. unfold select_review. simpl.
      apply (select_after_delete r_id (fun r => r_book_id r =? id)).
      intros r Hr Hk. destruct (r_book_id r =? id) eqn:E; [|reflexivity].
      apply Z.eqb_eq in E. pose proof (review_in_doomed _ _ _ Hr E) as Hdoomed.
      unfold select_reviews_by_book in Hout. rewrite Hk in Hdoomed. congruence. }
    split; [|split]; simpl.
    + intros r Hin. apply filter_In in Hin. destruct Hin as [Hin Hkeep].
      destruct (Frev r Hin) as [Fb Fu]. split; [|exact Fu].
      unfold select_book. simpl.
      apply (select_after_delete bk_id (fun b => bk_id b =? id)); [|exact Fb].
      intros b _ Hk. rewrite Hk. apply negb_true_iff. exact Hkeep.
    + intros c Hin. apply filter_In in Hin. destruct Hin as [Hin Hkeep].
      destruct (Fcom c Hin) as [Fr Fu]. split; [|exact Fu].
      apply Hreview; [apply negb_true_iff; exact Hkeep | exact Fr].
    + intros i Hin. apply filter_In in Hin. destruct Hin as [Hin Hkeep].
      apply Hreview; [apply negb_true_iff; exact Hkeep | apply Fimg; exact Hin].
Qed.

Lemma insert_review_consistent (s s' : Store) (now book_id user_id insertId : Z)
  (rating : JsValue) (review_text : option string) :
  consistent s ->
  insert_review s now book_id user_id rating review_text = Some (insertId, s') ->
  consistent s'.
Proof.
  intros [Ku Kb Kr Kc Ki He Hi Hub Hfk]. unfold insert_review.
  destruct (insert_rating book_id user_id rating) as [z|]; [|discriminate].
  destruct (is_empty (select_book s book_id)) eqn:Eb; [discriminate|].
  destruct (is_empty (select_user s user_id)) eqn:Eu; [discriminate|].
  destruct (select_reviews_by_book_user s book_id user_id) as [|r0 rs] eqn:Efree;
    [|discriminate].
  simpl. intros [= _ <-]. constructor; try assumption.
  - apply primary_key_insert; [reflexivity | exact Kr].
  - intros b u. unfold select_reviews_by_book_user. simpl. rewrite filter_app. simpl.
    destruct ((book_id =? b) && (user_id =? u)) eqn:E.
    + apply andb_true_iff in E. destruct E as [E1 E2].
      apply Z.eqb_eq in E1. apply Z.eqb_eq in E2. subst b u.
      unfold select_reviews_by_book_user in Efree. rewrite Efree. simpl. lia.
    + rewrite app_nil_r. apply Hub.
  - apply (foreign_keys_kept s); try same_rows; try exact Hfk.
    + intros k. apply filter_grows.
    + simpl. intros r' Hin. apply in_app_iff in Hin. destruct Hin as [Hin|[<-|[]]].
      * left. exists r'. split; [exact Hin | split; reflexivity].
      * right. unfold select_book, select_user in *. simpl.
        split; intros E; [rewrite E in Eb | rewrite E in Eu]; discriminate.
Qed.

Lemma distinct_NoDup {A : Type} (eqb : A -> A -> bool) (l : list A) :
  (forall x : A, eqb x x = true) ->
  distinct eqb l = true -> NoDup l.
Proof.
  intros Heq. induction l as [|x rest IH]; simpl; intros H; [constructor|].
  apply andb_true_iff in H. destruct H as [Hx Hrest].
  constructor; [|apply IH; exact Hrest].
  intros Hin. apply negb_true_iff in Hx.
  assert (Hex : existsb (eqb x) rest = true); [|congruence].
  apply existsb_exists. exists x. split; [exact Hin | apply Heq].
Qed.

Lemma counter_after_above (counter : Z) (l : list Review) (r : Review) :
  In r l -> r_id r < counter_after counter l.
Proof.
  unfold counter_after.
  induction l as [|a rest IH]; simpl; [intros [] | intros [<-|Hin]]; [lia|].
  specialize (IH Hin). lia.
Qed.

(** A row after the UPDATE is a row the statement left alone, or what the
    SET list made of a row with the id. *)
Lemma update_rows_in (id : Z) (change : Review -> option Review) (l l' : list Review) :
  update_rows id change l = Some l' ->
  forall r' : Review,
    In r' l' ->
    In r' l \/ exists r : Review, In r l /\ r_id r = id /\ change r = Some r'.
Proof.
  revert l'. induction l as [|a rest IH]; simpl; intros l' H.
  - injection H as <-. intros r' [].
  - destruct (r_id a =? id) eqn:Eid.
    + destruct (change a) as [a'|] eqn:Ea; [|discriminate].
      destruct (update_rows id change rest) as [rest'|]; [|discriminate].
      injection H as <-. intros r' [<-|Hin].
      * right. exists a. apply Z.eqb_eq in Eid. repeat split; [left; reflexivity|assumption..].
      * destruct (IH rest' eq_refl r' Hin) as [Hold|[r [Hr [Hid Hch]]]].
        -- left. right. exact Hold.
        -- right. exists r. repeat split; [right; exact Hr|assumption..].
    + destruct (update_rows id change rest) as [rest'|]; [|discriminate].
      injection H as <-. intros r' [<-|Hin].
      * left. left. reflexivity.
      * destruct (IH rest' eq_refl r' Hin) as [Hold|[r [Hr [Hid Hch]]]].
        -- left. right. exact Hold.
        -- right. exists r. repeat split; [right; exact Hr|assumption..].
Qed.

Lemma object_change_check (members : list (string * JsValue)) (review_text : option string)
  (r r' : Review) :
  object_change members review_text r = Some r' -> 1 <= r_rating r' <= 5.
Proof.
  unfold object_change.
  destruct (object_row r members review_text) as [r0|]; [|discriminate].
  destruct (check_rating (r_rating r0)) as [z|] eqn:E; [|discriminate].
  intros [= <-]. destruct (check_rating_range _ _ E) as [-> Hrange]. exact Hrange.
Qed.

(** An UPDATE of a review that went through either set the rating that the
    column made of the request's, or had the members of an object for its
    SET list. *)
Lemma update_review_cases (s s' : Store) (id : Z) (rating : JsValue)
  (review_text : option string) :
  update_review s id rating review_text = Some s' ->
  (exists z : Z,
     rating_column rating = Some z /\
     s' = set_reviews s (table_update (reviews s) (fun r => r_id r =? id)
            (fun r => mkReview (r_id r) (r_book_id r) (r_user_id r) z review_text
                               (r_created_at r)))) \/
  (exists (member : string * JsValue) (members : list (string * JsValue))
          (rows' : list Review),
     rating = JObj (member :: members) /\
     update_rows id (object_change (member :: members) review_text) (rows (reviews s))
     = Some rows' /\
     reviews_allowed s rows' = true /\
     s' = set_reviews s (mkTable rows' (counter_after (auto_increment (reviews s)) rows'))).
Proof.
  unfold update_review.
  destruct rating as [| |b|q|text|elements|[|member members]];
    try (destruct (rating_column _) as [z|] eqn:E; [|discriminate];
         intros [= <-]; left; exists z; split; reflexivity);
    try discriminate.
  destruct (update_rows id (object_change (member :: members) review_text)
              (rows (reviews s))) as [rows'|] eqn:E; [|discriminate].
  destruct (reviews_allowed s rows') eqn:Ea; [|discriminate].
  intros [= <-]. right. exists member, members, rows'. repeat split; assumption.
Qed.

(** The constraints hold of the reviews that the engine allows. *)
Lemma reviews_allowed_consistent (s : Store) (rows' : list Review) (counter : Z) :
  consistent s ->
  reviews_allowed s rows' = true ->
  consistent (set_reviews s (mkTable rows' (counter_after counter rows'))).
Proof.
  intros [Ku Kb Kr Kc Ki He Hi Hub [Frev [Fcom Fimg]]] Hallowed.
  unfold reviews_allowed in Hallowed.
  repeat (apply andb_true_iff in Hallowed; destruct Hallowed as [Hallowed ?]).
  match goal with H : forallb _ (rows (images s)) = true |- _ => rename H into Aimg end.
  match goal with H : forallb _ (rows (comments s)) = true |- _ => rename H into Acom end.
  match goal with H : forallb _ rows' = true |- _ => rename H into Arev end.
  match goal with H : distinct pair_eqb _ = true |- _ => rename H into Apair end.
  constructor; try assumption.
  - split; simpl.
    + apply (distinct_NoDup Z.eqb); [apply Z.eqb_refl | exact Hallowed].
    + intros r Hin. apply counter_after_above. exact Hin.
  - apply one_review_of_NoDup. simpl. apply (distinct_NoDup pair_eqb); [|exact Apair].
    intros [b u]. unfold pair_eqb. simpl. rewrite !Z.eqb_refl. reflexivity.
  - split; [|split].
    + simpl. intros r Hin. rewrite forallb_forall in Arev. specialize (Arev r Hin).
      apply andb_true_iff in Arev. destruct Arev as [Ab Au].
      unfold select_book, select_user in *. simpl.
      split; intros E; [rewrite E in Ab | rewrite E in Au]; discriminate.
    + intros c Hin. split; [|apply (Fcom c Hin)].
      rewrite forallb_forall in Acom. specialize (Acom c Hin).
      apply existsb_exists in Acom. destruct Acom as [r [Hr Hid]].
      unfold select_review. simpl. apply filter_not_nil. exists r. split; assumption.
    + intros i Hin.
      rewrite forallb_forall in Aimg. specialize (Aimg i Hin).
      apply existsb_exists in Aimg. destruct Aimg as [r [Hr Hid]].
      unfold select_review. simpl. apply filter_not_nil. exists r. split; assumption.
Qed.

Lemma update_review_consistent (s s' : Store) (id : Z) (rating : JsValue)
  (review_text : option string) :
  consistent s ->
  update_review s id rating review_text = Some s' ->
  consistent s'.
Proof.
  intros Hc Hupd.
  destruct (update_review_cases _ _ _ _ _ Hupd)
    as [[z [_ ->]]|[member [members [rows' [_ [_ [Hallowed ->]]]]]]];
    [|exact (reviews_allowed_consistent _ _ _ Hc Hallowed)].
  destruct Hc as [Ku Kb Kr Kc Ki He Hi Hub Hfk].
  constructor; try assumption.
  - apply primary_key_update; [reflexivity | exact Kr].
  - intros b u. unfold select_reviews_by_book_user. simpl.
    rewrite filter_update; [|reflexivity]. rewrite length_map. apply Hub.
  - apply (foreign_keys_kept s); try same_rows; try exact Hfk.
    + intros k. apply filter_update_not_nil. reflexivity.
    + simpl. intros r' Hin. apply in_map_iff in Hin. destruct Hin as [r [Hr Hin]].
      left. exists r. split; [exact Hin|]. subst r'.
      destruct (r_id r =? id); split; reflexivity.
Qed.

Lemma delete_review_consistent (s : Store) (id : Z) :
  consistent s -> consistent (delete_review s id).
Proof.
  intros [Ku Kb Kr Kc Ki He Hi Hub [Frev [Fcom Fimg]]]. unfold delete_review.
  constructor; try assumption; try (apply primary_key_delete; assumption).
  - intros b u. unfold select_reviews_by_book_user. simpl.
    apply Nat.le_trans with (2 := Hub b u). apply length_filter_filter.
  - split; [|split]; simpl.
    + intros r Hin. apply filter_In in Hin. apply Frev. apply Hin.
    + intros c Hin. apply filter_In in Hin. destruct Hin as [Hin Hkeep].
      destruct (Fcom c Hin) as [Fr Fu]. split; [|exact Fu].
      unfold select_review. simpl.
      apply (select_after_delete r_id (fun r => r_id r =? id)); [|exact Fr].
      intros r _ Hk. rewrite Hk. apply negb_true_iff. exact Hkeep.
    + intros i Hin. apply filter_In in Hin. destruct Hin as [Hin Hkeep].
      unfold select_review. simpl.
      apply (select_after_delete r_id (fun r => r_id r =? id)); [|apply Fimg; exact Hin].
      intros r _ Hk. rewrite Hk. apply negb_true_iff. exact Hkeep.
Qed.

Lemma insert_comment_consistent (s s' : Store) (now review_id user_id insertId : Z)
  (text : string) :
  consistent s ->
  insert_comment s now review_id user_id text = Some (insertId, s') ->
  consistent s'.
Proof.
  intros [Ku Kb Kr Kc Ki He Hi Hub Hfk]. unfold insert_comment.
  destruct (is_empty (select_review s review_id)) eqn:Er; [discriminate|].
  destruct (is_empty (select_user s user_id)) eqn:Eu; [discriminate|].
  simpl. intros [= _ <-]. constructor; try assumption.
  - apply primary_key_insert; [reflexivity | exact Kc].
  - apply (foreign_keys_kept s); try same_rows; try exact Hfk.
    simpl. intros c' Hin. apply in_app_iff in Hin. destruct Hin as [Hin|[<-|[]]].
    + left. exact Hin.
    + right. unfold select_review, select_user in *. simpl.
      split; intros E; [rewrite E in Er | rewrite E in Eu]; discriminate.
Qed.

Lemma delete_comment_consistent (s : Store) (id : Z) :
  consistent s -> consistent (delete_comment s id).
Proof.
  intros [Ku Kb Kr Kc Ki He Hi Hub Hfk]. unfold delete_comment.
  constructor; try assumption.
  - apply primary_key_delete. exact Kc.
  - apply (foreign_keys_kept s); try same_rows; try exact Hfk.
    simpl. intros c' Hin. apply filter_In in Hin. left. apply Hin.
Qed.

Lemma insert_image_consistent (s s' : Store) (now review_id insertId : Z)
  (image_url : string) (image_name : option string) :
  consistent s ->
  insert_image s now review_id image_url image_name = Some (insertId, s') ->
  consistent s'.
Proof.
  intros [Ku Kb Kr Kc Ki He Hi Hub Hfk]. unfold insert_image.
  destruct (is_empty (select_review s review_id)) eqn:Er; [discriminate|].
  intros [= _ <-]. constructor; try assumption.
  - apply primary_key_insert; [reflexivity | exact Ki].
  - apply (foreign_keys_kept s); try same_rows; try exact Hfk.
    simpl. intros i' Hin. apply in_app_iff in Hin. destruct Hin as [Hin|[<-|[]]].
    + left. exact Hin.
    + right. unfold select_review in *. simpl. intros E. rewrite E in Er. discriminate.
Qed.

Lemma delete_image_consistent (s : Store) (id : Z) :
  consistent s -> consistent (delete_image s id).
Proof.
  intros [Ku Kb Kr Kc Ki He Hi Hub Hfk]. unfold delete_image.
  constructor; try assumption.
  - apply primary_key_delete. exact Ki.
  - apply (foreign_keys_kept s); try same_rows; try exact Hfk.
    simpl. intros i' Hin. apply filter_In in Hin. left. apply Hin.
Qed.

(** ** The guard *)

Lemma protected_valid (now : Z) (token : Token) (user : Claims) (handler : Claims -> Handler)
  (s : Store) :
  jwt_verify token now = Some user ->
  protected now (Some token) handler s = handler user s.
Proof.
  intros H. unfold protected, verifyToken. rewrite H. reflexivity.
Qed.

Lemma not_admin_true (user : Claims) :
  claim_role user <> RoleAdmin -> not_admin user = true.
Proof.
  unfold not_admin. destruct (claim_role user); simpl; congruence.
Qed.

Lemma not_owner_nor_admin_true (owner_id : Z) (user : Claims) :
  owner_id <> claim_id user -> claim_role user <> RoleAdmin ->
  not_owner_nor_admin owner_id user = true.
Proof.
  intros Hid Hrole. unfold not_owner_nor_admin.
  rewrite (not_admin_true user Hrole).
  apply Z.eqb_neq in Hid. rewrite Hid. reflexivity.
Qed.

Lemma not_owner_nor_admin_false (owner_id : Z) (user : Claims) :
  owner_id = claim_id user \/ claim_role user = RoleAdmin ->
  not_owner_nor_admin owner_id user = false.
Proof.
  unfold not_owner_nor_admin, not_admin. intros [Hid|Hrole].
  - apply Z.eqb_eq in Hid. rewrite Hid. reflexivity.
  - rewrite Hrole. simpl. apply andb_false_r.
Qed.

(** ** GET /init keeps the constraints *)

Lemma insert_user_with_role_consistent (s s' : Store) (now insertId : Z)
  (name email password : string) (role : Role) :
  consistent s ->
  insert_user_with_role s now name email password role = Some (insertId, s') ->
  consistent s'.
Proof.
  intros [Ku Kb Kr Kc Ki He Hi Hub Hfk]. unfold insert_user_with_role.
  destruct (select_users_by_email s email) as [|u0 us] eqn:Efree; [|discriminate].
  simpl. intros [= _ <-]. constructor; try assumption.
  - apply primary_key_insert; [reflexivity | exact Ku].
  - intros e. unfold select_users_by_email. simpl. rewrite filter_app. simpl.
    destruct (String.eqb email e) eqn:E.
    + apply String.eqb_eq in E. subst e. unfold select_users_by_email in Efree.
      rewrite Efree. simpl. lia.
    + rewrite app_nil_r. apply He.
  - apply (foreign_keys_kept s); try same_rows; try exact Hfk.
    intros k. apply filter_grows.
Qed.

Lemma insert_each_consistent (new_books : list BookFields) (s : Store) (now : Z) :
  consistent s -> consistent (snd (insert_each s now new_books)).
Proof.
  revert s. induction new_books as [|book rest IH]; intros s Hc; simpl; [exact Hc|].
  destruct (insert_book s now book) as [[n s1]|] eqn:Hins; [|exact Hc].
  apply IH. exact (insert_book_consistent _ _ _ _ _ Hc Hins).
Qed.

(** The three sample books go into an empty catalogue one after the other. *)
Lemma insert_each_sampleBooks (s : Store) (now : Z) :
  rows (books s) = [] ->
  exists s' : Store,
    insert_each s now sampleBooks = (true, s') /\
    users s' = users s /\ reviews s' = reviews s /\ comments s' = comments s /\
    images s' = images s /\
    map bk_title (rows (books s')) = ["The Great Gatsby"; "To Kill a Mockingbird"; "1984"] /\
    map bk_id (rows (books s'))
    = [auto_increment (books s); auto_increment (books s) + 1;
       auto_increment (books s) + 1 + 1].
Proof.
  destruct s as [us [brows bauto] rs cs ims]. simpl. intros ->.
  eexists. split; [reflexivity|]. repeat split; reflexivity.
Qed.

(** What GET /init answers and leaves behind. *)
Lemma init_answer (now : Z) (salt : string) (s : Store) :
  exists s' : Store,
    init now salt s
    = (json 200 (Message "Database initialized successfully with book review system"), s') /\
    (select_users_by_email s "admin@example.com" <> [] -> users s' = users s) /\
    (select_users_by_email s "admin@example.com" = [] ->
     rows (users s')
     = rows (users s)
       ++ [mkUser (auto_increment (users s)) "Admin User" "admin@example.com"
                  (bcrypt_hash salt "admin123") RoleAdmin now]) /\
    (rows (books s) <> [] -> books s' = books s) /\
    (rows (books s) = [] ->
     map bk_title (rows (books s')) = ["The Great Gatsby"; "To Kill a Mockingbird"; "1984"]) /\
    reviews s' = reviews s /\ comments s' = comments s /\ images s' = images s.
Proof.
  unfold init, insert_user_with_role.
  destruct (select_users_by_email s "admin@example.com") as [|admin rest] eqn:Hadmin;
    cbn [is_empty fst snd negb];
    match goal with
    | |- context [rows (books ?s1)] =>
        destruct (rows (books s1)) as [|b bs] eqn:Hbooks; cbn [is_empty]
    end.
  - destruct (insert_each_sampleBooks _ now Hbooks) as [s' [Heach [Hu [Hr [Hc [Hi [Ht _]]]]]]].
    rewrite Heach. exists s'. cbn [fst snd]. split; [reflexivity|].
    simpl in Hbooks. rewrite Hu, Hr, Hc, Hi. simpl.
    repeat split; try reflexivity; try congruence; try (intros _; exact Ht).
  - eexists. split; [reflexivity|]. simpl in *.
    repeat split; try reflexivity; try congruence.
  - destruct (insert_each_sampleBooks _ now Hbooks) as [s' [Heach [Hu [Hr [Hc [Hi [Ht _]]]]]]].
    rewrite Heach. exists s'. cbn [fst snd]. split; [reflexivity|].
    rewrite Hu, Hr, Hc, Hi.
    repeat split; try reflexivity; try congruence; try (intros _; exact Ht).
  - eexists. split; [reflexivity|].
    repeat split; try reflexivity; try congruence.
Qed.

(** GET /init adds its rows through statements that keep the constraints. *)
Lemma init_keeps_the_constraints (now : Z) (salt : string) (s : Store) :
  consistent s -> consistent (snd (init now salt s)).
Proof.
  intros Hc. unfold init.
  assert (Hadmin : consistent
            (snd (if is_empty (select_users_by_email s "admin@example.com")
                  then match insert_user_with_role s now "Admin User" "admin@example.com"
                               (bcrypt_hash salt "admin123") RoleAdmin with
                       | Some (_, s') => (true, s')
                       | None => (false, s)
                       end
                  else (true, s)))).
  { destruct (is_empty (select_users_by_email s "admin@example.com")); [|exact Hc].
    destruct (insert_user_with_role s now "Admin User" "admin@example.com"
                (bcrypt_hash salt "admin123") RoleAdmin) as [[n s1]|] eqn:Hins; [|exact Hc].
    exact (insert_user_with_role_consistent _ _ _ _ _ _ _ _ Hc Hins). }
  match goal with
  | |- context [negb (fst ?with_admin)] =>
      destruct (negb (fst with_admin)); cbn [snd]; [exact Hadmin|];
      destruct (is_empty (rows (books (snd with_admin))))
  end.
  - pose proof (insert_each_consistent sampleBooks _ now Hadmin) as Heach.
    match goal with
    | |- context [fst ?with_books] => destruct (fst with_books)
    end; exact Heach.
  - exact Hadmin.
Qed.

(** ** Every request keeps the constraints *)

Ltac walk_handler :=
  repeat match goal with
         | |- consistent (snd (if ?c then _ else _)) => destruct c
         | |- consistent (snd (match ?x with _ => _ end)) => destruct x eqn:?
         | |- consistent (snd (let (_, _) := ?x in _)) => destruct x eqn:?
         end.

(** Whatever the request, the store after it satisfies the schema if the
    store before it did: the handlers add, change and remove rows only
    through statements that keep the keys, the UNIQUE columns and the foreign
    keys. *)
Theorem serve_consistent (now : Z) (salt : string) (request : Request) (s : Store) :
  consistent s -> consistent (snd (serve now salt request s)).
Proof.
  intros H.
  destruct request; [exact (init_keeps_the_constraints now salt s H)|..]; simpl;
    unfold route_getProfile, route_updateProfile, route_getUsers, route_getReviewsCount,
      route_createBook, route_updateBook, route_deleteBook, route_createReview,
      route_updateReview, route_deleteReview, route_addComment, route_deleteComment,
      route_addImage, route_deleteImage, protected, verifyToken,
      register, login, getProfile, updateProfile, getBooks, getUsers, getReviewsCount,
      getBookDetail, createBook, updateBook, deleteBook, createReview, updateReview,
      deleteReview, addComment, getComments, deleteComment, addImage, getImages,
      deleteImage;
    walk_handler; simpl;
    first [ exact H
          | eapply insert_user_consistent; eassumption
          | eapply update_user_consistent; eassumption
          | eapply insert_book_consistent; eassumption
          | eapply update_book_consistent; eassumption
          | apply delete_book_consistent; exact H
          | eapply insert_review_consistent; eassumption
          | eapply update_review_consistent; eassumption
          | apply delete_review_consistent; exact H
          | eapply insert_comment_consistent; eassumption
          | apply delete_comment_consistent; exact H
          | eapply insert_image_consistent; eassumption
          | apply delete_image_consistent; exact H ].
Qed.

(** In a store that satisfies the schema an image has its review and a
    review has its book. *)
Lemma image_has_review (s : Store) (id : Z) (image : Image) (images' : list Image) :
  consistent s ->
  select_image s id = image :: images' ->
  exists (review : Review) (reviews' : list Review),
    select_review s (im_review_id image) = review :: reviews'.
Proof.
  intros [_ _ _ _ _ _ _ _ [_ [_ Fimg]]] Himage.
  assert (Hin : In image (rows (images s))).
  { apply (filter_In (fun i => im_id i =? id)). unfold select_image in Himage.
    rewrite Himage. left. reflexivity. }
  specialize (Fimg image Hin).
  destruct (select_review s (im_review_id image)) as [|review reviews']; [congruence|].
  exists review, reviews'. reflexivity.
Qed.


(** ** The book page *)

(** The handler takes the ratings of the book's reviews. *)
Lemma ratings_selected (s : Store) (id : Z) :
  map r_rating (select_reviews_by_book s id) = ratings_of_book s id.
Proof.
  unfold select_reviews_by_book, ratings_of_book.
  induction (rows (reviews s)) as [|r rest IH]; simpl; [reflexivity|].
  destruct (r_book_id r =? id); simpl; rewrite IH; reflexivity.
Qed.

Lemma mean_quotient (ratings : list Z) :
  (mean ratings == inject_Z (sum_Z ratings) / inject_Z (sql_count ratings))%Q.
Proof.
  unfold mean, sql_count. rewrite mean_sum. reflexivity.
Qed.

(** What AVG gives, and the handler passes on, for ratings that are there:
    their mean with four decimals. *)
Lemma average_near_mean (ratings : list Z) :
  ratings <> [] ->
  four_decimals (or_zero_Q (sql_avg ratings)) /\
  (Qabs (or_zero_Q (sql_avg ratings) - mean ratings) <= 1 # 20000)%Q /\
  (four_decimals (mean ratings) -> (or_zero_Q (sql_avg ratings) == mean ratings)%Q).
Proof.
  intros Hne. destruct ratings as [|r rest] eqn:E; [congruence|].
  unfold sql_avg.
  set (quotient := (inject_Z (sum_Z (r :: rest)) / inject_Z (sql_count (r :: rest)))%Q).
  pose proof (or_zero_Q_some (decimal4 quotient)) as Havg.
  assert (Hmean : (mean (r :: rest) == quotient)%Q) by apply mean_quotient.
  split; [|split].
  - exists (sql_int (quotient * 10000)). rewrite Havg. reflexivity.
  - rewrite Havg, Hmean. apply decimal4_near.
  - intros [n Hn]. rewrite Hmean in Hn. rewrite Havg, Hmean.
    exact (decimal4_exact _ _ Hn).
Qed.

(** C1, as the server has it.  For a book of the store, GET /books/:id
    answers with the book, a total that is the number of the book's reviews
    and an average that is the mean of their ratings as AVG gives it: with
    four decimals, half of the last one away from the mean at most, and the
    mean itself when the mean has four decimals or fewer.  With no review
    both are 0: AVG is NULL then and the handler falls back to 0, nothing is
    divided.  Ratings 5, 3 and 4 average to 4. *)
Theorem getBookDetail_aggregates (id : Z) (s : Store) (book : Book) (others : list Book) :
  select_book s id = book :: others ->
  let ratings := ratings_of_book s id in
  exists (views : list ReviewView) (average_rating : Q) (total_reviews : Z),
    getBookDetail id s = (json 200 (BookPage book views average_rating total_reviews), s) /\
    total_reviews = Z.of_nat (List.length ratings) /\
    (ratings = [] -> (average_rating == 0)%Q /\ total_reviews = 0) /\
    (ratings <> [] ->
       four_decimals average_rating /\
       (Qabs (average_rating - mean ratings) <= 1 # 20000)%Q /\
       (four_decimals (mean ratings) -> (average_rating == mean ratings)%Q)) /\
    (ratings = [5; 3; 4] -> (average_rating == 4)%Q).
Proof.
  intros Hbook ratings.
  exists (review_views s id), (or_zero_Q (sql_avg ratings)), (or_zero_Z (sql_count ratings)).
  split; [|split; [|split; [|split]]].
  - unfold getBookDetail. rewrite Hbook, ratings_selected. reflexivity.
  - apply or_zero_Z_id.
  - intros ->. split; reflexivity.
  - apply average_near_mean.
  - intros ->. reflexivity.
Qed.

(** ** Ratings *)


(** ** Tokens and roles *)

(** C6.  For every request to a route behind [verifyToken]: without the
    token header the answer is 401 "Access token required"; with a token that
    does not verify (bad signature, malformed, expired) it is 401 "Invalid
    token"; and the operations kept for admins answer 403 to a valid token
    whose role is not admin.  The store is untouched in each case. *)
Theorem token_and_role_gates (now : Z) (salt : string) (request : Request) (s : Store) :
  (token_header request = Some None ->
     serve now salt request s = (json 401 (Error "Access token required"), s)) /\
  (forall token : Token,
     token_header request = Some (Some token) ->
     jwt_verify token now = None ->
     serve now salt request s = (json 401 (Error "Invalid token"), s)) /\
  (forall (token : Token) (user : Claims),
     admin_only request = true ->
     token_header request = Some (Some token) ->
     jwt_verify token now = Some user ->
     claim_role user <> RoleAdmin ->
     serve now salt request s
     = (json 403 (Error "Access denied. Admin privileges required."), s)).
Proof.
  split; [|split].
  - intros H. destruct request; simpl in H; try discriminate; injection H as ->; reflexivity.
  - intros token H Hbad.
    destruct request; simpl in H; try discriminate; injection H as ->; simpl;
      unfold route_getProfile, route_updateProfile, route_getUsers, route_getReviewsCount,
        route_createBook, route_updateBook, route_deleteBook, route_createReview,
        route_updateReview, route_deleteReview, route_addComment, route_deleteComment,
        route_addImage, route_deleteImage, protected, verifyToken;
      rewrite Hbad; reflexivity.
  - intros token user Hadmin H Htoken Hrole.
    pose proof (not_admin_true user Hrole) as Hna.
    destruct request; simpl in Hadmin; try discriminate; simpl in H; injection H as ->;
      simpl;
      unfold route_getUsers, route_getReviewsCount, route_createBook, route_updateBook,
        route_deleteBook;
      rewrite (protected_valid _ _ _ _ _ Htoken);
      unfold getUsers, getReviewsCount, createBook, updateBook, deleteBook;
      rewrite Hna; reflexivity.
Qed.

(** ** Images *)

Lemma select_image_deleted (s : Store) (id : Z) : select_image (delete_image s id) id = [].
Proof.
  unfold select_image, delete_image, set_images, table_delete. simpl.
  induction (rows (images s)) as [|i rest IH]; simpl; [reflexivity|].
  destruct (im_id i =? id) eqn:E; simpl; [exact IH|].
  rewrite E. exact IH.
Qed.

(** C7.  An image carries no owner.  DELETE /images/:id reads the review
    named by the image's [review_id] and decides on that review's [user_id]:
    the owner of the review and an admin get the image deleted, anybody else
    is answered 403 and the image stays. *)
Theorem deleteImage_owner_or_admin (now : Z) (token : Token) (user : Claims) (id : Z)
  (s : Store) (image : Image) (images' : list Image) (review : Review)
  (reviews' : list Review) :
  jwt_verify token now = Some user ->
  select_image s id = image :: images' ->
  select_review s (im_review_id image) = review :: reviews' ->
  (r_user_id review = claim_id user \/ claim_role user = RoleAdmin ->
     route_deleteImage now (Some token) id s
     = (json 200 (Message "Image deleted successfully"), delete_image s id) /\
     select_image (delete_image s id) id = []) /\
  (~ (r_user_id review = claim_id user \/ claim_role user = RoleAdmin) ->
     route_deleteImage now (Some token) id s
     = (json 403 (Error "You can only delete images from your own reviews"), s)).
Proof.
  intros Htoken Himage Hreview.
  unfold route_deleteImage. rewrite (protected_valid _ _ _ _ _ Htoken).
  unfold deleteImage. rewrite Himage, Hreview. split.
  - intros Hok. rewrite (not_owner_nor_admin_false _ _ Hok).
    split; [reflexivity | apply select_image_deleted].
  - intros Hno. rewrite not_owner_nor_admin_true; [reflexivity | |].
    + intros Hid. apply Hno. left. exact Hid.
    + intros Hrole. apply Hno. right. exact Hrole.
Qed.

(** ** Reviews *)

Lemma not_nil_is_empty {A : Type} (l : list A) : l <> [] -> is_empty l = false.
Proof.
  destruct l; [congruence | reflexivity].
Qed.



Lemma insert_review_rows (s s' : Store) (now book_id user_id insertId : Z) (rating : JsValue)
  (review_text : option string) :
  insert_review s now book_id user_id rating review_text = Some (insertId, s') ->
  exists z : Z,
    insert_rating book_id user_id rating = Some z /\
    rows (reviews s')
    = rows (reviews s) ++ [mkReview insertId book_id user_id z review_text now].
Proof.
  unfold insert_review.
  destruct (insert_rating book_id user_id rating) as [z|]; [|discriminate].
  destruct (is_empty (select_book s book_id) || is_empty (select_user s user_id)
            || negb (is_empty (select_reviews_by_book_user s book_id user_id)));
    [discriminate|].
  intros [= <- <-]. exists z. split; reflexivity.
Qed.

Lemma insert_review_id (s s' : Store) (now book_id user_id insertId : Z) (rating : JsValue)
  (review_text : option string) :
  insert_review s now book_id user_id rating review_text = Some (insertId, s') ->
  insertId = auto_increment (reviews s).
Proof.
  unfold insert_review.
  destruct (insert_rating book_id user_id rating) as [z|]; [|discriminate].
  destruct (is_empty (select_book s book_id) || is_empty (select_user s user_id)
            || negb (is_empty (select_reviews_by_book_user s book_id user_id)));
    [discriminate|].
  intros [= <- _]. reflexivity.
Qed.

(** The rows an UPDATE of a review wrote pass the CHECK, and an UPDATE whose
    rating is no object gives the rows of the id the rating the column made
    of it. *)
Lemma update_review_rows (s s' : Store) (id : Z) (rating : JsValue)
  (review_text : option string) :
  update_review s id rating review_text = Some s' ->
  (forall r : Review,
     In r (rows (reviews s')) -> In r (rows (reviews s)) \/ 1 <= r_rating r <= 5) /\
  ((forall members : list (string * JsValue), rating <> JObj members) ->
   exists z : Z,
     rating_column rating = Some z /\
     forall r : Review, In r (rows (reviews s')) -> r_id r = id ->
       r_rating r = z /\ r_review_text r = review_text).
Proof.
  intros Hupd.
  destruct (update_review_cases _ _ _ _ _ Hupd)
    as [[z [Hcol ->]]|[member [members [rows' [-> [Hrows' [_ ->]]]]]]].
  - split.
    + simpl. intros r Hin. apply in_map_iff in Hin. destruct Hin as [r0 [<- Hr0]].
      destruct (r_id r0 =? id); [|left; exact Hr0].
      right. simpl. apply (rating_column_range _ _ Hcol).
    + intros _. exists z. split; [exact Hcol|].
      simpl. intros r Hin Hid. apply in_map_iff in Hin. destruct Hin as [r0 [Hr0 _]].
      destruct (r_id r0 =? id) eqn:E.
      * subst r. simpl. split; reflexivity.
      * subst r. apply Z.eqb_neq in E. contradiction.
  - split.
    + simpl. intros r' Hin.
      destruct (update_rows_in _ _ _ _ Hrows' r' Hin) as [Hold|[r [_ [_ Hchange]]]];
        [left; exact Hold|].
      right. exact (object_change_check _ _ _ _ Hchange).
    + intros Hno. exfalso. exact (Hno _ eq_refl).
Qed.

(** C5, as the handlers have it.  POST /books/:id/reviews and PUT
    /reviews/:id answer 400 "Rating must be between 1 and 5" to every rating
    that is outside [1,5], and store nothing.  A rating they accept is one
    that their test lets pass, an integer or not, a number or not: a number
    is then between 1 and 5, whole or not, and the row holds the integer the
    INT column makes of it; [true] is stored as 1.  Whatever the rating of
    the request was, every row the two handlers write holds an integer
    between 1 and 5: that is the CHECK of the column, not a validation
    error. *)
Theorem accepted_ratings (now : Z) (token : Token) (user : Claims) (id : Z)
  (rating : JsValue) (review_text : option string) (s : Store) :
  jwt_verify token now = Some user ->
  (outside_1_5 rating ->
     route_createReview now (Some token) id rating review_text s
     = (json 400 (Error "Rating must be between 1 and 5"), s) /\
     route_updateReview now (Some token) id rating review_text s
     = (json 400 (Error "Rating must be between 1 and 5"), s)) /\
  (status (fst (route_createReview now (Some token) id rating review_text s)) = 201 ->
     ~ outside_1_5 rating /\
     exists z : Z,
       1 <= z <= 5 /\
       rows (reviews (snd (route_createReview now (Some token) id rating review_text s)))
       = rows (reviews s)
         ++ [mkReview (auto_increment (reviews s)) id (claim_id user) z review_text now] /\
       (forall q : Q, rating = JNum q -> (1 <= q)%Q /\ (q <= 5)%Q /\ z = sql_int q) /\
       (rating = JBool true -> z = 1)) /\
  (status (fst (route_updateReview now (Some token) id rating review_text s)) = 200 ->
     ~ outside_1_5 rating /\
     (forall r : Review,
        In r (rows (reviews (snd (route_updateReview now (Some token) id rating
                                    review_text s)))) ->
        In r (rows (reviews s)) \/ 1 <= r_rating r <= 5) /\
     (forall q : Q, rating = JNum q ->
        (1 <= q)%Q /\ (q <= 5)%Q /\
        forall r : Review,
          In r (rows (reviews (snd (route_updateReview now (Some token) id rating
                                      review_text s)))) ->
          r_id r = id -> r_rating r = sql_int q) /\
     (rating = JBool true ->
        forall r : Review,
          In r (rows (reviews (snd (route_updateReview now (Some token) id rating
                                      review_text s)))) ->
          r_id r = id -> r_rating r = 1)).
Proof.
  intros Htoken. unfold route_createReview, route_updateReview.
  rewrite !(protected_valid _ _ _ _ _ Htoken). unfold createReview, updateReview.
  split; [|split].
  - intros Hout. apply rating_rejected_iff in Hout. rewrite Hout. split; reflexivity.
  - destruct (rating_rejected rating) eqn:E; [simpl; discriminate|].
    apply rating_accepted_iff in E.
    destruct (is_empty (select_book s id)); [simpl; discriminate|].
    destruct (negb (is_empty (select_reviews_by_book_user s id (claim_id user))));
      [simpl; discriminate|].
    destruct (insert_review s now id (claim_id user) rating review_text)
      as [[insertId s']|] eqn:Hins; [|simpl; discriminate].
    intros _. simpl. split; [exact E|].
    destruct (insert_review_rows _ _ _ _ _ _ _ _ Hins) as [z [Hcol Hrows]].
    rewrite (insert_review_id _ _ _ _ _ _ _ _ Hins) in Hrows.
    destruct (insert_rating_range _ _ _ _ Hcol) as [Hrange [Hnumber Htrue]].
    exists z. split; [exact Hrange|]. split; [exact Hrows|]. split; [|exact Htrue].
    intros q Hq. subst rating. destruct (number_not_outside _ E) as [H1 H5].
    split; [exact H1|]. split; [exact H5|]. apply Hnumber. reflexivity.
  - destruct (rating_rejected rating) eqn:E; [simpl; discriminate|].
    apply rating_accepted_iff in E.
    destruct (select_review s id) as [|review reviews']; [simpl; discriminate|].
    destruct (not_owner_nor_admin (r_user_id review) user); [simpl; discriminate|].
    destruct (update_review s id rating review_text) as [s'|] eqn:Hupd;
      [|simpl; discriminate].
    intros _. simpl. split; [exact E|].
    destruct (update_review_rows _ _ _ _ _ Hupd) as [Hcheck Hrows].
    split; [exact Hcheck|]. split.
    + intros q Hq. subst rating. destruct (number_not_outside _ E) as [H1 H5].
      split; [exact H1|]. split; [exact H5|].
      destruct Hrows as [z [Hcol Hrows]]; [intros members; discriminate|].
      destruct (rating_column_range _ _ Hcol) as [_ [Hnumber _]].
      intros r Hin Hid. rewrite <- (Hnumber q eq_refl). apply (Hrows r Hin Hid).
    + intros Hb. subst rating.
      destruct Hrows as [z [Hcol Hrows]]; [intros members; discriminate|].
      destruct (rating_column_range _ _ Hcol) as [_ [_ Htrue]].
      intros r Hin Hid. rewrite <- (Htrue eq_refl). apply (Hrows r Hin Hid).
Qed.

(** C9, as the handler has it.  A requester who neither wrote the review nor
    is an admin cannot attach an image to it: POST /reviews/:id/images
    leaves the store as it was, and answers 403 when the request names an
    image URL; without one it answers 400 "Image URL is required" before
    the review is read. *)
Theorem addImage_to_review_of_somebody_else (now : Z) (token : Token) (user : Claims)
  (id : Z) (image_url image_name : option string) (s : Store) (review : Review)
  (reviews' : list Review) :
  jwt_verify token now = Some user ->
  select_review s id = review :: reviews' ->
  r_user_id review <> claim_id user ->
  claim_role user <> RoleAdmin ->
  snd (route_addImage now (Some token) id image_url image_name s) = s /\
  (falsy image_url = false ->
     route_addImage now (Some token) id image_url image_name s
     = (json 403 (Error "You can only add images to your own reviews"), s)) /\
  (falsy image_url = true ->
     route_addImage now (Some token) id image_url image_name s
     = (json 400 (Error "Image URL is required"), s)).
Proof.
  intros Htoken Hreview Howner Hrole. unfold route_addImage.
  rewrite (protected_valid _ _ _ _ _ Htoken). unfold addImage.
  rewrite Hreview, (not_owner_nor_admin_true _ _ Howner Hrole).
  destruct (falsy image_url); repeat split; congruence.
Qed.

(** ** Accounts *)

Lemma falsy_some (x : string) : x <> "" -> falsy (Some x) = false.
Proof.
  intros H. simpl. apply String.eqb_neq. exact H.
Qed.

(** The row of a fresh registration is the only one with its email. *)
Lemma insert_user_selected (s s' : Store) (now insertId : Z) (name email password : string) :
  select_users_by_email s email = [] ->
  insert_user s now name email password = Some (insertId, s') ->
  insertId = auto_increment (users s) /\
  select_users_by_email s' email = [mkUser insertId name email password RoleUser now].
Proof.
  intros Hfree. unfold insert_user. rewrite Hfree. simpl.
  intros [= <- <-]. split; [reflexivity|].
  unfold select_users_by_email in *. simpl.
  rewrite filter_app, Hfree. simpl. rewrite String.eqb_refl. reflexivity.
Qed.

(** Under a UNIQUE email, nobody else has the email of the requester's row. *)
Lemma own_email_not_taken (s : Store) (uid : Z) (row : User) (others : list User) :
  email_unique s ->
  select_user s uid = row :: others ->
  select_users_by_email_except s (u_email row) uid = [].
Proof.
  intros Huniq Hrow. unfold select_users_by_email_except.
  assert (Hin : In row (rows (users s)) /\ (u_id row =? uid) = true).
  { apply (filter_In (fun u => u_id u =? uid)). unfold select_user in Hrow.
    rewrite Hrow. left. reflexivity. }
  destruct Hin as [Hin Hid].
  apply filter_none. intros u Hu.
  destruct (String.eqb (u_email u) (u_email row)) eqn:E; [|reflexivity].
  assert (Hsame : u = row).
  { apply (at_most_one_eq _ _ _ (Huniq (u_email row))); unfold select_users_by_email;
      apply filter_In; split; try assumption. apply String.eqb_refl. }
  rewrite Hsame, Hid. reflexivity.
Qed.

(** What the credential libraries promise: a password matches its own
    digest, and a token verifies to its payload until it expires, 24 hours
    after it was signed. *)
Hypothesis bcrypt_compare_hash :
  forall salt password : string, bcrypt_compare password (bcrypt_hash salt password) = true.

Hypothesis jwt_verify_sign :
  forall (payload : Claims) (issued now : Z),
    now < issued + 86400 -> jwt_verify (jwt_sign payload issued) now = Some payload.

(** C8.  A registration with a name, an email nobody has registered and a
    password is answered 201 and stores one user with the role 'user'.
    Logging in afterwards with the same email and password is answered 200
    with the stored user and a token that verifies, for its 24 hours, to that
    user's id, email, name and role. *)
Theorem register_then_login (now later : Z) (salt name email password : string) (s : Store) :
  name <> "" -> email <> "" -> password <> "" ->
  select_users_by_email s email = [] ->
  exists (token0 token : Token) (stored : User) (s' : Store),
    register now salt (Some name) (Some email) (Some password) s
    = (json 201 (Session "User registered successfully" token0
                   (mkAuthUser (u_id stored) name email RoleUser)), s') /\
    select_users_by_email s' email = [stored] /\
    u_name stored = name /\ u_email stored = email /\ u_role stored = RoleUser /\
    login later (Some email) (Some password) s'
    = (json 200 (Session "Login successful" token
                   (mkAuthUser (u_id stored) (u_name stored) (u_email stored)
                               (u_role stored))), s') /\
    forall t : Z,
      t < later + 86400 ->
      jwt_verify token t
      = Some (mkClaims (u_id stored) (u_email stored) (u_name stored) (u_role stored)).
Proof.
  intros Hname Hemail Hpassword Hfree.
  destruct (insert_user s now name email (bcrypt_hash salt password))
    as [[insertId s']|] eqn:Hins.
  2:{ unfold insert_user in Hins. rewrite Hfree in Hins. discriminate. }
  destruct (insert_user_selected _ _ _ _ _ _ _ Hfree Hins) as [_ Hsel].
  set (stored := mkUser insertId name email (bcrypt_hash salt password) RoleUser now) in *.
  exists (jwt_sign (mkClaims insertId email name RoleUser) now),
         (jwt_sign (mkClaims insertId email name RoleUser) later), stored, s'.
  split; [|split; [exact Hsel|repeat split]].
  - unfold register. rewrite (falsy_some _ Hname), (falsy_some _ Hemail),
      (falsy_some _ Hpassword). simpl. rewrite Hfree. simpl. rewrite Hins. reflexivity.
  - unfold login. rewrite (falsy_some _ Hemail), (falsy_some _ Hpassword). simpl.
    rewrite Hsel. simpl. rewrite bcrypt_compare_hash. reflexivity.
  - intros t Ht. simpl. apply jwt_verify_sign. exact Ht.
Qed.

(** C10, as the handler has it.  PUT /profile with the email the requester
    already has is never answered "Email already taken": the look-up for the
    email leaves out the requester's own row, and under the UNIQUE email no
    other row has it.  With a name in the request the answer is 200 and the
    row is updated; without a name it is 400 "Name and email are
    required". *)
Theorem updateProfile_same_email (now : Z) (token : Token) (user : Claims)
  (name : option string) (s : Store) (row : User) (others : list User) :
  jwt_verify token now = Some user ->
  email_unique s ->
  select_user s (claim_id user) = row :: others ->
  u_email row <> "" ->
  fst (route_updateProfile now (Some token) name (Some (u_email row)) s)
  <> json 400 (Error "Email already taken") /\
  (falsy name = false ->
     exists s' : Store,
       update_user s (claim_id user) (str name) (u_email row) = Some s' /\
       route_updateProfile now (Some token) name (Some (u_email row)) s
       = (json 200 (Message "Profile updated successfully"), s')) /\
  (falsy name = true ->
     route_updateProfile now (Some token) name (Some (u_email row)) s
     = (json 400 (Error "Name and email are required"), s)).
Proof.
  intros Htoken Huniq Hrow Hemail.
  pose proof (own_email_not_taken _ _ _ _ Huniq Hrow) as Hfree.
  unfold route_updateProfile. rewrite (protected_valid _ _ _ _ _ Htoken).
  unfold updateProfile. rewrite (falsy_some _ Hemail). simpl str.
  rewrite Hfree. unfold update_user. rewrite Hfree. simpl is_empty.
  rewrite orb_true_r, orb_false_r. simpl negb.
  destruct (falsy name); simpl.
  - split; [intros H; inversion H|]. split; [discriminate | reflexivity].
  - split; [intros H; inversion H|]. split; [|discriminate].
    intros _. eexists. split; reflexivity.
Qed.

(** ** Beyond single requests: what no request does *)

Ltac unfold_routes :=
  unfold route_getProfile, route_updateProfile, route_getUsers, route_getReviewsCount,
    route_createBook, route_updateBook, route_deleteBook, route_createReview,
    route_updateReview, route_deleteReview, route_addComment, route_deleteComment,
    route_addImage, route_deleteImage, protected, verifyToken.

Ltac unfold_handlers :=
  unfold register, login, getProfile, updateProfile, getBooks, getUsers, getReviewsCount,
    getBookDetail, createBook, updateBook, deleteBook, createReview, updateReview,
    deleteReview, addComment, getComments, deleteComment, addImage, getImages, deleteImage.

Ltac case_split :=
  repeat match goal with
         | |- context [if ?c then _ else _] => destruct c eqn:?
         | |- context [match ?x with _ => _ end] => destruct x eqn:?
         end.

(** X1.  From a store that satisfies the schema the server only reaches
    stores that satisfy it, whatever the requests and however many: the
    primary keys, the UNIQUE email, isbn and (user, book), and every foreign
    key hold after each of them. *)
Theorem reachable_consistent (s0 s : Store) :
  consistent s0 -> reachable s0 s -> consistent s.
Proof.
  intros H0 Hreach. induction Hreach as [|s now salt request _ IH].
  - exact H0.
  - apply serve_consistent. exact IH.
Qed.

(** X2.  A request that is not answered 200 or 201 leaves the store as it
    was, and so does every request to a route that only reads (POST /login
    and the GET routes other than GET /init, which writes), whatever its
    answer. *)
Theorem refused_requests_change_nothing (now : Z) (salt : string) (request : Request)
  (s : Store) :
  (status (fst (serve now salt request s)) <> 200 ->
   status (fst (serve now salt request s)) <> 201 ->
   snd (serve now salt request s) = s) /\
  (writes request = false -> snd (serve now salt request s) = s).
Proof.
  destruct request.
  { destruct (init_answer now salt s) as [s1 [Hinit _]]. simpl. rewrite Hinit.
    split; [intros H; exfalso; apply H; reflexivity | discriminate]. }
  all: simpl; unfold_routes; unfold_handlers; case_split; simpl;
    split; intros; try reflexivity; try congruence; try discriminate.
Qed.

Lemma not_admin_false (user : Claims) :
  not_admin user = false -> claim_role user = RoleAdmin.
Proof.
  unfold not_admin. destruct (claim_role user); simpl; [discriminate | reflexivity].
Qed.

(** What a statement that went through leaves alone. *)
Ltac frame_of H :=
  unfold insert_user, update_user, insert_book, update_book, insert_review, update_review,
    insert_comment, insert_image in H;
  repeat match type of H with
         | context [if ?c then _ else _] => destruct c
         | context [match ?x with _ => _ end] => destruct x
         end;
  try discriminate H; injection H as <-; subst; repeat split; reflexivity.

Lemma insert_user_frame (s s' : Store) (now insertId : Z) (name email password : string) :
  insert_user s now name email password = Some (insertId, s') ->
  rows (users s')
  = rows (users s) ++ [mkUser (auto_increment (users s)) name email password RoleUser now] /\
  books s' = books s /\ reviews s' = reviews s /\ comments s' = comments s /\
  images s' = images s.
Proof. intros H. frame_of H. Qed.

Lemma update_user_frame (s s' : Store) (id : Z) (name email : string) :
  update_user s id name email = Some s' ->
  rows (users s')
  = map (fun u => if u_id u =? id
                  then mkUser (u_id u) name email (u_password u) (u_role u) (u_created_at u)
                  else u) (rows (users s)) /\
  books s' = books s /\ reviews s' = reviews s /\ comments s' = comments s /\
  images s' = images s.
Proof. intros H. frame_of H. Qed.

Lemma insert_book_frame (s s' : Store) (now insertId : Z) (f : BookFields) :
  insert_book s now f = Some (insertId, s') ->
  users s' = users s /\ reviews s' = reviews s /\ comments s' = comments s /\
  images s' = images s.
Proof. intros H. frame_of H. Qed.

Lemma update_book_frame (s s' : Store) (id : Z) (f : BookFields) :
  update_book s id f = Some s' ->
  users s' = users s /\ reviews s' = reviews s /\ comments s' = comments s /\
  images s' = images s.
Proof. intros H. frame_of H. Qed.

Lemma insert_review_frame (s s' : Store) (now book_id user_id insertId : Z)
  (rating : JsValue) (review_text : option string) :
  insert_review s now book_id user_id rating review_text = Some (insertId, s') ->
  users s' = users s /\ books s' = books s /\ comments s' = comments s /\
  images s' = images s.
Proof. intros H. frame_of H. Qed.

Lemma update_review_frame (s s' : Store) (id : Z) (rating : JsValue)
  (review_text : option string) :
  update_review s id rating review_text = Some s' ->
  users s' = users s /\ books s' = books s /\ comments s' = comments s /\
  images s' = images s.
Proof. intros H. frame_of H. Qed.

Lemma insert_comment_frame (s s' : Store) (now review_id user_id insertId : Z)
  (text : string) :
  insert_comment s now review_id user_id text = Some (insertId, s') ->
  users s' = users s /\ books s' = books s /\ reviews s' = reviews s /\
  images s' = images s.
Proof. intros H. frame_of H. Qed.

Lemma insert_image_frame (s s' : Store) (now review_id insertId : Z) (image_url : string)
  (image_name : option string) :
  insert_image s now review_id image_url image_name = Some (insertId, s') ->
  users s' = users s /\ books s' = books s /\ reviews s' = reviews s /\
  comments s' = comments s.
Proof. intros H. frame_of H. Qed.

Ltac use_frame :=
  match goal with
  | H : insert_user _ _ _ _ _ = Some _ |- _ =>
      destruct (insert_user_frame _ _ _ _ _ _ _ H) as (?F & ?F & ?F & ?F & ?F); clear H
  | H : update_user _ _ _ _ = Some _ |- _ =>
      destruct (update_user_frame _ _ _ _ _ H) as (?F & ?F & ?F & ?F & ?F); clear H
  | H : insert_book _ _ _ = Some _ |- _ =>
      destruct (insert_book_frame _ _ _ _ _ H) as (?F & ?F & ?F & ?F); clear H
  | H : update_book _ _ _ = Some _ |- _ =>
      destruct (update_book_frame _ _ _ _ H) as (?F & ?F & ?F & ?F); clear H
  | H : insert_review _ _ _ _ _ _ = Some _ |- _ =>
      destruct (insert_review_frame _ _ _ _ _ _ _ _ H) as (?F & ?F & ?F & ?F); clear H
  | H : update_review _ _ _ _ = Some _ |- _ =>
      destruct (update_review_frame _ _ _ _ _ H) as (?F & ?F & ?F & ?F); clear H
  | H : insert_comment _ _ _ _ _ = Some _ |- _ =>
      destruct (insert_comment_frame _ _ _ _ _ _ _ H) as (?F & ?F & ?F & ?F); clear H
  | H : insert_image _ _ _ _ _ = Some _ |- _ =>
      destruct (insert_image_frame _ _ _ _ _ _ _ H) as (?F & ?F & ?F & ?F); clear H
  end.

Lemma update_keeps_accounts (l : list User) (id : Z) (name email : string) :
  map account
    (map (fun u => if u_id u =? id
                   then mkUser (u_id u) name email (u_password u) (u_role u) (u_created_at u)
                   else u) l)
  = map account l.
Proof.
  rewrite map_map. apply map_ext. intros u. destruct (u_id u =? id); reflexivity.
Qed.

(** X3.  No request removes an account, changes its id, its role or its
    password digest, and PUT /profile, whose name and email are strings,
    changes a name and an email and nothing else.  The accounts a request
    adds have the role 'user', but for the one that GET /init adds, for
    anybody who asks, when nobody has the email admin@example.com: that one
    is an admin, and its password is admin123. *)
Theorem accounts_are_kept (now : Z) (salt : string) (request : Request) (s : Store) :
  exists added : list User,
    map account (rows (users (snd (serve now salt request s))))
    = map account (rows (users s)) ++ map account added /\
    forall u : User, In u added ->
      u_role u = RoleUser \/
      (request = GetInit /\
       select_users_by_email s "admin@example.com" = [] /\
       u = mkUser (auto_increment (users s)) "Admin User" "admin@example.com"
             (bcrypt_hash salt "admin123") RoleAdmin now).
Proof.
  destruct request.
  { destruct (init_answer now salt s) as [s1 [Hinit [Hkept [Hadded _]]]].
    simpl. rewrite Hinit. simpl.
    destruct (select_users_by_email s "admin@example.com") as [|taken rest] eqn:Hfree.
    - eexists [_]. rewrite (Hadded eq_refl), map_app. split; [reflexivity|].
      intros u [<-|[]]. right. repeat split.
    - exists []. rewrite Hkept; [|discriminate]. simpl. rewrite app_nil_r.
      split; [reflexivity | intros u []]. }
  all: simpl; unfold_routes; unfold_handlers; case_split; simpl;
    try use_frame;
    first [ exists []; simpl; rewrite app_nil_r; split;
            [ first [ reflexivity
                    | match goal with F : users _ = users _ |- _ => rewrite F; reflexivity end
                    | match goal with
                      | F : rows (users _) = map _ _ |- _ =>
                          rewrite F; apply update_keeps_accounts
                      end ]
            | intros ? [] ]
          | match goal with
            | F : rows (users _) = _ ++ [?new] |- _ =>
                exists [new]; rewrite F, map_app; split;
                [reflexivity | intros ? [<-|[]]; left; reflexivity]
            end ].
Qed.

(** X4.  The catalogue belongs to the admins, but for its first filling: a
    request after which the table of books differs is one of POST /books,
    PUT /books/:id and DELETE /books/:id and carried a token that verifies
    to the role 'admin', or it is GET /init, which asks for no token, on a
    store without any book. *)
Theorem catalogue_changes_need_an_admin (now : Z) (salt : string) (request : Request)
  (s : Store) :
  books (snd (serve now salt request s)) <> books s ->
  (exists (token : Token) (user : Claims),
     admin_only request = true /\
     token_header request = Some (Some token) /\
     jwt_verify token now = Some user /\
     claim_role user = RoleAdmin) \/
  (request = GetInit /\ rows (books s) = []).
Proof.
  destruct request.
  { destruct (init_answer now salt s) as [s1 [Hinit [_ [_ [Hkept _]]]]].
    simpl. rewrite Hinit. simpl. intros Hchanged. right. split; [reflexivity|].
    destruct (rows (books s)) as [|b bs] eqn:E; [reflexivity|].
    exfalso. apply Hchanged. apply Hkept. discriminate. }
  all: simpl; unfold_routes; unfold_handlers; case_split; simpl;
    intros Hchanged;
    try (exfalso; apply Hchanged; reflexivity);
    try (use_frame; exfalso; apply Hchanged; assumption);
    match goal with
    | Hs : match ?header with _ => _ end = inr ?c, Ha : not_admin ?c = false |- _ =>
        destruct header as [t|]; [|discriminate Hs];
        destruct (jwt_verify t _) as [decoded|] eqn:Hv; [|discriminate Hs];
        injection Hs as ->;
        left; exists t, c; repeat split; [exact Hv | exact (not_admin_false _ Ha)]
    end.
Qed.

(** ** Deleting *)

Lemma filter_deleted {A : Type} (p hit : A -> bool) (l : list A) :
  (forall x : A, In x l -> p x = true -> hit x = true) ->
  filter p (filter (fun x => negb (hit x)) l) = [].
Proof.
  intros H. apply filter_none. intros x Hx. apply filter_In in Hx. destruct Hx as [Hx Hkeep].
  destruct (p x) eqn:E; [|reflexivity].
  rewrite (H x Hx E) in Hkeep. discriminate.
Qed.

Lemma filter_spared {A : Type} (p hit : A -> bool) (l : list A) :
  (forall x : A, In x l -> p x = true -> hit x = false) ->
  filter p (filter (fun x => negb (hit x)) l) = filter p l.
Proof.
  intros H. induction l as [|a rest IH]; simpl; [reflexivity|].
  assert (IH' : filter p (filter (fun x => negb (hit x)) rest) = filter p rest).
  { apply IH. intros x Hx. apply H. right. exact Hx. }
  destruct (p a) eqn:Ep.
  - rewrite (H a (or_introl eq_refl) Ep). simpl. rewrite Ep, IH'. reflexivity.
  - destruct (hit a); simpl; [|rewrite Ep]; exact IH'.
Qed.

Lemma same_key_same_row {A : Type} (key : A -> Z) (l : list A) (x y : A) :
  NoDup (map key l) -> In x l -> In y l -> key x = key y -> x = y.
Proof.
  intros Hnodup Hx Hy Hkey.
  apply (at_most_one_eq (filter (fun r => key r =? key y) l)).
  - apply key_selects_at_most_one. exact Hnodup.
  - apply filter_In. split; [exact Hx | apply Z.eqb_eq; exact Hkey].
  - apply filter_In. split; [exact Hy | apply Z.eqb_refl].
Qed.

Lemma review_in_false (doomed : list Review) (k : Z) :
  (forall r : Review, In r doomed -> r_id r <> k) -> review_in doomed k = false.
Proof.
  intros H. unfold review_in. destruct (existsb (fun r => r_id r =? k) doomed) eqn:E;
    [|reflexivity].
  apply existsb_exists in E. destruct E as [r [Hr Hk]]. apply Z.eqb_eq in Hk.
  exfalso. exact (H r Hr Hk).
Qed.

(** X5.  When an admin deletes a book, the book, its reviews and the
    comments and images of those reviews are gone in the same request and
    GET /books/:id answers 404 afterwards.  The accounts, the other books and
    their reviews stay, and so do the comments and images of those reviews. *)
Theorem deleteBook_cascade (now : Z) (token : Token) (user : Claims) (id : Z) (s : Store) :
  jwt_verify token now = Some user ->
  claim_role user = RoleAdmin ->
  select_book s id <> [] ->
  route_deleteBook now (Some token) id s
  = (json 200 (Message "Book deleted successfully"), delete_book s id) /\
  select_book (delete_book s id) id = [] /\
  select_reviews_by_book (delete_book s id) id = [] /\
  (forall r : Review, In r (rows (reviews s)) -> r_book_id r = id ->
     select_comments_by_review (delete_book s id) (r_id r) = [] /\
     select_images_by_review (delete_book s id) (r_id r) = []) /\
  getBookDetail id (delete_book s id) = (json 404 (Error "Book not found"), delete_book s id) /\
  users (delete_book s id) = users s /\
  (forall k : Z, k <> id ->
     select_book (delete_book s id) k = select_book s k /\
     select_reviews_by_book (delete_book s id) k = select_reviews_by_book s k) /\
  (primary_key r_id (reviews s) ->
   forall r : Review, In r (rows (reviews s)) -> r_book_id r <> id ->
     select_comments_by_review (delete_book s id) (r_id r)
     = select_comments_by_review s (r_id r) /\
     select_images_by_review (delete_book s id) (r_id r)
     = select_images_by_review s (r_id r)).
Proof.
  intros Htoken Hadmin Hbook.
  assert (Hgone : select_book (delete_book s id) id = []).
  { unfold select_book, delete_book. simpl. apply filter_deleted. intros b _ Hb. exact Hb. }
  split; [|split; [exact Hgone|split; [|split; [|split; [|split; [reflexivity|split]]]]]].
  - unfold route_deleteBook. rewrite (protected_valid _ _ _ _ _ Htoken).
    unfold deleteBook, not_admin. rewrite Hadmin. simpl.
    rewrite (not_nil_is_empty _ Hbook). reflexivity.
  - unfold select_reviews_by_book, delete_book. simpl.
    apply filter_deleted. intros r _ Hr. exact Hr.
  - intros r Hin Hb. unfold select_comments_by_review, select_images_by_review, delete_book.
    simpl. split; apply filter_deleted; intros x _ Hx; apply Z.eqb_eq in Hx; rewrite Hx;
      apply (review_in_doomed _ _ _ Hin Hb).
  - unfold getBookDetail. rewrite Hgone. reflexivity.
  - intros k Hk. unfold select_book, select_reviews_by_book, delete_book. simpl.
    split; apply filter_spared; intros x _ Hx; apply Z.eqb_eq in Hx; apply Z.eqb_neq;
      congruence.
  - intros [Hnodup _] r Hin Hb.
    assert (Hout : review_in (select_reviews_by_book s id) (r_id r) = false).
    { apply review_in_false. intros r0 Hr0 Hsame.
      unfold select_reviews_by_book in Hr0. apply filter_In in Hr0.
      destruct Hr0 as [Hr0 Hb0]. apply Z.eqb_eq in Hb0.
      rewrite (same_key_same_row r_id _ _ _ Hnodup Hr0 Hin Hsame) in Hb0. contradiction. }
    unfold select_comments_by_review, select_images_by_review, delete_book. simpl.
    split; apply filter_spared; intros x _ Hx; apply Z.eqb_eq in Hx; rewrite Hx; exact Hout.
Qed.

(** X6.  The owner of a review and an admin can delete it: the answer is
    200, the review is gone and its comments and images with it, while every
    other review, with its comments and images, every book and every account
    stay as they were. *)
Theorem deleteReview_by_owner_or_admin (now : Z) (token : Token) (user : Claims) (id : Z)
  (s : Store) (review : Review) (reviews' : list Review) :
  jwt_verify token now = Some user ->
  select_review s id = review :: reviews' ->
  r_user_id review = claim_id user \/ claim_role user = RoleAdmin ->
  route_deleteReview now (Some token) id s
  = (json 200 (Message "Review deleted successfully"), delete_review s id) /\
  select_review (delete_review s id) id = [] /\
  select_comments_by_review (delete_review s id) id = [] /\
  select_images_by_review (delete_review s id) id = [] /\
  (forall k : Z, k <> id ->
     select_review (delete_review s id) k = select_review s k /\
     select_comments_by_review (delete_review s id) k = select_comments_by_review s k /\
     select_images_by_review (delete_review s id) k = select_images_by_review s k) /\
  users (delete_review s id) = users s /\
  books (delete_review s id) = books s.
Proof.
  intros Htoken Hreview Hallowed.
  split; [|split; [|split; [|split; [|split; [|split; reflexivity]]]]].
  - unfold route_deleteReview. rewrite (protected_valid _ _ _ _ _ Htoken).
    unfold deleteReview. rewrite Hreview, (not_owner_nor_admin_false _ _ Hallowed).
    reflexivity.
  - unfold select_review, delete_review. simpl. apply filter_deleted. intros x _ Hx. exact Hx.
  - unfold select_comments_by_review, delete_review. simpl.
    apply filter_deleted. intros x _ Hx. exact Hx.
  - unfold select_images_by_review, delete_review. simpl.
    apply filter_deleted. intros x _ Hx. exact Hx.
  - intros k Hk.
    unfold select_review, select_comments_by_review, select_images_by_review, delete_review.
    simpl. repeat split; apply filter_spared; intros x _ Hx; apply Z.eqb_eq in Hx;
      apply Z.eqb_neq; congruence.
Qed.

(** X7.  DELETE /comments/:id is for the author of the comment and for
    admins: they get 200 and that comment, and no other, is gone; anybody
    else gets 403 and the comment stays.  The author of the review the
    comment is on has no say. *)
Theorem deleteComment_author_or_admin (now : Z) (token : Token) (user : Claims) (id : Z)
  (s : Store) (comment : Comment) (comments' : list Comment) :
  jwt_verify token now = Some user ->
  select_comment s id = comment :: comments' ->
  (cm_user_id comment = claim_id user \/ claim_role user = RoleAdmin ->
     route_deleteComment now (Some token) id s
     = (json 200 (Message "Comment deleted successfully"), delete_comment s id) /\
     select_comment (delete_comment s id) id = [] /\
     forall k : Z, k <> id -> select_comment (delete_comment s id) k = select_comment s k) /\
  (~ (cm_user_id comment = claim_id user \/ claim_role user = RoleAdmin) ->
     route_deleteComment now (Some token) id s
     = (json 403 (Error "You can only delete your own comments"), s)).
Proof.
  intros Htoken Hcomment.
  unfold route_deleteComment. rewrite (protected_valid _ _ _ _ _ Htoken).
  unfold deleteComment. rewrite Hcomment. split.
  - intros Hallowed. rewrite (not_owner_nor_admin_false _ _ Hallowed).
    split; [reflexivity|]. split.
    + unfold select_comment, delete_comment. simpl.
      apply filter_deleted. intros x _ Hx. exact Hx.
    + intros k Hk. unfold select_comment, delete_comment. simpl.
      apply filter_spared. intros x _ Hx. apply Z.eqb_eq in Hx. apply Z.eqb_neq. congruence.
  - intros Hno. rewrite not_owner_nor_admin_true; [reflexivity | |].
    + intros Hid. apply Hno. left. exact Hid.
    + intros Hrole. apply Hno. right. exact Hrole.
Qed.

(** ** Creating *)

Lemma within_not_outside (q : Q) : (1 <= q)%Q -> (q <= 5)%Q -> ~ outside_1_5 (JNum q).
Proof.
  intros H1 H5 [Hlow|Hhigh].
  - exact (Qlt_not_le _ _ Hlow H1).
  - exact (Qlt_not_le _ _ Hhigh H5).
Qed.


(** X9.  Whenever createReview answers 201, the reviews table has one row
    more, the review of the request with a rating between 1 and 5 (for a
    number, the integer the column makes of it), and the page of the book
    counts one review more than before and shows the average of the old
    ratings and this new one, as AVG gives it: their mean with four
    decimals. *)
Theorem createReview_then_getBookDetail (now : Z) (user : Claims) (id : Z) (rating : JsValue)
  (review_text : option string) (s s' : Store) (message : string) (insertId : Z)
  (book : Book) (others : list Book) :
  createReview now id rating review_text user s = (json 201 (Created message insertId), s') ->
  select_book s id = book :: others ->
  let ratings := ratings_of_book s id in
  exists (z : Z) (views : list ReviewView) (average_rating : Q),
    1 <= z <= 5 /\
    (forall q : Q, rating = JNum q -> z = sql_int q) /\
    rows (reviews s')
    = rows (reviews s) ++ [mkReview insertId id (claim_id user) z review_text now] /\
    ratings_of_book s' id = ratings ++ [z] /\
    getBookDetail id s'
    = (json 200 (BookPage book views average_rating (Z.of_nat (List.length ratings) + 1)), s')
    /\
    four_decimals average_rating /\
    (Qabs (average_rating - mean (ratings ++ [z])) <= 1 # 20000)%Q /\
    (four_decimals (mean (ratings ++ [z])) -> (average_rating == mean (ratings ++ [z]))%Q).
Proof.
  intros Hcreated Hbook ratings. unfold createReview in Hcreated.
  destruct (rating_rejected rating); [discriminate|].
  destruct (is_empty (select_book s id)); [discriminate|].
  destruct (negb (is_empty (select_reviews_by_book_user s id (claim_id user))));
    [discriminate|].
  destruct (insert_review s now id (claim_id user) rating review_text) as [[n s1]|] eqn:Hins;
    [|discriminate].
  injection Hcreated as _ <- <-.
  destruct (insert_review_rows _ _ _ _ _ _ _ _ Hins) as [z [Hcol Hrows]].
  destruct (insert_rating_range _ _ _ _ Hcol) as [Hrange [Hnumber _]].
  destruct (insert_review_frame _ _ _ _ _ _ _ _ Hins) as [_ [Hbooks _]].
  assert (Hratings : ratings_of_book s1 id = ratings ++ [z]).
  { unfold ratings, ratings_of_book. rewrite Hrows, flat_map_app. simpl.
    rewrite Z.eqb_refl. reflexivity. }
  assert (Hne : ratings ++ [z] <> []) by (destruct ratings; discriminate).
  exists z, (review_views s1 id), (or_zero_Q (sql_avg (ratings ++ [z]))).
  split; [exact Hrange|]. split; [exact Hnumber|]. split; [exact Hrows|].
  split; [exact Hratings|]. split; [|exact (average_near_mean _ Hne)].
  unfold getBookDetail, select_book. rewrite Hbooks. fold (select_book s id).
  rewrite Hbook, ratings_selected, Hratings. unfold sql_count. rewrite length_app. simpl.
  rewrite or_zero_Z_id. repeat f_equal. lia.
Qed.

Lemma opt_string_eqb_true (a b : option string) :
  opt_string_eqb a b = true <-> a = b /\ b <> None.
Proof.
  destruct a as [x|], b as [y|]; simpl; split; try discriminate;
    try (intros [H1 H2]; congruence).
  - intros H. apply String.eqb_eq in H. split; congruence.
  - intros [H _]. injection H as ->. apply String.eqb_refl.
Qed.

(** X10.  POST /books does not look for the ISBN before it inserts: an
    admin who sends an ISBN that a book of the catalogue has is answered 500
    "Failed to create book", and nothing is stored.  With no ISBN or a new
    one the answer is 201 with the id of the book, and, in a store that
    satisfies the schema, GET /books/:id of that id shows the book with no
    review, average 0 and total 0. *)
Theorem createBook_isbn (now : Z) (token : Token) (user : Claims) (f : BookFields)
  (s : Store) :
  jwt_verify token now = Some user ->
  claim_role user = RoleAdmin ->
  falsy (title f) = false ->
  falsy (author f) = false ->
  ((exists b : Book, In b (rows (books s)) /\ bk_isbn b = isbn f /\ isbn f <> None) ->
   route_createBook now (Some token) f s = (json 500 (Error "Failed to create book"), s)) /\
  ((forall b : Book, In b (rows (books s)) -> bk_isbn b = isbn f -> isbn f = None) ->
   exists s' : Store,
     route_createBook now (Some token) f s
     = (json 201 (Created "Book created successfully" (auto_increment (books s))), s') /\
     (consistent s ->
      exists book : Book,
        getBookDetail (auto_increment (books s)) s' = (json 200 (BookPage book [] 0%Q 0), s') /\
        bk_title book = str (title f) /\ bk_author book = str (author f) /\
        bk_isbn book = isbn f)).
Proof.
  intros Htoken Hadmin Htitle Hauthor.
  unfold route_createBook. rewrite (protected_valid _ _ _ _ _ Htoken).
  unfold createBook, not_admin. rewrite Hadmin, Htitle, Hauthor. simpl.
  unfold insert_book, isbn_taken. split.
  - intros [b [Hin [Hsame Hsome]]].
    assert (Hne : filter (fun b0 => opt_string_eqb (bk_isbn b0) (isbn f) && negb false)
                    (rows (books s)) <> []).
    { apply filter_not_nil. exists b. split; [exact Hin|]. simpl. rewrite andb_true_r.
      apply opt_string_eqb_true. split; assumption. }
    rewrite (not_nil_is_empty _ Hne). reflexivity.
  - intros Hfree.
    rewrite filter_none.
    2:{ intros b Hin. simpl. rewrite andb_true_r.
        destruct (opt_string_eqb (bk_isbn b) (isbn f)) eqn:E; [|reflexivity].
        apply opt_string_eqb_true in E. destruct E as [E1 E2].
        exfalso. apply E2. exact (Hfree b Hin E1). }
    simpl. eexists. split; [reflexivity|].
    intros [_ [_ Hbelow] _ _ _ _ _ _ [Frev _]].
    eexists. unfold getBookDetail, select_book, select_reviews_by_book. simpl.
    rewrite filter_app. simpl. rewrite Z.eqb_refl.
    rewrite filter_none.
    2:{ intros b Hin. apply Z.eqb_neq. specialize (Hbelow b Hin). lia. }
    simpl.
    assert (Hnone : filter (fun r => r_book_id r =? auto_increment (books s))
                      (rows (reviews s)) = []).
    { apply filter_none. intros r Hin. apply Z.eqb_neq. intros Heq.
      destruct (Frev r Hin) as [Fb _]. apply filter_not_nil in Fb.
      destruct Fb as [b [Hb Hid]]. apply Z.eqb_eq in Hid.
      specialize (Hbelow b Hb). lia. }
    unfold review_views, select_reviews_by_book. simpl. rewrite Hnone. simpl.
    repeat split; reflexivity.
Qed.

(** X11.  An email registers once.  POST /register with an email that an
    account has is answered 400 "User already exists" and stores nothing; in
    particular a second registration with the email of a first one that
    went through is refused, whatever name and password it brings. *)
Theorem register_same_email_twice (now later : Z) (salt salt' : string)
  (name email password : string) (name' password' : option string) (s : Store) :
  email <> "" ->
  falsy name' = false -> falsy password' = false ->
  (select_users_by_email s email <> [] ->
   register later salt' name' (Some email) password' s
   = (json 400 (Error "User already exists"), s)) /\
  (name <> "" -> password <> "" ->
   select_users_by_email s email = [] ->
   status (fst (register now salt (Some name) (Some email) (Some password) s)) = 201 /\
   register later salt' name' (Some email) password'
     (snd (register now salt (Some name) (Some email) (Some password) s))
   = (json 400 (Error "User already exists"),
      snd (register now salt (Some name) (Some email) (Some password) s))).
Proof.
  intros Hemail Hname' Hpassword'.
  assert (Htaken : forall s0 : Store,
            select_users_by_email s0 email <> [] ->
            register later salt' name' (Some email) password' s0
            = (json 400 (Error "User already exists"), s0)).
  { intros s0 Hne. unfold register.
    rewrite Hname', Hpassword', (falsy_some _ Hemail). simpl.
    rewrite (not_nil_is_empty _ Hne). reflexivity. }
  split; [apply Htaken|].
  intros Hname Hpassword Hfree.
  destruct (insert_user s now name email (bcrypt_hash salt password))
    as [[insertId s1]|] eqn:Hins.
  2:{ unfold insert_user in Hins. rewrite Hfree in Hins. discriminate. }
  destruct (insert_user_selected _ _ _ _ _ _ _ Hfree Hins) as [_ Hsel].
  assert (Hreg : register now salt (Some name) (Some email) (Some password) s
                 = (json 201 (Session "User registered successfully"
                                (jwt_sign (mkClaims insertId email name RoleUser) now)
                                (mkAuthUser insertId name email RoleUser)), s1)).
  { unfold register. rewrite (falsy_some _ Hname), (falsy_some _ Hemail),
      (falsy_some _ Hpassword). simpl. rewrite Hfree. simpl. rewrite Hins. reflexivity. }
  rewrite Hreg. simpl. split; [reflexivity|].
  apply Htaken. rewrite Hsel. discriminate.
Qed.


(** ** Lists in the answers: ORDER BY and JOIN *)

Lemma insert_by_perm {A : Type} (before : A -> A -> bool) (x : A) (l : list A) :
  Permutation (insert_by before x l) (x :: l).
Proof.
  induction l as [|y rest IH]; simpl; [apply Permutation_refl|].
  destruct (before x y); [apply Permutation_refl|].
  apply perm_trans with (l' := y :: x :: rest); [|apply perm_swap].
  apply perm_skip. exact IH.
Qed.

Lemma order_by_perm {A : Type} (before : A -> A -> bool) (l : list A) :
  Permutation (order_by before l) l.
Proof.
  unfold order_by. induction l as [|x rest IH]; simpl; [apply perm_nil|].
  apply perm_trans with (l' := x :: fold_right (insert_by before) [] rest).
  - apply insert_by_perm.
  - apply perm_skip. exact IH.
Qed.

Section Sorting.

Variable A : Type.
Variable before : A -> A -> bool.
Variable R : A -> A -> Prop.
Hypothesis before_R : forall a b : A, before a b = true -> R a b.
Hypothesis not_before_R : forall a b : A, before a b = false -> R b a.
Hypothesis R_trans : forall a b c : A, R a b -> R b c -> R a c.

Lemma insert_by_sorted (x : A) (l : list A) :
  StronglySorted R l -> StronglySorted R (insert_by before x l).
Proof.
  induction l as [|y rest IH]; simpl; intros Hs.
  - constructor; [constructor | constructor].
  - apply StronglySorted_inv in Hs. destruct Hs as [Hrest Hy].
    destruct (before x y) eqn:E.
    + constructor; [constructor; assumption|].
      constructor; [apply before_R; exact E|].
      apply Forall_forall. intros z Hz. apply R_trans with (b := y).
      * apply before_R. exact E.
      * apply (proj1 (Forall_forall _ _) Hy z Hz).
    + constructor; [apply IH; exact Hrest|].
      apply Forall_forall. intros z Hz.
      apply (Permutation_in _ (insert_by_perm before x rest)) in Hz.
      destruct Hz as [<-|Hz].
      * apply not_before_R. exact E.
      * apply (proj1 (Forall_forall _ _) Hy z Hz).
Qed.

Lemma order_by_sorted (l : list A) : StronglySorted R (order_by before l).
Proof.
  unfold order_by. induction l as [|x rest IH]; simpl; [constructor|].
  apply insert_by_sorted. exact IH.
Qed.

End Sorting.

Lemma order_by_desc {A : Type} (key : A -> Z) (l : list A) :
  StronglySorted (fun a b => key b <= key a) (order_by (desc key) l).
Proof.
  apply order_by_sorted; unfold desc.
  - intros a b H. apply Z.leb_le. exact H.
  - intros a b H. apply Z.leb_gt in H. lia.
  - intros a b c H1 H2. lia.
Qed.

Lemma order_by_asc {A : Type} (key : A -> Z) (l : list A) :
  StronglySorted (fun a b => key a <= key b) (order_by (asc key) l).
Proof.
  apply order_by_sorted; unfold asc.
  - intros a b H. apply Z.leb_le. exact H.
  - intros a b H. apply Z.leb_gt in H. lia.
  - intros a b c H1 H2. lia.
Qed.

(** X13.  The lists come whole and in order.  GET /books answers with every
    book of the catalogue exactly once, the newest first; GET /users gives an
    admin every account exactly once, the newest first, as id, name, email,
    role and date; GET /reviews/:id/images gives the images of the review,
    the oldest first. *)
Theorem lists_are_whole_and_ordered (now : Z) (token : Token) (user : Claims) (id : Z)
  (s : Store) :
  (exists l : list Book,
     getBooks s = (json 200 (BookList l), s) /\
     Permutation l (rows (books s)) /\
     StronglySorted (fun a b => bk_created_at b <= bk_created_at a) l) /\
  (exists l : list Image,
     getImages id s = (json 200 (ImageList l), s) /\
     Permutation l (select_images_by_review s id) /\
     StronglySorted (fun a b => im_created_at a <= im_created_at b) l) /\
  (jwt_verify token now = Some user ->
   claim_role user = RoleAdmin ->
   exists l : list User,
     route_getUsers now (Some token) s = (json 200 (UserList (map profile_of l)), s) /\
     Permutation l (rows (users s)) /\
     StronglySorted (fun a b => u_created_at b <= u_created_at a) l).
Proof.
  split; [|split].
  - exists (order_by (desc bk_created_at) (rows (books s))).
    split; [reflexivity|]. split; [apply order_by_perm | apply order_by_desc].
  - exists (order_by (asc im_created_at) (select_images_by_review s id)).
    split; [reflexivity|]. split; [apply order_by_perm | apply order_by_asc].
  - intros Htoken Hadmin. exists (order_by (desc u_created_at) (rows (users s))).
    split; [|split; [apply order_by_perm | apply order_by_desc]].
    unfold route_getUsers. rewrite (protected_valid _ _ _ _ _ Htoken).
    unfold getUsers, not_admin. rewrite Hadmin. reflexivity.
Qed.

Lemma exactly_one_user (s : Store) (uid : Z) :
  primary_key u_id (users s) -> select_user s uid <> [] ->
  exists u : User, select_user s uid = [u].
Proof.
  intros [Hnodup _] Hne.
  pose proof (key_selects_at_most_one u_id uid _ Hnodup) as Hle.
  unfold select_user in *.
  destruct (filter (fun u => u_id u =? uid) (rows (users s))) as [|u [|v rest]].
  - congruence.
  - exists u. reflexivity.
  - simpl in Hle. lia.
Qed.

Lemma joined_with_users (s : Store) (view : Review -> User -> ReviewView)
  (l : list Review) :
  primary_key u_id (users s) ->
  (forall r : Review, In r l -> select_user s (r_user_id r) <> []) ->
  (forall (r : Review) (u : User), rv_review (view r u) = r) ->
  map rv_review (flat_map (fun r => map (view r) (select_user s (r_user_id r))) l) = l.
Proof.
  intros Hkey Hfk Hview. induction l as [|r rest IH]; simpl; [reflexivity|].
  destruct (exactly_one_user s (r_user_id r) Hkey (Hfk r (or_introl eq_refl))) as [u Hu].
  rewrite Hu. simpl. rewrite Hview. f_equal. apply IH.
  intros r0 Hr0. apply Hfk. right. exact Hr0.
Qed.

(** X14.  In a store that satisfies the schema the page of a book lists
    each of its reviews exactly once, the newest first, so the list is as
    long as [total_reviews] says; and each entry carries the name and email
    of the account that wrote the review, the number of its comments and its
    images. *)
Theorem getBookDetail_lists_every_review (id : Z) (s : Store) (book : Book)
  (others : list Book) :
  consistent s ->
  select_book s id = book :: others ->
  exists (views : list ReviewView) (average_rating : Q) (total_reviews : Z),
    getBookDetail id s = (json 200 (BookPage book views average_rating total_reviews), s) /\
    Z.of_nat (List.length views) = total_reviews /\
    Permutation (map rv_review views) (select_reviews_by_book s id) /\
    StronglySorted (fun a b => r_created_at b <= r_created_at a) (map rv_review views) /\
    forall v : ReviewView, In v views ->
      (exists author : User,
         select_user s (r_user_id (rv_review v)) = [author] /\
         rv_user_name v = u_name author /\ rv_user_email v = u_email author) /\
      rv_comment_count v
      = Z.of_nat (List.length (select_comments_by_review s (r_id (rv_review v)))) /\
      Permutation (rv_images v) (select_images_by_review s (r_id (rv_review v))).
Proof.
  intros Hc Hbook. destruct Hc as [Ku _ _ _ _ _ _ _ [Frev _]].
  set (sorted := order_by (desc r_created_at) (select_reviews_by_book s id)).
  assert (Hin : forall r : Review, In r sorted -> select_user s (r_user_id r) <> []).
  { intros r Hr. apply (Permutation_in _ (order_by_perm _ _)) in Hr.
    unfold select_reviews_by_book in Hr. apply filter_In in Hr. apply Frev. apply Hr. }
  assert (Hmap : map rv_review (review_views s id) = sorted).
  { unfold review_views. fold sorted.
    apply (joined_with_users s
             (fun r u => mkReviewView r (u_name u) (u_email u)
                           (sql_count (select_comments_by_review s (r_id r)))
                           (order_by (asc im_created_at)
                              (select_images_by_review s (r_id r))))); try assumption.
    reflexivity. }
  exists (review_views s id),
         (or_zero_Q (sql_avg (map r_rating (select_reviews_by_book s id)))),
         (or_zero_Z (sql_count (map r_rating (select_reviews_by_book s id)))).
  split; [unfold getBookDetail; rewrite Hbook; reflexivity|].
  split; [|split; [|split]].
  - rewrite or_zero_Z_id. unfold sql_count. rewrite length_map.
    rewrite <- (length_map rv_review), Hmap. unfold sorted.
    rewrite (Permutation_length (order_by_perm _ _)). reflexivity.
  - rewrite Hmap. apply order_by_perm.
  - rewrite Hmap. apply order_by_desc.
  - intros v Hv. unfold review_views in Hv. fold sorted in Hv.
    apply in_flat_map in Hv. destruct Hv as [r [Hr Hv]].
    apply in_map_iff in Hv. destruct Hv as [u [<- Hu]]. simpl.
    destruct (exactly_one_user s (r_user_id r) Ku (Hin r Hr)) as [author Hauthor].
    rewrite Hauthor in Hu. destruct Hu as [<-|[]].
    split; [exists author; repeat split; exact Hauthor|].
    split; [reflexivity | apply order_by_perm].
Qed.

(** ** Writing and reading back *)

Lemma is_space2_high (a b : Z) : is_space2 a b = true -> 128 <= a /\ 128 <= b.
Proof.
  unfold is_space2. intros H. apply andb_true_iff in H. destruct H as [Ha Hb].
  apply Z.eqb_eq in Ha. apply Z.eqb_eq in Hb. lia.
Qed.

Lemma is_space3_high (a b c : Z) :
  is_space3 a b c = true -> 128 <= a /\ 128 <= b /\ 128 <= c.
Proof.
  unfold is_space3. intros H.
  repeat match type of H with
         | (_ || _ = true) => apply orb_true_iff in H; destruct H as [H|H]
         end;
    repeat match goal with
           | H : _ && _ = true |- _ => apply andb_true_iff in H; destruct H
           | H : _ || _ = true |- _ => apply orb_true_iff in H; destruct H
           | H : (_ =? _) = true |- _ => apply Z.eqb_eq in H
           | H : (_ <=? _) = true |- _ => apply Z.leb_le in H
           end; lia.
Qed.

(** A text that has a visible character of one byte is not blank: the white
    space of several bytes has no byte below 128. *)
Lemma trim_is_empty_false (text : string) (c : Ascii.ascii) :
  In c (list_ascii_of_string text) -> code c < 128 -> is_space c = false ->
  trim_is_empty text = false.
Proof.
  intros Hin Hlow Hc.
  assert (H : forall (n : nat) (t : string),
             (String.length t <= n)%nat -> In c (list_ascii_of_string t) ->
             trim_is_empty t = false).
  { induction n as [|n IH]; intros t Hlen Ht.
    - destruct t; [destruct Ht | simpl in Hlen; lia].
    - destruct t as [|a rest]; [destruct Ht|].
      simpl in Hlen. simpl. destruct (is_space a) eqn:Ea.
      + destruct Ht as [->|Ht]; [congruence|]. apply IH; [lia | exact Ht].
      + destruct rest as [|b rest1]; [reflexivity|].
        destruct (is_space2 (code a) (code b)) eqn:E2.
        * apply is_space2_high in E2.
          destruct Ht as [->|[->|Ht]]; [lia | lia |].
          simpl in Hlen. apply IH; [lia | exact Ht].
        * destruct rest1 as [|d rest2]; [reflexivity|].
          destruct (is_space3 (code a) (code b) (code d)) eqn:E3; [|reflexivity].
          apply is_space3_high in E3.
          destruct Ht as [->|[->|[->|Ht]]]; [lia | lia | lia |].
          simpl in Hlen. apply IH; [lia | exact Ht]. }
  exact (H (String.length text) text (Nat.le_refl _) Hin).
Qed.

Lemma trim_is_empty_true (text : string) :
  Forall (fun c => is_space c = true) (list_ascii_of_string text) -> trim_is_empty text = true.
Proof.
  induction text as [|a rest IH]; simpl; [reflexivity|].
  intros H. apply Forall_cons_iff in H. destruct H as [Ha Hrest].
  rewrite Ha. exact (IH Hrest).
Qed.

Lemma is_space_code (c : Ascii.ascii) :
  is_space c = ((9 <=? code c) && (code c <=? 13)) || (code c =? 32).
Proof.
  reflexivity.
Qed.

Lemma bytes_cons (text : string) (z : Z) (l : list Z) :
  bytes text = z :: l ->
  exists (c : Ascii.ascii) (rest : string),
    text = String c rest /\ code c = z /\ bytes rest = l.
Proof.
  destruct text as [|c rest]; [discriminate|].
  unfold bytes. simpl. intros [= H1 H2]. exists c, rest. repeat split; assumption.
Qed.

Ltac bool_facts :=
  repeat match goal with
         | H : _ && _ = true |- _ => apply andb_true_iff in H; destruct H
         | H : _ || _ = true |- _ => apply orb_true_iff in H; destruct H
         | H : (_ =? _) = true |- _ => apply Z.eqb_eq in H
         | H : (_ <=? _) = true |- _ => apply Z.leb_le in H
         end.

Ltac one_of_the_codes :=
  try match goal with
      | H1 : 9 <= ?x, H2 : ?x <= 13 |- _ =>
          let E := fresh "E" in
          assert (E : x = 9 \/ x = 10 \/ x = 11 \/ x = 12 \/ x = 13) by lia;
          clear H1 H2; repeat destruct E as [E|E]
      | H1 : 128 <= ?x, H2 : ?x <= 138 |- _ =>
          let E := fresh "E" in
          assert (E : x = 128 \/ x = 129 \/ x = 130 \/ x = 131 \/ x = 132 \/ x = 133
                      \/ x = 134 \/ x = 135 \/ x = 136 \/ x = 137 \/ x = 138) by lia;
          clear H1 H2; repeat destruct E as [E|E]
      end;
  repeat match goal with
         | H : code _ = _ |- _ => rewrite H; clear H
         end;
  unfold white_space; simpl; repeat (first [left; reflexivity | right]).

(** [trim] empties the texts that are white space from end to end, and no
    other. *)
Lemma trim_is_empty_white_space (text : string) :
  trim_is_empty text = true -> white_space_only text.
Proof.
  assert (H : forall (n : nat) (t : string),
             (String.length t <= n)%nat -> trim_is_empty t = true -> white_space_only t).
  { induction n as [|n IH]; intros t Hlen Ht.
    - destruct t; [|simpl in Hlen; lia]. exists []. split; [constructor | reflexivity].
    - destruct t as [|a rest]; [exists []; split; [constructor | reflexivity]|].
      simpl in Hlen. cbn [trim_is_empty] in Ht.
      destruct (is_space a) eqn:Ea.
      + assert (Hrest : (String.length rest <= n)%nat) by lia.
        destruct (IH rest Hrest Ht) as [characters [Hall Hbytes]].
        exists ([code a] :: characters). split.
        * constructor; [|exact Hall]. rewrite is_space_code in Ea. bool_facts.
          all: one_of_the_codes.
        * unfold bytes in *. simpl. rewrite Hbytes. reflexivity.
      + destruct rest as [|b rest1]; [discriminate|].
        destruct (is_space2 (code a) (code b)) eqn:E2.
        * assert (Hrest : (String.length rest1 <= n)%nat) by (simpl in Hlen; lia).
          destruct (IH rest1 Hrest Ht) as [characters [Hall Hbytes]].
          exists ([code a; code b] :: characters). split.
          -- constructor; [|exact Hall]. unfold is_space2 in E2. bool_facts.
             all: one_of_the_codes.
          -- unfold bytes in *. simpl. rewrite Hbytes. reflexivity.
        * destruct rest1 as [|d rest2]; [discriminate|].
          destruct (is_space3 (code a) (code b) (code d)) eqn:E3; [|discriminate].
          assert (Hrest : (String.length rest2 <= n)%nat) by (simpl in Hlen; lia).
          destruct (IH rest2 Hrest Ht) as [characters [Hall Hbytes]].
          exists ([code a; code b; code d] :: characters). split.
          -- constructor; [|exact Hall]. unfold is_space3 in E3. bool_facts.
             all: one_of_the_codes.
          -- unfold bytes in *. simpl. rewrite Hbytes. reflexivity. }
  exact (H (String.length text) text (Nat.le_refl _)).
Qed.

Lemma trim_white_space (character l : list Z) (text : string) :
  In character white_space ->
  bytes text = character ++ l ->
  exists rest : string, bytes rest = l /\ trim_is_empty text = trim_is_empty rest.
Proof.
  intros Hin Hb. unfold white_space in Hin. simpl in Hin.
  repeat (destruct Hin as [<-|Hin]); [..|destruct Hin].
  all: simpl in Hb.
  all: repeat match goal with
              | H : bytes _ = _ :: _ |- _ =>
                  let c := fresh "c" in
                  let t := fresh "t" in
                  let Hc := fresh "Hc" in
                  apply bytes_cons in H; destruct H as [c [t [-> [Hc H]]]]
              end.
  all: eexists; split; [eassumption|].
  all: cbn [trim_is_empty]; rewrite ?is_space_code.
  all: repeat match goal with
              | Hc : code _ = _ |- _ => rewrite Hc; clear Hc
              end.
  all: reflexivity.
Qed.

Lemma white_space_trim (text : string) :
  white_space_only text -> trim_is_empty text = true.
Proof.
  intros [characters [Hall Hbytes]]. revert text Hbytes.
  induction Hall as [|character characters Hch _ IH]; intros text Hbytes.
  - destruct text; [reflexivity | discriminate].
  - simpl in Hbytes.
    destruct (trim_white_space _ _ _ Hch Hbytes) as [rest [Hrest ->]].
    apply IH. exact Hrest.
Qed.

Lemma not_white_space_trim (text : string) :
  ~ white_space_only text -> trim_is_empty text = false.
Proof.
  intros Hno. destruct (trim_is_empty text) eqn:E; [|reflexivity].
  exfalso. apply Hno. apply trim_is_empty_white_space. exact E.
Qed.

(** X15.  Comments are open to every account: POST /reviews/:id/comments
    asks for no tie to the review, so whoever holds a valid token of an
    existing account can comment on an existing review with a text that is
    not white space only.  The answer is 201 with the id of the comment,
    which comes last among the comments of the review and holds the text as
    it was sent.  A text that is white space from end to end, with the
    no-break space and the other spaces of Unicode that [trim] removes, is
    answered 400 and not stored.  A text with a visible character of one
    byte is not white space only; a text of blanks, tabs and line ends is. *)
Theorem addComment_by_any_account (now : Z) (token : Token) (user : Claims) (id : Z)
  (text : string) (s : Store) :
  jwt_verify token now = Some user ->
  (~ white_space_only text ->
   select_review s id <> [] ->
   select_user s (claim_id user) <> [] ->
   exists s' : Store,
     route_addComment now (Some token) id (Some text) s
     = (json 201 (Created "Comment added successfully" (auto_increment (comments s))), s') /\
     select_comments_by_review s' id
     = select_comments_by_review s id
       ++ [mkComment (auto_increment (comments s)) id (claim_id user) text now] /\
     reviews s' = reviews s) /\
  (white_space_only text ->
   route_addComment now (Some token) id (Some text) s
   = (json 400 (Error "Comment text is required"), s)) /\
  ((exists c : Ascii.ascii,
      In c (list_ascii_of_string text) /\ code c < 128 /\ is_space c = false) ->
   ~ white_space_only text) /\
  (Forall (fun c => is_space c = true) (list_ascii_of_string text) ->
   white_space_only text).
Proof.
  intros Htoken. unfold route_addComment. rewrite (protected_valid _ _ _ _ _ Htoken).
  unfold addComment. split; [|split; [|split]].
  - intros Hvisible Hreview Huser.
    assert (Htrim : trim_is_empty text = false) by exact (not_white_space_trim _ Hvisible).
    assert (Hfalsy : falsy (Some text) = false).
    { simpl. destruct text; [discriminate Htrim | reflexivity]. }
    rewrite Hfalsy. simpl str. rewrite Htrim. simpl.
    unfold insert_comment.
    rewrite (not_nil_is_empty _ Hreview), (not_nil_is_empty _ Huser). simpl.
    eexists. split; [reflexivity|]. split; [|reflexivity].
    unfold select_comments_by_review. simpl. rewrite filter_app. simpl.
    rewrite Z.eqb_refl. reflexivity.
  - intros Hblank. simpl str. rewrite (white_space_trim _ Hblank), orb_true_r. reflexivity.
  - intros [c [Hc [Hlow Hvisible]]] Hblank.
    pose proof (white_space_trim _ Hblank) as Htrim.
    rewrite (trim_is_empty_false _ _ Hc Hlow Hvisible) in Htrim. discriminate Htrim.
  - intros Hall. apply trim_is_empty_white_space. apply trim_is_empty_true. exact Hall.
Qed.

Lemma update_elsewhere {A : Type} (key : A -> Z) (id k : Z) (f : A -> A) (l : list A) :
  (forall x : A, key (f x) = key x) -> k <> id ->
  filter (fun x => key x =? k) (map (fun x => if key x =? id then f x else x) l)
  = filter (fun x => key x =? k) l.
Proof.
  intros Hkey Hk. induction l as [|a rest IH]; simpl; [reflexivity|].
  destruct (key a =? id) eqn:E.
  - apply Z.eqb_eq in E. rewrite Hkey.
    assert (Hno : (key a =? k) = false) by (apply Z.eqb_neq; congruence).
    rewrite Hno. exact IH.
  - destruct (key a =? k); rewrite IH; reflexivity.
Qed.

Lemma update_there {A : Type} (key : A -> Z) (id : Z) (f : A -> A) (l : list A) :
  (forall x : A, key (f x) = key x) ->
  filter (fun x => key x =? id) (map (fun x => if key x =? id then f x else x) l)
  = map f (filter (fun x => key x =? id) l).
Proof.
  intros Hkey. induction l as [|a rest IH]; simpl; [reflexivity|].
  destruct (key a =? id) eqn:E.
  - rewrite Hkey, E. simpl. rewrite IH. reflexivity.
  - rewrite E. exact IH.
Qed.

(** X16.  The owner of a review and an admin can change it: with a rating
    between 1 and 5 the answer is 200, never 500, and the review has the new
    rating (rounded by the INT column) and the new text, and its id, book,
    author and date as before; an admin's edit does not take the review
    over.  Every other review is as it was. *)
Theorem updateReview_by_owner_or_admin (now : Z) (token : Token) (user : Claims) (id : Z)
  (q : Q) (review_text : option string) (s : Store) (review : Review)
  (reviews' : list Review) :
  jwt_verify token now = Some user ->
  select_review s id = review :: reviews' ->
  r_user_id review = claim_id user \/ claim_role user = RoleAdmin ->
  (1 <= q)%Q -> (q <= 5)%Q ->
  exists s' : Store,
    route_updateReview now (Some token) id (JNum q) review_text s
    = (json 200 (Message "Review updated successfully"), s') /\
    select_review s' id
    = map (fun r => mkReview (r_id r) (r_book_id r) (r_user_id r) (sql_int q) review_text
                             (r_created_at r))
          (select_review s id) /\
    1 <= sql_int q <= 5 /\
    (forall k : Z, k <> id -> select_review s' k = select_review s k) /\
    users s' = users s /\ books s' = books s /\ comments s' = comments s /\
    images s' = images s.
Proof.
  intros Htoken Hreview Hallowed H1 H5.
  unfold route_updateReview. rewrite (protected_valid _ _ _ _ _ Htoken).
  unfold updateReview.
  rewrite (proj2 (rating_accepted_iff _) (within_not_outside _ H1 H5)).
  rewrite Hreview, (not_owner_nor_admin_false _ _ Hallowed).
  unfold update_review. rewrite (rating_column_accepts _ H1 H5).
  eexists. split; [reflexivity|].
  split; [|split; [|split; [|repeat split; reflexivity]]].
  - rewrite <- Hreview. unfold select_review. simpl. apply (update_there r_id). reflexivity.
  - exact (proj1 (rating_column_range _ _ (rating_column_accepts _ H1 H5))).
  - intros k Hk. unfold select_review. simpl. apply (update_elsewhere r_id); [reflexivity|].
    exact Hk.
Qed.

(** X17.  A profile that was updated reads back: after a PUT /profile that
    was answered 200, GET /profile with a token of the same account shows
    the new name and the new email with the id, the role and the date the
    account had, and every other account is as it was. *)
Theorem updateProfile_then_getProfile (now later : Z) (token token' : Token)
  (user user' : Claims) (name email : option string) (s s' : Store) (row : User)
  (others : list User) (message : string) :
  jwt_verify token now = Some user ->
  jwt_verify token' later = Some user' ->
  claim_id user' = claim_id user ->
  select_user s (claim_id user) = row :: others ->
  route_updateProfile now (Some token) name email s = (json 200 (Message message), s') ->
  route_getProfile later (Some token') s'
  = (json 200 (Profile (mkProfileRow (claim_id user) (str name) (str email) (u_role row)
                                     (u_created_at row))), s') /\
  falsy name = false /\ falsy email = false /\
  forall k : Z, k <> claim_id user -> select_user s' k = select_user s k.
Proof.
  intros Htoken Htoken' Hsame Hrow.
  unfold route_updateProfile, route_getProfile.
  rewrite (protected_valid _ _ _ _ _ Htoken), (protected_valid _ _ _ _ _ Htoken').
  unfold updateProfile, getProfile. rewrite Hsame.
  destruct (falsy name) eqn:Hname; [discriminate|].
  destruct (falsy email) eqn:Hemail; [discriminate|]. simpl.
  destruct (negb (is_empty (select_users_by_email_except s (str email) (claim_id user))));
    [discriminate|].
  destruct (update_user s (claim_id user) (str name) (str email)) as [s1|] eqn:Hupd;
    [|discriminate].
  intros [= _ <-].
  destruct (update_user_frame _ _ _ _ _ Hupd) as [Hrows _].
  assert (Hthere : select_user s1 (claim_id user)
                   = map (fun u => mkUser (u_id u) (str name) (str email) (u_password u)
                                          (u_role u) (u_created_at u))
                         (select_user s (claim_id user))).
  { unfold select_user. rewrite Hrows. apply (update_there u_id). reflexivity. }
  rewrite Hthere, Hrow. simpl.
  assert (Hid : u_id row = claim_id user).
  { assert (Hin : In row (select_user s (claim_id user))) by (rewrite Hrow; left; reflexivity).
    unfold select_user in Hin. apply filter_In in Hin. apply Z.eqb_eq. apply Hin. }
  unfold profile_of. simpl. rewrite Hid.
  split; [reflexivity|]. split; [reflexivity|]. split; [reflexivity|].
  intros k Hk. unfold select_user. rewrite Hrows.
  apply (update_elsewhere u_id); [reflexivity | exact Hk].
Qed.

(** X18.  The owner of a review and an admin can hang an image on it: with
    an image URL the answer is 201 with the id of the image, and GET
    /reviews/:id/images then lists the images the review had and the new
    one, each once. *)
Theorem addImage_then_getImages (now : Z) (token : Token) (user : Claims) (id : Z)
  (image_url : string) (image_name : option string) (s : Store) (review : Review)
  (reviews' : list Review) :
  jwt_verify token now = Some user ->
  select_review s id = review :: reviews' ->
  r_user_id review = claim_id user \/ claim_role user = RoleAdmin ->
  image_url <> "" ->
  exists (s' : Store) (listed : list Image),
    route_addImage now (Some token) id (Some image_url) image_name s
    = (json 201 (Created "Image added successfully" (auto_increment (images s))), s') /\
    getImages id s' = (json 200 (ImageList listed), s') /\
    Permutation listed
      (mkImage (auto_increment (images s)) id image_url image_name now
       :: select_images_by_review s id).
Proof.
  intros Htoken Hreview Hallowed Hurl.
  unfold route_addImage. rewrite (protected_valid _ _ _ _ _ Htoken).
  unfold addImage. rewrite (falsy_some _ Hurl), Hreview.
  rewrite (not_owner_nor_admin_false _ _ Hallowed).
  unfold insert_image. rewrite Hreview. simpl.
  eexists. eexists. split; [reflexivity|]. split; [reflexivity|].
  eapply perm_trans; [apply order_by_perm|].
  unfold select_images_by_review. simpl. rewrite filter_app. simpl. rewrite Z.eqb_refl.
  apply Permutation_sym. apply Permutation_cons_append.
Qed.

(** ** GET /init *)

(** X19.  GET /init can be called on any store and is always answered 200.
    It leaves every row that is there alone.  It adds the account "Admin
    User" with the role 'admin' only if no account has the email
    admin@example.com (an account that took this email before is not made an
    admin), and the three sample books only if the catalogue is empty. *)
Theorem init_adds_what_is_missing (now : Z) (salt : string) (s : Store) :
  exists s' : Store,
    init now salt s
    = (json 200 (Message "Database initialized successfully with book review system"), s') /\
    (select_users_by_email s "admin@example.com" <> [] -> users s' = users s) /\
    (select_users_by_email s "admin@example.com" = [] ->
     rows (users s')
     = rows (users s)
       ++ [mkUser (auto_increment (users s)) "Admin User" "admin@example.com"
                  (bcrypt_hash salt "admin123") RoleAdmin now]) /\
    (rows (books s) <> [] -> books s' = books s) /\
    (rows (books s) = [] ->
     map bk_title (rows (books s')) = ["The Great Gatsby"; "To Kill a Mockingbird"; "1984"]) /\
    reviews s' = reviews s /\ comments s' = comments s /\ images s' = images s.
Proof.
  exact (init_answer now salt s).
Qed.

(** X20.  GET /init is idempotent: called again, at any time and with any
    salt, on the store a first call left, it is answered 200 and changes
    nothing. *)
Theorem init_twice (now later : Z) (salt salt' : string) (s : Store) :
  init later salt' (snd (init now salt s))
  = (json 200 (Message "Database initialized successfully with book review system"),
     snd (init now salt s)).
Proof.
  destruct (init_answer now salt s)
    as [s1 [Hfirst [Hkept [Hadded [Hbkept [Hbadded _]]]]]].
  rewrite Hfirst. cbn [snd].
  assert (Hadmin : select_users_by_email s1 "admin@example.com" <> []).
  { destruct (select_users_by_email s "admin@example.com") as [|a rest] eqn:E.
    - unfold select_users_by_email. rewrite (Hadded eq_refl), filter_app. simpl.
      intros H. apply app_eq_nil in H. destruct H as [_ H]. discriminate.
    - unfold select_users_by_email in *. rewrite Hkept; [|discriminate]. rewrite E.
      discriminate. }
  assert (Hbooks : rows (books s1) <> []).
  { destruct (rows (books s)) as [|b bs] eqn:E.
    - intros H. specialize (Hbadded eq_refl). rewrite H in Hbadded. discriminate.
    - rewrite Hbkept; [|discriminate]. rewrite E. discriminate. }
  unfold init. rewrite (not_nil_is_empty _ Hadmin). cbn [fst snd negb].
  rewrite (not_nil_is_empty _ Hbooks). reflexivity.
Qed.

(** X21.  After GET /init on a store where nobody has the email
    admin@example.com, the default account works: POST /login with
    admin@example.com and admin123 is answered 200 with a token of the role
    'admin', and with this token GET /users is answered 200, not 403.  (For
    every bcrypt and jsonwebtoken that keep their contracts.) *)
Theorem init_then_admin_login (now later : Z) (salt : string) (s : Store) :
  select_users_by_email s "admin@example.com" = [] ->
  exists (token : Token) (admin : AuthUser) (listed : list ProfileRow),
    login later (Some "admin@example.com") (Some "admin123") (snd (init now salt s))
    = (json 200 (Session "Login successful" token admin), snd (init now salt s)) /\
    au_role admin = RoleAdmin /\
    (forall t : Z,
       t < later + 86400 ->
       exists user : Claims,
         jwt_verify token t = Some user /\ claim_role user = RoleAdmin /\
         claim_email user = "admin@example.com") /\
    route_getUsers later (Some token) (snd (init now salt s))
    = (json 200 (UserList listed), snd (init now salt s)).
Proof.
  intros Hfree.
  destruct (init_answer now salt s) as [s1 [Hfirst [_ [Hadded _]]]].
  rewrite Hfirst. cbn [snd]. specialize (Hadded Hfree).
  set (row := mkUser (auto_increment (users s)) "Admin User" "admin@example.com"
                (bcrypt_hash salt "admin123") RoleAdmin now) in *.
  assert (Hsel : select_users_by_email s1 "admin@example.com" = [row]).
  { unfold select_users_by_email in *. rewrite Hadded, filter_app, Hfree. reflexivity. }
  set (claims := mkClaims (u_id row) (u_email row) (u_name row) (u_role row)).
  assert (Hverify : forall t : Z, t < later + 86400 ->
                                  jwt_verify (jwt_sign claims later) t = Some claims).
  { intros t Ht. apply jwt_verify_sign. exact Ht. }
  exists (jwt_sign claims later),
         (mkAuthUser (u_id row) (u_name row) (u_email row) (u_role row)),
         (map profile_of (order_by (desc u_created_at) (rows (users s1)))).
  split; [|split; [reflexivity|split]].
  - unfold login. simpl. rewrite Hsel. simpl. rewrite bcrypt_compare_hash. reflexivity.
  - intros t Ht. exists claims. split; [apply Hverify; exact Ht|]. split; reflexivity.
  - unfold route_getUsers. rewrite (protected_valid later _ claims); [reflexivity|].
    apply Hverify. lia.
Qed.

(** X22.  GET /init keeps the schema: in a store that satisfies the
    constraints, the admin account and the sample books go in without
    breaking a key, the UNIQUE email or the UNIQUE isbn. *)
Theorem init_consistent (now : Z) (salt : string) (s : Store) :
  consistent s -> consistent (snd (init now salt s)).
Proof.
  exact (init_keeps_the_constraints now salt s).
Qed.

(** ** The client *)

(** X23.  utils.generateStars always writes five stars, and the first
    [rating] of them are active: none for a rating of 0 or less, all five for
    5 or more.  A stored rating, which is between 1 and 5, is thus drawn as
    that many active stars followed by the rest inactive. *)
Theorem generateStars_shows_the_rating (rating : Z) :
  generateStars rating
  = String.concat ""
      (repeat (star_tag true) (Z.to_nat (Z.max 0 (Z.min 5 rating)))
       ++ repeat (star_tag false) (5 - Z.to_nat (Z.max 0 (Z.min 5 rating)))).
Proof.
  assert (Hcases : rating <= 0 \/ rating = 1 \/ rating = 2 \/ rating = 3 \/ rating = 4
                   \/ 5 <= rating) by lia.
  destruct Hcases as [Hlow|[->|[->|[->|[->|Hhigh]]]]]; try reflexivity.
  - replace (Z.max 0 (Z.min 5 rating)) with 0 by lia.
    unfold generateStars. simpl.
    rewrite !(proj2 (Z.leb_gt _ rating)) by lia. reflexivity.
  - replace (Z.max 0 (Z.min 5 rating)) with 5 by lia.
    unfold generateStars. simpl.
    rewrite !(proj2 (Z.leb_le _ rating)) by lia. reflexivity.
Qed.

(** ** Comments and sessions *)

Lemma comments_joined_with_users (s : Store) (l : list Comment) :
  primary_key u_id (users s) ->
  (forall c : Comment, In c l -> select_user s (cm_user_id c) <> []) ->
  map cv_comment
    (flat_map (fun c => map (fun u => mkCommentView c (u_name u) (u_email u))
                            (select_user s (cm_user_id c))) l)
  = l.
Proof.
  intros Hkey Hfk. induction l as [|c rest IH]; simpl; [reflexivity|].
  destruct (exactly_one_user s (cm_user_id c) Hkey (Hfk c (or_introl eq_refl))) as [u Hu].
  rewrite Hu. simpl. f_equal. apply IH.
  intros c0 Hc0. apply Hfk. right. exact Hc0.
Qed.

(** X24.  In a store that satisfies the schema GET /reviews/:id/comments
    lists each comment of the review exactly once, the oldest first: the JOIN
    with the users drops none, and gives each comment the name and email of
    the account that wrote it. *)
Theorem getComments_lists_every_comment (id : Z) (s : Store) :
  consistent s ->
  exists views : list CommentView,
    getComments id s = (json 200 (CommentList views), s) /\
    Permutation (map cv_comment views) (select_comments_by_review s id) /\
    StronglySorted (fun a b => cm_created_at a <= cm_created_at b) (map cv_comment views) /\
    forall v : CommentView, In v views ->
      exists author : User,
        select_user s (cm_user_id (cv_comment v)) = [author] /\
        cv_user_name v = u_name author /\ cv_user_email v = u_email author.
Proof.
  intros Hc. destruct Hc as [Ku _ _ _ _ _ _ _ [_ [Fcom _]]].
  set (sorted := order_by (asc cm_created_at) (select_comments_by_review s id)).
  assert (Hin : forall c : Comment, In c sorted -> select_user s (cm_user_id c) <> []).
  { intros c Hc. apply (Permutation_in _ (order_by_perm _ _)) in Hc.
    unfold select_comments_by_review in Hc. apply filter_In in Hc. apply Fcom. apply Hc. }
  pose proof (comments_joined_with_users s sorted Ku Hin) as Hmap.
  eexists. split; [reflexivity|]. fold sorted.
  split; [|split].
  - rewrite Hmap. apply order_by_perm.
  - rewrite Hmap. apply order_by_asc.
  - intros v Hv. apply in_flat_map in Hv. destruct Hv as [c [Hc Hv]].
    apply in_map_iff in Hv. destruct Hv as [u [<- Hu]]. simpl.
    destruct (exactly_one_user s (cm_user_id c) Ku (Hin c Hc)) as [author Hauthor].
    rewrite Hauthor in Hu. destruct Hu as [<-|[]].
    exists author. repeat split. exact Hauthor.
Qed.

(** X25.  The server signs tokens for stored accounts only.  An answer that
    carries a session comes from POST /register or POST /login; its token is
    signed at the time of the request over the id, email, name and role of a
    row of the users table, and the [user] of the answer is that row.  After
    /register the row is the new one, with the role 'user', for an email
    nobody had; after /login it is a row that was there, has the email of the
    request, and whose digest bcrypt matched with the password of the
    request. *)
Theorem sessions_are_of_stored_accounts (now : Z) (salt : string) (request : Request)
  (s : Store) (message : string) (token : Token) (user : AuthUser) :
  body (fst (serve now salt request s)) = Session message token user ->
  exists row : User,
    In row (rows (users (snd (serve now salt request s)))) /\
    token = jwt_sign (mkClaims (u_id row) (u_email row) (u_name row) (u_role row)) now /\
    user = mkAuthUser (u_id row) (u_name row) (u_email row) (u_role row) /\
    ((exists name email password : option string,
        request = PostRegister name email password /\
        select_users_by_email s (str email) = [] /\
        row = mkUser (auto_increment (users s)) (str name) (str email)
                (bcrypt_hash salt (str password)) RoleUser now) \/
     (exists email password : option string,
        request = PostLogin email password /\
        In row (rows (users s)) /\
        u_email row = str email /\
        bcrypt_compare (str password) (u_password row) = true)).
Proof.
  destruct request;
    [destruct (init_answer now salt s) as [s1 [Hinit _]]; simpl; rewrite Hinit; simpl;
     discriminate|..];
    simpl;
    try (intros H; exfalso; revert H; unfold_routes; unfold_handlers; case_split;
         repeat match goal with
                | Hs : match ?x with _ => _ end = _ |- _ => destruct x eqn:?
                | Hs : inl _ = inl _ |- _ => injection Hs as <-
                | Hs : inr _ = inl _ |- _ => discriminate Hs
                end;
         simpl; discriminate).
  - unfold register.
    destruct (falsy name || falsy email || falsy password); [simpl; discriminate|].
    destruct (select_users_by_email s (str email)) as [|taken rest] eqn:Hfree;
      [|simpl; discriminate].
    cbn [is_empty negb].
    match goal with
    | |- context [insert_user ?a ?b ?c ?d ?e] =>
        destruct (insert_user a b c d e) as [[insertId s']|] eqn:Hins; [|simpl; discriminate]
    end.
    simpl. intros [= <- <- <-].
    destruct (insert_user_selected _ _ _ _ _ _ _ Hfree Hins) as [-> Hrow].
    eexists. split; [|split; [|split; [|left; exists name, email, password;
                                         split; [reflexivity|]; split; [exact Hfree|];
                                         reflexivity]]].
    + assert (Hin : In (mkUser (auto_increment (users s)) (str name) (str email)
                          (bcrypt_hash salt (str password)) RoleUser now)
                       (select_users_by_email s' (str email)))
        by (rewrite Hrow; left; reflexivity).
      unfold select_users_by_email in Hin. apply filter_In in Hin. apply Hin.
    + reflexivity.
    + reflexivity.
  - unfold login.
    destruct (falsy email || falsy password); [simpl; discriminate|].
    destruct (select_users_by_email s (str email)) as [|row rest] eqn:Hsel;
      [simpl; discriminate|].
    destruct (negb (bcrypt_compare (str password) (u_password row))) eqn:Hpw;
      [simpl; discriminate|].
    simpl. intros [= <- <- <-].
    assert (Hin : In row (select_users_by_email s (str email)))
      by (rewrite Hsel; left; reflexivity).
    unfold select_users_by_email in Hin. apply filter_In in Hin. destruct Hin as [Hin Heq].
    exists row. split; [exact Hin|]. split; [reflexivity|]. split; [reflexivity|].
    right. exists email, password. split; [reflexivity|]. split; [exact Hin|].
    split; [apply String.eqb_eq; exact Heq | apply negb_false_iff; exact Hpw].
Qed.

End Server.

Arguments Error {Token} _.
Arguments Message {Token} _.
Arguments Created {Token} _ _.
Arguments Session {Token} _ _ _.
Arguments Profile {Token} _.
Arguments UserList {Token} _.
Arguments ReviewCount {Token} _.
Arguments BookList {Token} _.
Arguments BookPage {Token} _ _ _ _.
Arguments CommentList {Token} _.
Arguments ImageList {Token} _.
Arguments json {Token} _ _.
Arguments status {Token} _.
Arguments body {Token} _.
Arguments access_denied {Token}.

(** ** The handlers at work on the example store *)

(** An instance of C1: the first book has the ratings 5, 3 and 4. *)
Lemma getBookDetail_aggregates_library :
  select_book library 1 = [gatsby] /\
  ratings_of_book library 1 = [5; 3; 4] /\
  exists (views : list ReviewView) (average_rating : Q) (total_reviews : Z),
    getBookDetail ExampleToken 1 library
    = (json 200 (BookPage gatsby views average_rating total_reviews), library) /\
    total_reviews = 3 /\ (average_rating == 4)%Q /\
    (Qabs (average_rating - mean [5; 3; 4]%Z) <= 1 # 20000)%Q.
Proof.
  split; [reflexivity|]. split; [reflexivity|].
  destruct (getBookDetail_aggregates ExampleToken 1 library gatsby [] eq_refl)
    as [views [average_rating [total_reviews [Hpage [Htotal [_ [Hnear Hmean]]]]]]].
  exists views, average_rating, total_reviews.
  split; [exact Hpage|]. split; [exact Htotal|]. split; [exact (Hmean eq_refl)|].
  apply Hnear. discriminate.
Defined.

(** Against C1 as first stated: the ratings 5, 3 and 3 have the mean 11/3, and
    the page shows 3.6667. *)
Lemma getBookDetail_average_of_5_3_3 :
  select_book library_5_3_3 1 = [gatsby] /\
  ratings_of_book library_5_3_3 1 = [5; 3; 3] /\
  (mean [5; 3; 3]%Z == 11 # 3)%Q /\
  (exists views : list ReviewView,
     getBookDetail ExampleToken 1 library_5_3_3
     = (json 200 (BookPage gatsby views (36667 # 10000) 3), library_5_3_3)) /\
  ~ (36667 # 10000 == mean [5; 3; 3]%Z)%Q.
Proof.
  split; [reflexivity|]. split; [reflexivity|]. split; [reflexivity|].
  split; [eexists; reflexivity|].
  intros H. vm_compute in H. discriminate H.
Qed.

(** An instance of C1: a book without reviews. *)
Example getBookDetail_no_review :
  exists views : list ReviewView,
    getBookDetail ExampleToken 2 library = (json 200 (BookPage orwell views 0%Q 0), library).
Proof.
  eexists. reflexivity.
Qed.








(** An instance of C5: Alice rates the second book 5/2, which the
    handler accepts; the row holds 3. *)
Lemma accepted_ratings_alice :
  example_verify alice_token 100 = Some alice_claims /\
  status (fst (route_createReview ExampleToken example_verify example_number example_column
                 example_object_column 100 (Some alice_token) 2 (JNum (5 # 2)) None
                 library)) = 201 /\
  ~ outside_1_5 example_number (JNum (5 # 2)) /\
  exists z : Z,
    1 <= z <= 5 /\ z = sql_int (5 # 2) /\
    rows (reviews (snd (route_createReview ExampleToken example_verify example_number
                          example_column example_object_column 100 (Some alice_token) 2
                          (JNum (5 # 2)) None library)))
    = rows (reviews library)
      ++ [mkReview (auto_increment (reviews library)) 2 (claim_id alice_claims) z None 100].
Proof.
  split; [reflexivity|]. split; [reflexivity|].
  destruct (proj1 (proj2 (accepted_ratings ExampleToken example_verify example_number
                            example_column example_object_column example_object_row 100
                            alice_token alice_claims 2 (JNum (5 # 2)) None library eq_refl))
              eq_refl)
    as [Hin [z [Hrange [Hrows [Hnumber _]]]]].
  split; [exact Hin|]. exists z.
  split; [exact Hrange|]. split; [apply (Hnumber _ eq_refl) | exact Hrows].
Defined.

(** Against C5 as first stated: 5/2 is no integer between 1 and 5, and yet the
    handler answers 201 and a row is stored. *)
Lemma createReview_accepts_a_half :
  ~ integer_1_to_5 (JNum (5 # 2)) /\
  route_createReview ExampleToken example_verify example_number example_column
      example_object_column 100 (Some alice_token) 2 (JNum (5 # 2))
    None library
  = (json 201 (Created "Review created successfully" 4),
     set_reviews library
       (mkTable [alice_review; bob_review; admin_review; mkReview 4 2 2 3 None 100] 5)) /\
  route_updateReview ExampleToken example_verify example_number example_column
      example_object_row 100 (Some alice_token) 1 (JNum (5 # 2))
    None library
  = (json 200 (Message "Review updated successfully"),
     set_reviews library
       (mkTable [mkReview 1 1 2 3 None 30; bob_review; admin_review] 4)).
Proof.
  split; [|split; reflexivity].
  intros [z [Hz Heq]]. unfold Qeq in Heq. simpl in Heq. lia.
Qed.

(** The string "3" and [true] pass the test of the handlers as well: the
    rows hold 3 and 1. *)
Example createReview_accepts_a_string :
  route_createReview ExampleToken example_verify example_number example_column
    example_object_column 100 (Some alice_token) 2 (JStr "3") None library
  = (json 201 (Created "Review created successfully" 4),
     set_reviews library
       (mkTable [alice_review; bob_review; admin_review; mkReview 4 2 2 3 None 100] 5)) /\
  route_updateReview ExampleToken example_verify example_number example_column
    example_object_row 100 (Some alice_token) 1 (JBool true) None library
  = (json 200 (Message "Review updated successfully"),
     set_reviews library
       (mkTable [mkReview 1 1 2 1 None 30; bob_review; admin_review] 4)).
Proof.
  split; reflexivity.
Qed.

(** An instance of C6: no header, a token nobody signed, Alice's token
    after it expired, and Alice's valid token on two admin routes. *)
Lemma token_and_role_gates_library :
  example_verify stray_token 100 = None /\
  example_verify alice_token 86400 = None /\
  example_verify alice_token 100 = Some alice_claims /\
  claim_role alice_claims <> RoleAdmin /\
  serve ExampleToken example_sign example_verify example_hash example_compare
        example_number example_column example_object_column example_object_row 100 "salt"
    (DeleteReview ExampleToken None 1) library
  = (json 401 (Error "Access token required"), library) /\
  serve ExampleToken example_sign example_verify example_hash example_compare
        example_number example_column example_object_column example_object_row 100 "salt"
    (DeleteReview ExampleToken (Some stray_token) 1) library
  = (json 401 (Error "Invalid token"), library) /\
  serve ExampleToken example_sign example_verify example_hash example_compare
        example_number example_column example_object_column example_object_row 86400 "salt"
    (DeleteReview ExampleToken (Some alice_token) 1) library
  = (json 401 (Error "Invalid token"), library) /\
  serve ExampleToken example_sign example_verify example_hash example_compare
        example_number example_column example_object_column example_object_row 100 "salt"
    (GetUsers ExampleToken (Some alice_token)) library
  = (json 403 (Error "Access denied. Admin privileges required."), library) /\
  serve ExampleToken example_sign example_verify example_hash example_compare
        example_number example_column example_object_column example_object_row 100 "salt"
    (DeleteBook ExampleToken (Some alice_token) 1) library
  = (json 403 (Error "Access denied. Admin privileges required."), library).
Proof.
  assert (Hrole : claim_role alice_claims <> RoleAdmin) by discriminate.
  split; [reflexivity|]. split; [reflexivity|]. split; [reflexivity|].
  split; [exact Hrole|].
  split; [|split; [|split; [|split]]].
  - exact (proj1 (token_and_role_gates ExampleToken example_sign example_verify example_hash
      example_compare
        example_number example_column example_object_column example_object_row 100
                 "salt" (DeleteReview ExampleToken None 1) library)
             eq_refl).
  - exact (proj1 (proj2 (token_and_role_gates ExampleToken example_sign example_verify
      example_hash example_compare
        example_number example_column example_object_column example_object_row 100 "salt"
                           (DeleteReview ExampleToken (Some stray_token) 1) library))
             stray_token eq_refl eq_refl).
  - exact (proj1 (proj2 (token_and_role_gates ExampleToken example_sign example_verify
      example_hash example_compare
        example_number example_column example_object_column example_object_row 86400 "salt"
                           (DeleteReview ExampleToken (Some alice_token) 1) library))
             alice_token eq_refl eq_refl).
  - exact (proj2 (proj2 (token_and_role_gates ExampleToken example_sign example_verify
      example_hash example_compare
        example_number example_column example_object_column example_object_row 100 "salt"
                           (GetUsers ExampleToken (Some alice_token)) library))
             alice_token alice_claims eq_refl eq_refl eq_refl Hrole).
  - exact (proj2 (proj2 (token_and_role_gates ExampleToken example_sign example_verify
      example_hash example_compare
        example_number example_column example_object_column example_object_row 100 "salt"
                           (DeleteBook ExampleToken (Some alice_token) 1) library))
             alice_token alice_claims eq_refl eq_refl eq_refl Hrole).
Defined.

(** An instance of C7: the image hangs on Alice's review; Bob may not
    delete it, Alice and the admin may. *)
Lemma deleteImage_owner_or_admin_library :
  select_image library 1 = [alice_image] /\
  select_review library (im_review_id alice_image) = [alice_review] /\
  route_deleteImage ExampleToken example_verify 100 (Some bob_token) 1 library
  = (json 403 (Error "You can only delete images from your own reviews"), library) /\
  route_deleteImage ExampleToken example_verify 100 (Some alice_token) 1 library
  = (json 200 (Message "Image deleted successfully"), delete_image library 1) /\
  route_deleteImage ExampleToken example_verify 100 (Some admin_token) 1 library
  = (json 200 (Message "Image deleted successfully"), delete_image library 1) /\
  rows (images (delete_image library 1)) = [].
Proof.
  split; [reflexivity|]. split; [reflexivity|].
  split; [|split; [|split]].
  - apply (deleteImage_owner_or_admin ExampleToken example_verify 100 bob_token bob_claims 1
             library alice_image [] alice_review [] eq_refl eq_refl eq_refl).
    intros [H|H]; discriminate H.
  - apply (deleteImage_owner_or_admin ExampleToken example_verify 100 alice_token
             alice_claims 1 library alice_image [] alice_review [] eq_refl eq_refl eq_refl).
    left. reflexivity.
  - apply (deleteImage_owner_or_admin ExampleToken example_verify 100 admin_token
             admin_claims 1 library alice_image [] alice_review [] eq_refl eq_refl eq_refl).
    right. reflexivity.
  - reflexivity.
Defined.

Lemma example_compare_hash (salt password : string) :
  example_compare password (example_hash salt password) = true.
Proof.
  unfold example_compare, example_hash. apply String.eqb_refl.
Qed.

Lemma example_verify_sign (payload : Claims) (issued now : Z) :
  now < issued + 86400 -> example_verify (example_sign payload issued) now = Some payload.
Proof.
  intros H. unfold example_verify, example_sign.
  apply Z.ltb_lt in H. rewrite H. reflexivity.
Qed.

(** An instance of C8: Carol registers at time 100 and logs in at time
    200. *)
Lemma register_then_login_carol :
  select_users_by_email library "carol@example.com" = [] /\
  exists (token0 token : ExampleToken) (stored : User) (s' : Store),
    register ExampleToken example_sign example_hash 100 "salt"
      (Some "Carol") (Some "carol@example.com") (Some "s3cret") library
    = (json 201 (Session "User registered successfully" token0
                   (mkAuthUser (u_id stored) "Carol" "carol@example.com" RoleUser)), s') /\
    select_users_by_email s' "carol@example.com" = [stored] /\
    u_role stored = RoleUser /\
    login ExampleToken example_sign example_compare 200
      (Some "carol@example.com") (Some "s3cret") s'
    = (json 200 (Session "Login successful" token
                   (mkAuthUser (u_id stored) (u_name stored) (u_email stored)
                               (u_role stored))), s') /\
    example_verify token 300
    = Some (mkClaims (u_id stored) (u_email stored) (u_name stored) (u_role stored)).
Proof.
  split; [reflexivity|].
  destruct (register_then_login ExampleToken example_sign example_verify example_hash
              example_compare example_compare_hash example_verify_sign
              100 200 "salt" "Carol" "carol@example.com" "s3cret" library)
    as [token0 [token [stored [s' [Hreg [Hsel [_ [_ [Hrole [Hlogin Hverify]]]]]]]]]];
    try discriminate; try reflexivity.
  exists token0, token, stored, s'.
  split; [exact Hreg|]. split; [exact Hsel|]. split; [exact Hrole|].
  split; [exact Hlogin|]. apply Hverify. reflexivity.
Defined.

(** An instance of C9: Bob tries to attach an image to Alice's
    review. *)
Lemma addImage_to_review_of_somebody_else_bob :
  example_verify bob_token 100 = Some bob_claims /\
  select_review library 1 = [alice_review] /\
  r_user_id alice_review <> claim_id bob_claims /\
  claim_role bob_claims <> RoleAdmin /\
  route_addImage ExampleToken example_verify 100 (Some bob_token) 1
    (Some "https://example.com/spam.png") None library
  = (json 403 (Error "You can only add images to your own reviews"), library).
Proof.
  assert (Howner : r_user_id alice_review <> claim_id bob_claims) by discriminate.
  assert (Hrole : claim_role bob_claims <> RoleAdmin) by discriminate.
  split; [reflexivity|]. split; [reflexivity|]. split; [exact Howner|].
  split; [exact Hrole|].
  exact (proj1 (proj2 (addImage_to_review_of_somebody_else ExampleToken example_verify 100
                         bob_token bob_claims 1 (Some "https://example.com/spam.png") None
                         library alice_review [] eq_refl eq_refl Howner Hrole)) eq_refl).
Defined.

(** Against C9 as first stated: Bob's POST on Alice's review without an image URL is
    not answered 403 but 400. *)
Lemma addImage_to_review_of_somebody_else_no_url :
  example_verify bob_token 100 = Some bob_claims /\
  select_review library 1 = [alice_review] /\
  r_user_id alice_review <> claim_id bob_claims /\
  claim_role bob_claims <> RoleAdmin /\
  route_addImage ExampleToken example_verify 100 (Some bob_token) 1 None (Some "spam") library
  = (json 400 (Error "Image URL is required"), library) /\
  status (fst (route_addImage ExampleToken example_verify 100 (Some bob_token) 1 None
                 (Some "spam") library)) <> 403.
Proof.
  repeat split; discriminate.
Qed.

Lemma library_email_unique : email_unique library.
Proof.
  apply email_unique_of_NoDup. simpl.
  repeat constructor; simpl; intros H;
    repeat (destruct H as [H|H]; [discriminate H|]); exact H.
Qed.

Ltac all_different :=
  repeat (constructor;
          [simpl; intros Hin;
           repeat (destruct Hin as [Hin|Hin]; [discriminate Hin|]); exact Hin|]);
  constructor.

Ltac each_row Hin :=
  simpl in Hin; repeat (destruct Hin as [Hin|Hin]; [subst|]); [..|destruct Hin].

(** The example store satisfies the schema. *)
Lemma library_consistent : consistent library.
Proof.
  constructor.
  - split; [simpl; all_different|]. intros r Hin. each_row Hin; reflexivity.
  - split; [simpl; all_different|]. intros r Hin. each_row Hin; reflexivity.
  - split; [simpl; all_different|]. intros r Hin. each_row Hin; reflexivity.
  - split; [simpl; all_different|]. intros r Hin. each_row Hin; reflexivity.
  - split; [simpl; all_different|]. intros r Hin. each_row Hin; reflexivity.
  - exact library_email_unique.
  - apply isbn_unique_of_NoDup. simpl. all_different.
  - apply one_review_of_NoDup. simpl. all_different.
  - split; [|split].
    + intros r Hin. each_row Hin; split; discriminate.
    + intros c Hin. each_row Hin; split; discriminate.
    + intros i Hin. each_row Hin; discriminate.
Qed.

(** An instance of C10: Alice changes her name and sends the email
    she has. *)
Lemma updateProfile_same_email_alice :
  example_verify alice_token 100 = Some alice_claims /\
  email_unique library /\
  select_user library (claim_id alice_claims) = [alice_row] /\
  u_email alice_row <> "" /\
  route_updateProfile ExampleToken example_verify 100 (Some alice_token)
    (Some "Alice Liddell") (Some "alice@example.com") library
  = (json 200 (Message "Profile updated successfully"),
     set_users library
       (mkTable [admin_row;
                 mkUser 2 "Alice Liddell" "alice@example.com" "$2a$10$wonderland" RoleUser 10;
                 bob_row] 4)).
Proof.
  assert (Hemail : u_email alice_row <> "") by discriminate.
  split; [reflexivity|]. split; [exact library_email_unique|]. split; [reflexivity|].
  split; [exact Hemail|].
  destruct (proj1 (proj2 (updateProfile_same_email ExampleToken example_verify 100
                            alice_token alice_claims (Some "Alice Liddell") library
                            alice_row [] eq_refl library_email_unique eq_refl Hemail))
              eq_refl)
    as [s' [Hupdate Hroute]].
  injection Hupdate as <-. exact Hroute.
Defined.

(** Against C10 as first stated: Alice sends the email she has, and no name;
    the update does not succeed. *)
Lemma updateProfile_same_email_no_name :
  example_verify alice_token 100 = Some alice_claims /\
  select_user library (claim_id alice_claims) = [alice_row] /\
  u_email alice_row = "alice@example.com" /\
  route_updateProfile ExampleToken example_verify 100 (Some alice_token)
    None (Some "alice@example.com") library
  = (json 400 (Error "Name and email are required"), library) /\
  status (fst (route_updateProfile ExampleToken example_verify 100 (Some alice_token)
                 None (Some "alice@example.com") library)) <> 200.
Proof.
  repeat split; discriminate.
Qed.

(** ** More of the handlers at work on the example store *)

(** An instance of X1: the schema still holds after the admin deleted the
    first book, with its reviews, their comments and their images. *)
Lemma reachable_consistent_library :
  consistent library /\
  reachable ExampleToken example_sign example_verify example_hash example_compare
            example_number example_column example_object_column example_object_row library
    (snd (serve ExampleToken example_sign example_verify example_hash example_compare
                example_number example_column example_object_column example_object_row 100
            "salt" (DeleteBook ExampleToken (Some admin_token) 1) library)) /\
  consistent
    (snd (serve ExampleToken example_sign example_verify example_hash example_compare
                example_number example_column example_object_column example_object_row 100
            "salt" (DeleteBook ExampleToken (Some admin_token) 1) library)).
Proof.
  assert (Hreach :
            reachable ExampleToken example_sign example_verify example_hash example_compare
              example_number example_column example_object_column example_object_row
              library
              (snd (serve ExampleToken example_sign example_verify example_hash
                      example_compare example_number example_column example_object_column
                      example_object_row 100 "salt"
                      (DeleteBook ExampleToken (Some admin_token) 1) library))).
  { apply reachable_step. apply reachable_start. }
  split; [exact library_consistent|]. split; [exact Hreach|].
  exact (reachable_consistent ExampleToken example_sign example_verify example_hash
           example_compare example_number example_column example_object_column
           example_object_row library _ library_consistent Hreach).
Defined.

(** An instance of X4: the catalogue changed, and the request was the
    admin's. *)
Lemma catalogue_changes_need_an_admin_library :
  books (snd (serve ExampleToken example_sign example_verify example_hash example_compare
                    example_number example_column example_object_column example_object_row
                100 "salt" (DeleteBook ExampleToken (Some admin_token) 2) library))
  <> books library /\
  exists (token : ExampleToken) (user : Claims),
    admin_only ExampleToken (DeleteBook ExampleToken (Some admin_token) 2) = true /\
    token_header ExampleToken (DeleteBook ExampleToken (Some admin_token) 2)
    = Some (Some token) /\
    example_verify token 100 = Some user /\ claim_role user = RoleAdmin.
Proof.
  assert (Hchanged :
            books (snd (serve ExampleToken example_sign example_verify example_hash
                          example_compare example_number example_column
                          example_object_column example_object_row 100 "salt"
                          (DeleteBook ExampleToken (Some admin_token) 2) library))
            <> books library).
  { intros H. vm_compute in H. discriminate H. }
  split; [exact Hchanged|].
  destruct (catalogue_changes_need_an_admin ExampleToken example_sign example_verify
              example_hash example_compare example_number example_column
              example_object_column example_object_row 100 "salt"
              (DeleteBook ExampleToken (Some admin_token) 2) library Hchanged)
    as [Hadmin|[Hinit _]]; [exact Hadmin | discriminate Hinit].
Defined.

(** An instance of X5: the admin deletes the first book, and its three
    reviews, the comment and the image go with it. *)
Lemma deleteBook_cascade_library :
  example_verify admin_token 100 = Some admin_claims /\
  claim_role admin_claims = RoleAdmin /\
  select_book library 1 <> [] /\
  route_deleteBook ExampleToken example_verify 100 (Some admin_token) 1 library
  = (json 200 (Message "Book deleted successfully"), delete_book library 1) /\
  select_book (delete_book library 1) 1 = [] /\
  select_reviews_by_book (delete_book library 1) 1 = [] /\
  rows (comments (delete_book library 1)) = [] /\
  rows (images (delete_book library 1)) = [].
Proof.
  assert (Hbook : select_book library 1 <> []) by discriminate.
  split; [reflexivity|]. split; [reflexivity|]. split; [exact Hbook|].
  destruct (deleteBook_cascade ExampleToken example_verify 100 admin_token admin_claims 1
              library eq_refl eq_refl Hbook) as [Hroute [Hgone [Hreviews _]]].
  split; [exact Hroute|]. split; [exact Hgone|]. split; [exact Hreviews|].
  split; reflexivity.
Defined.

(** An instance of X6: Alice deletes her review. *)
Lemma deleteReview_by_owner_or_admin_alice :
  example_verify alice_token 100 = Some alice_claims /\
  select_review library 1 = [alice_review] /\
  r_user_id alice_review = claim_id alice_claims /\
  route_deleteReview ExampleToken example_verify 100 (Some alice_token) 1 library
  = (json 200 (Message "Review deleted successfully"), delete_review library 1) /\
  select_review (delete_review library 1) 1 = [] /\
  select_comments_by_review (delete_review library 1) 1 = [] /\
  select_images_by_review (delete_review library 1) 1 = [].
Proof.
  split; [reflexivity|]. split; [reflexivity|]. split; [reflexivity|].
  destruct (deleteReview_by_owner_or_admin ExampleToken example_verify 100 alice_token
              alice_claims 1 library alice_review [] eq_refl eq_refl (or_introl eq_refl))
    as [Hroute [Hgone [Hcomments [Himages _]]]].
  split; [exact Hroute|]. split; [exact Hgone|]. split; [exact Hcomments | exact Himages].
Defined.

(** An instance of X7: Bob deletes his comment; Alice, on whose review it
    stands, may not. *)
Lemma deleteComment_author_or_admin_library :
  example_verify bob_token 100 = Some bob_claims /\
  example_verify alice_token 100 = Some alice_claims /\
  select_comment library 1 = [bob_comment] /\
  cm_user_id bob_comment = claim_id bob_claims /\
  ~ (cm_user_id bob_comment = claim_id alice_claims \/ claim_role alice_claims = RoleAdmin) /\
  route_deleteComment ExampleToken example_verify 100 (Some bob_token) 1 library
  = (json 200 (Message "Comment deleted successfully"), delete_comment library 1) /\
  route_deleteComment ExampleToken example_verify 100 (Some alice_token) 1 library
  = (json 403 (Error "You can only delete your own comments"), library).
Proof.
  assert (Hother : ~ (cm_user_id bob_comment = claim_id alice_claims
                      \/ claim_role alice_claims = RoleAdmin)).
  { intros [H|H]; discriminate H. }
  split; [reflexivity|]. split; [reflexivity|]. split; [reflexivity|].
  split; [reflexivity|]. split; [exact Hother|]. split.
  - exact (proj1 (proj1 (deleteComment_author_or_admin ExampleToken example_verify 100
                           bob_token bob_claims 1 library bob_comment [] eq_refl eq_refl)
                    (or_introl eq_refl))).
  - exact (proj2 (deleteComment_author_or_admin ExampleToken example_verify 100 alice_token
                    alice_claims 1 library bob_comment [] eq_refl eq_refl) Hother).
Defined.

Lemma four_at_least_one : (1 <= 4)%Q.
Proof.
  unfold Qle. simpl. lia.
Qed.

Lemma four_at_most_five : (4 <= 5)%Q.
Proof.
  unfold Qle. simpl. lia.
Qed.


(** An instance of X9: after Alice's review, the page of the second book
    counts one review, rated 4. *)
Lemma createReview_then_getBookDetail_alice :
  createReview ExampleToken example_number example_column example_object_column 100 2
    (JNum 4) None alice_claims library
  = (json 201 (Created "Review created successfully" 4),
     set_reviews library
       (mkTable [alice_review; bob_review; admin_review; mkReview 4 2 2 4 None 100] 5)) /\
  select_book library 2 = [orwell] /\
  ratings_of_book library 2 = [] /\
  exists (views : list ReviewView) (average_rating : Q),
    getBookDetail ExampleToken 2
      (set_reviews library
         (mkTable [alice_review; bob_review; admin_review; mkReview 4 2 2 4 None 100] 5))
    = (json 200 (BookPage orwell views average_rating 1),
       set_reviews library
         (mkTable [alice_review; bob_review; admin_review; mkReview 4 2 2 4 None 100] 5)) /\
    (average_rating == 4)%Q.
Proof.
  split; [reflexivity|]. split; [reflexivity|]. split; [reflexivity|].
  destruct (createReview_then_getBookDetail ExampleToken example_number example_column
              example_object_column 100 alice_claims 2 (JNum 4) None library _
              "Review created successfully" 4 orwell [] eq_refl eq_refl)
    as [z [views [average_rating [_ [Hnumber [_ [_ [Hpage [_ [_ Hexact]]]]]]]]]].
  exists views, average_rating. split; [exact Hpage|].
  rewrite (Hnumber 4%Q eq_refl) in Hexact.
  rewrite Hexact; [reflexivity|]. exists 40000. reflexivity.
Defined.

(** An instance of X10: a second book with the ISBN of "1984" is refused by
    the schema; one without an ISBN is stored. *)
Lemma createBook_isbn_library :
  example_verify admin_token 100 = Some admin_claims /\
  claim_role admin_claims = RoleAdmin /\
  In orwell (rows (books library)) /\
  bk_isbn orwell = Some "978-0451524935" /\
  route_createBook ExampleToken example_verify 100 (Some admin_token)
    (mkBookFields (Some "Animal Farm") (Some "George Orwell") (Some "978-0451524935")
       None None None None) library
  = (json 500 (Error "Failed to create book"), library) /\
  exists s' : Store,
    route_createBook ExampleToken example_verify 100 (Some admin_token)
      (mkBookFields (Some "Animal Farm") (Some "George Orwell") None None None None None)
      library
    = (json 201 (Created "Book created successfully" 3), s').
Proof.
  assert (Hin : In orwell (rows (books library))) by (right; left; reflexivity).
  split; [reflexivity|]. split; [reflexivity|]. split; [exact Hin|].
  split; [reflexivity|]. split.
  - apply (createBook_isbn ExampleToken example_verify 100 admin_token admin_claims
             (mkBookFields (Some "Animal Farm") (Some "George Orwell")
                (Some "978-0451524935") None None None None)
             library eq_refl eq_refl eq_refl eq_refl).
    exists orwell. split; [exact Hin|]. split; [reflexivity | discriminate].
  - destruct (proj2 (createBook_isbn ExampleToken example_verify 100 admin_token
                       admin_claims
                       (mkBookFields (Some "Animal Farm") (Some "George Orwell") None None
                          None None None)
                       library eq_refl eq_refl eq_refl eq_refl))
      as [s' [Hroute _]].
    + intros b _ _. reflexivity.
    + exists s'. exact Hroute.
Defined.

(** An instance of X11: Alice's email is taken, and Carol's is once she has
    registered. *)
Lemma register_same_email_twice_library :
  select_users_by_email library "alice@example.com" <> [] /\
  select_users_by_email library "carol@example.com" = [] /\
  register ExampleToken example_sign example_hash 200 "pepper" (Some "Alice B.")
    (Some "alice@example.com") (Some "looking-glass") library
  = (json 400 (Error "User already exists"), library) /\
  register ExampleToken example_sign example_hash 200 "pepper" (Some "Carol B.")
    (Some "carol@example.com") (Some "other")
    (snd (register ExampleToken example_sign example_hash 100 "salt" (Some "Carol")
            (Some "carol@example.com") (Some "s3cret") library))
  = (json 400 (Error "User already exists"),
     snd (register ExampleToken example_sign example_hash 100 "salt" (Some "Carol")
            (Some "carol@example.com") (Some "s3cret") library)).
Proof.
  assert (Htaken : select_users_by_email library "alice@example.com" <> []) by discriminate.
  assert (Hname : "Carol" <> "") by discriminate.
  assert (Hemail : "carol@example.com" <> "") by discriminate.
  assert (Hemail' : "alice@example.com" <> "") by discriminate.
  assert (Hpassword : "s3cret" <> "") by discriminate.
  split; [exact Htaken|]. split; [reflexivity|]. split.
  - exact (proj1 (register_same_email_twice ExampleToken example_sign example_hash 100 200
                    "salt" "pepper" "Alice" "alice@example.com" "wonderland"
                    (Some "Alice B.") (Some "looking-glass") library Hemail' eq_refl
                    eq_refl) Htaken).
  - exact (proj2 (proj2 (register_same_email_twice ExampleToken example_sign example_hash
                           100 200 "salt" "pepper" "Carol" "carol@example.com" "s3cret"
                           (Some "Carol B.") (Some "other") library Hemail eq_refl eq_refl)
                    Hname Hpassword eq_refl)).
Defined.


(** An instance of X14: the page of the first book lists its three
    reviews. *)
Lemma getBookDetail_lists_every_review_library :
  consistent library /\
  select_book library 1 = [gatsby] /\
  exists (views : list ReviewView) (average_rating : Q),
    getBookDetail ExampleToken 1 library
    = (json 200 (BookPage gatsby views average_rating 3), library) /\
    Permutation (map rv_review views) [alice_review; bob_review; admin_review].
Proof.
  split; [exact library_consistent|]. split; [reflexivity|].
  destruct (getBookDetail_lists_every_review ExampleToken 1 library gatsby []
              library_consistent eq_refl)
    as [views [average_rating [total_reviews [Hpage [Htotal [Hperm _]]]]]].
  exists views, average_rating. split; [|exact Hperm].
  rewrite Hpage, <- Htotal, <- (length_map rv_review), (Permutation_length Hperm).
  reflexivity.
Defined.

Lemma too_harsh_is_visible : ~ white_space_only "Too harsh".
Proof.
  intros H. apply white_space_trim in H. vm_compute in H. discriminate H.
Qed.

Lemma blank_text_is_white_space : white_space_only blank_text.
Proof.
  exists [[32]; [194; 160]; [32]]. split; [|reflexivity].
  repeat (constructor; [unfold white_space; simpl;
                        repeat (first [left; reflexivity | right])|]).
  constructor.
Qed.

(** An instance of X15: Alice comments on Bob's review; a comment of blanks
    and a no-break space is refused. *)
Lemma addComment_by_any_account_alice :
  example_verify alice_token 100 = Some alice_claims /\
  ~ white_space_only "Too harsh" /\
  white_space_only blank_text /\
  select_review library 2 <> [] /\
  select_user library (claim_id alice_claims) <> [] /\
  (exists s' : Store,
     route_addComment ExampleToken example_verify 100 (Some alice_token) 2
       (Some "Too harsh") library
     = (json 201 (Created "Comment added successfully" 2), s') /\
     select_comments_by_review s' 2 = [mkComment 2 2 2 "Too harsh" 100]) /\
  route_addComment ExampleToken example_verify 100 (Some alice_token) 2 (Some blank_text)
    library
  = (json 400 (Error "Comment text is required"), library).
Proof.
  assert (Hreview : select_review library 2 <> []) by discriminate.
  assert (Huser : select_user library (claim_id alice_claims) <> []) by discriminate.
  split; [reflexivity|]. split; [exact too_harsh_is_visible|].
  split; [exact blank_text_is_white_space|].
  split; [exact Hreview|]. split; [exact Huser|]. split.
  - destruct (proj1 (addComment_by_any_account ExampleToken example_verify 100 alice_token
                       alice_claims 2 "Too harsh" library eq_refl)
                too_harsh_is_visible Hreview Huser)
      as [s' [Hroute [Hstored _]]].
    exists s'. split; [exact Hroute | exact Hstored].
  - exact (proj1 (proj2 (addComment_by_any_account ExampleToken example_verify 100
                           alice_token alice_claims 2 blank_text library eq_refl))
             blank_text_is_white_space).
Defined.

(** An instance of X16: the admin changes Alice's review to 4 stars. *)
Lemma updateReview_by_owner_or_admin_admin :
  example_verify admin_token 100 = Some admin_claims /\
  select_review library 1 = [alice_review] /\
  claim_role admin_claims = RoleAdmin /\
  exists s' : Store,
    route_updateReview ExampleToken example_verify example_number example_column
        example_object_row 100 (Some admin_token) 1 (JNum 4)
      (Some "Edited") library
    = (json 200 (Message "Review updated successfully"), s') /\
    select_review s' 1 = [mkReview 1 1 2 4 (Some "Edited") 30] /\
    select_review s' 2 = [bob_review].
Proof.
  split; [reflexivity|]. split; [reflexivity|]. split; [reflexivity|].
  destruct (updateReview_by_owner_or_admin ExampleToken example_verify example_number
      example_column example_object_row 100 admin_token
              admin_claims 1 4%Q (Some "Edited") library alice_review [] eq_refl eq_refl
              (or_intror eq_refl) four_at_least_one four_at_most_five)
    as [s' [Hroute [Hstored [_ [Hothers _]]]]].
  exists s'. split; [exact Hroute|]. split; [exact Hstored|].
  rewrite (Hothers 2); [reflexivity | discriminate].
Defined.

(** An instance of X17: Alice changes her name and her email and reads her
    profile with the token she had. *)
Lemma updateProfile_then_getProfile_alice :
  example_verify alice_token 100 = Some alice_claims /\
  example_verify alice_token 200 = Some alice_claims /\
  select_user library (claim_id alice_claims) = [alice_row] /\
  route_updateProfile ExampleToken example_verify 100 (Some alice_token)
    (Some "Alice Liddell") (Some "liddell@example.com") library
  = (json 200 (Message "Profile updated successfully"),
     set_users library
       (mkTable [admin_row;
                 mkUser 2 "Alice Liddell" "liddell@example.com" "$2a$10$wonderland"
                   RoleUser 10;
                 bob_row] 4)) /\
  route_getProfile ExampleToken example_verify 200 (Some alice_token)
    (set_users library
       (mkTable [admin_row;
                 mkUser 2 "Alice Liddell" "liddell@example.com" "$2a$10$wonderland"
                   RoleUser 10;
                 bob_row] 4))
  = (json 200 (Profile (mkProfileRow 2 "Alice Liddell" "liddell@example.com" RoleUser 10)),
     set_users library
       (mkTable [admin_row;
                 mkUser 2 "Alice Liddell" "liddell@example.com" "$2a$10$wonderland"
                   RoleUser 10;
                 bob_row] 4)).
Proof.
  split; [reflexivity|]. split; [reflexivity|]. split; [reflexivity|].
  split; [reflexivity|].
  exact (proj1 (updateProfile_then_getProfile ExampleToken example_verify 100 200
                  alice_token alice_token alice_claims alice_claims (Some "Alice Liddell")
                  (Some "liddell@example.com") library _ alice_row []
                  "Profile updated successfully" eq_refl eq_refl eq_refl eq_refl eq_refl)).
Defined.

(** An instance of X18: Alice adds a second image to her review. *)
Lemma addImage_then_getImages_alice :
  example_verify alice_token 100 = Some alice_claims /\
  select_review library 1 = [alice_review] /\
  r_user_id alice_review = claim_id alice_claims /\
  exists (s' : Store) (listed : list Image),
    route_addImage ExampleToken example_verify 100 (Some alice_token) 1
      (Some "https://example.com/back.png") None library
    = (json 201 (Created "Image added successfully" 2), s') /\
    getImages ExampleToken 1 s' = (json 200 (ImageList listed), s') /\
    Permutation listed
      [mkImage 2 1 "https://example.com/back.png" None 100; alice_image].
Proof.
  assert (Hurl : "https://example.com/back.png" <> "") by discriminate.
  split; [reflexivity|]. split; [reflexivity|]. split; [reflexivity|].
  exact (addImage_then_getImages ExampleToken example_verify 100 alice_token alice_claims 1
           "https://example.com/back.png" None library alice_review [] eq_refl eq_refl
           (or_introl eq_refl) Hurl).
Defined.

(** The database right after its creation satisfies the schema. *)
Lemma empty_store_consistent : consistent empty_store.
Proof.
  constructor.
  - split; [constructor | intros r []].
  - split; [constructor | intros r []].
  - split; [constructor | intros r []].
  - split; [constructor | intros r []].
  - split; [constructor | intros r []].
  - intros e. simpl. lia.
  - apply isbn_unique_of_NoDup. constructor.
  - apply one_review_of_NoDup. constructor.
  - split; [|split]; intros r [].
Qed.

(** An instance of X21: GET /init on the new database, then the login of
    the default admin. *)
Lemma init_then_admin_login_new_database :
  select_users_by_email empty_store "admin@example.com" = [] /\
  exists (token : ExampleToken) (admin : AuthUser) (listed : list ProfileRow),
    login ExampleToken example_sign example_compare 100
      (Some "admin@example.com") (Some "admin123")
      (snd (init ExampleToken example_hash 0 "salt" empty_store))
    = (json 200 (Session "Login successful" token admin),
       snd (init ExampleToken example_hash 0 "salt" empty_store)) /\
    au_role admin = RoleAdmin /\
    route_getUsers ExampleToken example_verify 100 (Some token)
      (snd (init ExampleToken example_hash 0 "salt" empty_store))
    = (json 200 (UserList listed), snd (init ExampleToken example_hash 0 "salt" empty_store)).
Proof.
  split; [reflexivity|].
  destruct (init_then_admin_login ExampleToken example_sign example_verify example_hash
              example_compare example_compare_hash example_verify_sign 0 100 "salt"
              empty_store eq_refl)
    as [token [admin [listed [Hlogin [Hrole [_ Husers]]]]]].
  exists token, admin, listed.
  split; [exact Hlogin|]. split; [exact Hrole | exact Husers].
Defined.

(** An instance of X22: the new database after GET /init. *)
Lemma init_consistent_new_database :
  consistent empty_store /\
  consistent (snd (init ExampleToken example_hash 0 "salt" empty_store)) /\
  map u_email (rows (users (snd (init ExampleToken example_hash 0 "salt" empty_store))))
  = ["admin@example.com"] /\
  map bk_id (rows (books (snd (init ExampleToken example_hash 0 "salt" empty_store))))
  = [1; 2; 3].
Proof.
  split; [exact empty_store_consistent|].
  split; [|split; reflexivity].
  exact (init_consistent ExampleToken example_hash 0 "salt" empty_store
           empty_store_consistent).
Defined.

(** An instance of X24: the comments of Alice's review. *)
Lemma getComments_lists_every_comment_library :
  consistent library /\
  exists views : list CommentView,
    getComments ExampleToken 1 library = (json 200 (CommentList views), library) /\
    Permutation (map cv_comment views) [bob_comment] /\
    forall v : CommentView, In v views ->
      exists author : User,
        select_user library (cm_user_id (cv_comment v)) = [author] /\
        cv_user_name v = u_name author /\ cv_user_email v = u_email author.
Proof.
  split; [exact library_consistent|].
  destruct (getComments_lists_every_comment ExampleToken 1 library library_consistent)
    as [views [Hlist [Hperm [_ Hauthors]]]].
  exists views. split; [exact Hlist|]. split; [exact Hperm | exact Hauthors].
Defined.

(** An instance of X25: Alice logs in. *)
Lemma sessions_are_of_stored_accounts_alice :
  body (fst (serve ExampleToken example_sign example_verify example_hash example_compare
                   example_number example_column example_object_column example_object_row 100
               "salt"
               (PostLogin ExampleToken (Some "alice@example.com") (Some "wonderland"))
               library))
  = Session "Login successful" (example_sign alice_claims 100)
      (mkAuthUser 2 "Alice" "alice@example.com" RoleUser) /\
  exists row : User,
    In row (rows (users library)) /\
    example_sign alice_claims 100
    = example_sign (mkClaims (u_id row) (u_email row) (u_name row) (u_role row)) 100 /\
    mkAuthUser 2 "Alice" "alice@example.com" RoleUser
    = mkAuthUser (u_id row) (u_name row) (u_email row) (u_role row).
Proof.
  split; [reflexivity|].
  destruct (sessions_are_of_stored_accounts ExampleToken example_sign example_verify
      example_hash example_compare
        example_number example_column example_object_column example_object_row 100 "salt"
              (PostLogin ExampleToken (Some "alice@example.com") (Some "wonderland"))
              library "Login successful" (example_sign alice_claims 100)
              (mkAuthUser 2 "Alice" "alice@example.com" RoleUser) eq_refl)
    as [row [Hin [Htoken [Huser _]]]].
  exists row. split; [exact Hin|]. split; [exact Htoken | exact Huser].
Defined.
